(** * LensBridge gallery page: view-state machine of [src/pages/Gallery.jsx]

    A shallow embedding of the [Gallery] React component: its state
    variables, its event handlers, the gallery fetch effect, the debounce
    effect of the search box, the lightbox viewer and the page-number
    window of the pagination controls.

    Conventions.
    - JavaScript numbers that the component uses as integers (page numbers,
      sizes, indices) are [Z]; the remainder operator [%] is [Z.rem]
      (sign of the dividend) and yields [NaN] on a zero divisor.
    - A React state variable is a field of [GalleryState]; a handler is a
      function on the component's world.  The updates a handler enqueues
      are applied together, then the effects whose dependencies changed run.
    - The browser is an explicit part of the world: the one pending debounce
      timer, the log of requests sent to the gallery endpoint, the fetch
      tasks that are suspended at an [await], the bound [keydown] listener
      with the page it saw, and the log of [URL.revokeObjectURL] calls. *)

From Stdlib Require Import ZArith List String Ascii Bool Lia.
From Stdlib Require Import DecimalString.
Import ListNotations.

Local Open Scope string_scope.
Local Open Scope Z_scope.

(* ------------------------------------------------------------------ *)
(** ** JavaScript string primitives used by the component *)

Module JsString.

(** [String.prototype.toLowerCase] on the ASCII range. *)
Definition lowerChar (c : ascii) : ascii :=
  let n := nat_of_ascii c in
  if (Nat.leb 65 n && Nat.leb n 90)%bool then ascii_of_nat (n + 32) else c.

Fixpoint toLowerCase (s : string) : string :=
  match s with
  | EmptyString => EmptyString
  | String c t => String (lowerChar c) (toLowerCase t)
  end.

(** [s.startsWith(p)] *)
Definition startsWith (p s : string) : bool := String.prefix p s.

(** [s.includes(needle)] *)
Fixpoint includes (needle s : string) : bool :=
  String.prefix needle s
  || match s with
     | EmptyString => false
     | String _ t => includes needle t
     end.

(** Truthiness of a string: only the empty string is falsy. *)
Definition truthy (s : string) : bool := negb (String.eqb s "").

(** [Number.prototype.toString] on an integer. *)
Definition ofNumber (z : Z) : string := NilZero.string_of_int (Z.to_int z).

End JsString.

(* ------------------------------------------------------------------ *)
(** ** Media items *)

(** One entry of the gallery listing.  [originalSrc] is absent on items as
    the server sends them; [processGalleryItems] adds it. *)
Record MediaItem := mkItem {
  id : Z;
  type : string;
  src : string;
  title : string;
  event : string;
  author : string;
  date : string;
  featured : bool;
  originalSrc : option string
}.

(** [{ ...item, src: s, originalSrc: o }] *)
Definition withSrc (item : MediaItem) (s o : string) : MediaItem :=
  {| id := id item; type := type item; src := s; title := title item;
     event := event item; author := author item; date := date item;
     featured := featured item; originalSrc := Some o |}.

(* ------------------------------------------------------------------ *)
(** ** HEIC conversion ([convertHeicToJpeg], [processGalleryItems]) *)

Record Blob := mkBlob { blobType : string; blobData : Z }.

(** What the conversion reaches outside the component: the [heic2any]
    import, the network and [URL.createObjectURL].  [None] stands for a
    rejected promise or a thrown exception. *)
Record HeicEnv := mkHeicEnv {
  heic2anyLoaded : bool;
  fetchBlob : string -> option Blob;
  heic2any : Blob -> option Blob;
  createObjectURL : Blob -> string
}.

(** The exits of the [try] block of [convertHeicToJpeg]. *)
Inductive Attempt :=
| LibraryMissing
| FetchFailed
| NotHeic
| ConversionFailed
| Converted (url : string).

Definition attemptConversion (env : HeicEnv) (imageUrl : string) : Attempt :=
  if negb (heic2anyLoaded env) then LibraryMissing
  else match fetchBlob env imageUrl with
       | None => FetchFailed
       | Some blob =>
           if (negb (JsString.includes "heic" (blobType blob))
               && negb (JsString.includes "heif" (blobType blob)))%bool
           then NotHeic
           else match heic2any env blob with
                | None => ConversionFailed
                | Some convertedBlob => Converted (createObjectURL env convertedBlob)
                end
       end.

(** Every exit but the last returns [imageUrl]; so does the [catch]. *)
Definition convertHeicToJpeg (env : HeicEnv) (imageUrl : string) : string :=
  match attemptConversion env imageUrl with
  | Converted convertedUrl => convertedUrl
  | LibraryMissing | FetchFailed | NotHeic | ConversionFailed => imageUrl
  end.

(** The test of [processGalleryItems] on an item: an image whose locator
    names the HEIC or HEIF container. *)
Definition namesHeic (locator : string) : bool :=
  (JsString.includes ".heic" (JsString.toLowerCase locator)
   || JsString.includes ".heif" (JsString.toLowerCase locator))%bool.

Definition flaggedHeic (item : MediaItem) : bool :=
  (String.eqb (type item) "image" && namesHeic (src item))%bool.

Definition processItem (env : HeicEnv) (item : MediaItem) : MediaItem :=
  if flaggedHeic item
  then withSrc item (convertHeicToJpeg env (src item)) (src item)
  else item.

Definition processGalleryItems (env : HeicEnv) (items : list MediaItem)
  : list MediaItem :=
  map (processItem env) items.

(* ------------------------------------------------------------------ *)
(** ** Numbers that may be [NaN] *)

Inductive JsNum :=
| Num (z : Z)
| NaN.

Definition jsAdd (a b : JsNum) : JsNum :=
  match a, b with
  | Num x, Num y => Num (x + y)
  | _, _ => NaN
  end.

Definition jsSub (a b : JsNum) : JsNum :=
  match a, b with
  | Num x, Num y => Num (x - y)
  | _, _ => NaN
  end.

(** [a % b]: the sign follows the dividend; a zero divisor gives [NaN]. *)
Definition jsRem (a b : JsNum) : JsNum :=
  match a, b with
  | Num x, Num y => if y =? 0 then NaN else Num (Z.rem x y)
  | _, _ => NaN
  end.

(** [items.length] *)
Definition jsLength {A} (items : list A) : JsNum := Num (Z.of_nat (List.length items)).

(** [items[n]]: [undefined] outside the array and at [NaN]. *)
Definition arrayGet {A} (items : list A) (n : JsNum) : option A :=
  match n with
  | Num z => if z <? 0 then None else nth_error items (Z.to_nat z)
  | NaN => None
  end.

(** [items.findIndex(p)]: the first position where [p] holds, else [-1]. *)
Fixpoint findIndexFrom {A} (p : A -> bool) (items : list A) (k : Z) : Z :=
  match items with
  | [] => -1
  | x :: rest => if p x then k else findIndexFrom p rest (k + 1)
  end.

Definition findIndex {A} (p : A -> bool) (items : list A) : Z :=
  findIndexFrom p items 0.

(* ------------------------------------------------------------------ *)
(** ** Component state *)

Record Pageable := mkPageable { page : Z; size : Z; sort : string }.

(** The [useState] variables of [Gallery] ([hoveredItem], which only
    drives a CSS class, is left out).  [pageableRef] and [galleryItemsRef]
    stand for the identity of the object held in [pageable] and of the
    array held in [galleryItems]: React compares effect dependencies with
    [Object.is], so a new object re-runs the effect even when its fields
    are the same. *)
Record GalleryState := mkGalleryState {
  searchTerm : string;
  selectedFilter : string;
  galleryItems : list MediaItem;
  galleryItemsRef : nat;
  isLoading : bool;
  isPaginating : bool;
  error : option string;
  selectedItem : option MediaItem;
  currentIndex : JsNum;
  isVideoPlaying : bool;
  currentPage : Z;
  pageSize : Z;
  totalPages : Z;
  totalElements : Z;
  pageable : Pageable;
  pageableRef : nat;
  searchInput : string
}.

Definition setSearchTerm (v : string) (s : GalleryState) : GalleryState :=
  {| searchTerm := v; selectedFilter := selectedFilter s;
     galleryItems := galleryItems s; galleryItemsRef := galleryItemsRef s;
     isLoading := isLoading s; isPaginating := isPaginating s;
     error := error s; selectedItem := selectedItem s;
     currentIndex := currentIndex s; isVideoPlaying := isVideoPlaying s;
     currentPage := currentPage s; pageSize := pageSize s;
     totalPages := totalPages s; totalElements := totalElements s;
     pageable := pageable s; pageableRef := pageableRef s;
     searchInput := searchInput s |}.

Definition setSelectedFilter (v : string) (s : GalleryState) : GalleryState :=
  {| searchTerm := searchTerm s; selectedFilter := v;
     galleryItems := galleryItems s; galleryItemsRef := galleryItemsRef s;
     isLoading := isLoading s; isPaginating := isPaginating s;
     error := error s; selectedItem := selectedItem s;
     currentIndex := currentIndex s; isVideoPlaying := isVideoPlaying s;
     currentPage := currentPage s; pageSize := pageSize s;
     totalPages := totalPages s; totalElements := totalElements s;
     pageable := pageable s; pageableRef := pageableRef s;
     searchInput := searchInput s |}.

Definition setIsLoading (b : bool) (s : GalleryState) : GalleryState :=
  {| searchTerm := searchTerm s; selectedFilter := selectedFilter s;
     galleryItems := galleryItems s; galleryItemsRef := galleryItemsRef s;
     isLoading := b; isPaginating := isPaginating s; error := error s;
     selectedItem := selectedItem s; currentIndex := currentIndex s;
     isVideoPlaying := isVideoPlaying s; currentPage := currentPage s;
     pageSize := pageSize s; totalPages := totalPages s;
     totalElements := totalElements s; pageable := pageable s;
     pageableRef := pageableRef s; searchInput := searchInput s |}.

Definition setIsPaginating (b : bool) (s : GalleryState) : GalleryState :=
  {| searchTerm := searchTerm s; selectedFilter := selectedFilter s;
     galleryItems := galleryItems s; galleryItemsRef := galleryItemsRef s;
     isLoading := isLoading s; isPaginating := b; error := error s;
     selectedItem := selectedItem s; currentIndex := currentIndex s;
     isVideoPlaying := isVideoPlaying s; currentPage := currentPage s;
     pageSize := pageSize s; totalPages := totalPages s;
     totalElements := totalElements s; pageable := pageable s;
     pageableRef := pageableRef s; searchInput := searchInput s |}.

Definition setError (e : option string) (s : GalleryState) : GalleryState :=
  {| searchTerm := searchTerm s; selectedFilter := selectedFilter s;
     galleryItems := galleryItems s; galleryItemsRef := galleryItemsRef s;
     isLoading := isLoading s; isPaginating := isPaginating s; error := e;
     selectedItem := selectedItem s; currentIndex := currentIndex s;
     isVideoPlaying := isVideoPlaying s; currentPage := currentPage s;
     pageSize := pageSize s; totalPages := totalPages s;
     totalElements := totalElements s; pageable := pageable s;
     pageableRef := pageableRef s; searchInput := searchInput s |}.

Definition setSelectedItem (it : option MediaItem) (s : GalleryState) : GalleryState :=
  {| searchTerm := searchTerm s; selectedFilter := selectedFilter s;
     galleryItems := galleryItems s; galleryItemsRef := galleryItemsRef s;
     isLoading := isLoading s; isPaginating := isPaginating s;
     error := error s; selectedItem := it; currentIndex := currentIndex s;
     isVideoPlaying := isVideoPlaying s; currentPage := currentPage s;
     pageSize := pageSize s; totalPages := totalPages s;
     totalElements := totalElements s; pageable := pageable s;
     pageableRef := pageableRef s; searchInput := searchInput s |}.

Definition setCurrentIndex (n : JsNum) (s : GalleryState) : GalleryState :=
  {| searchTerm := searchTerm s; selectedFilter := selectedFilter s;
     galleryItems := galleryItems s; galleryItemsRef := galleryItemsRef s;
     isLoading := isLoading s; isPaginating := isPaginating s;
     error := error s; selectedItem := selectedItem s; currentIndex := n;
     isVideoPlaying := isVideoPlaying s; currentPage := currentPage s;
     pageSize := pageSize s; totalPages := totalPages s;
     totalElements := totalElements s; pageable := pageable s;
     pageableRef := pageableRef s; searchInput := searchInput s |}.

Definition setIsVideoPlaying (b : bool) (s : GalleryState) : GalleryState :=
  {| searchTerm := searchTerm s; selectedFilter := selectedFilter s;
     galleryItems := galleryItems s; galleryItemsRef := galleryItemsRef s;
     isLoading := isLoading s; isPaginating := isPaginating s;
     error := error s; selectedItem := selectedItem s;
     currentIndex := currentIndex s; isVideoPlaying := b;
     currentPage := currentPage s; pageSize := pageSize s;
     totalPages := totalPages s; totalElements := totalElements s;
     pageable := pageable s; pageableRef := pageableRef s;
     searchInput := searchInput s |}.

Definition setCurrentPage (n : Z) (s : GalleryState) : GalleryState :=
  {| searchTerm := searchTerm s; selectedFilter := selectedFilter s;
     galleryItems := galleryItems s; galleryItemsRef := galleryItemsRef s;
     isLoading := isLoading s; isPaginating := isPaginating s;
     error := error s; selectedItem := selectedItem s;
     currentIndex := currentIndex s; isVideoPlaying := isVideoPlaying s;
     currentPage := n; pageSize := pageSize s; totalPages := totalPages s;
     totalElements := totalElements s; pageable := pageable s;
     pageableRef := pageableRef s; searchInput := searchInput s |}.

Definition setPageSize (n : Z) (s : GalleryState) : GalleryState :=
  {| searchTerm := searchTerm s; selectedFilter := selectedFilter s;
     galleryItems := galleryItems s; galleryItemsRef := galleryItemsRef s;
     isLoading := isLoading s; isPaginating := isPaginating s;
     error := error s; selectedItem := selectedItem s;
     currentIndex := currentIndex s; isVideoPlaying := isVideoPlaying s;
     currentPage := currentPage s; pageSize := n; totalPages := totalPages s;
     totalElements := totalElements s; pageable := pageable s;
     pageableRef := pageableRef s; searchInput := searchInput s |}.

Definition setTotalPages (n : Z) (s : GalleryState) : GalleryState :=
  {| searchTerm := searchTerm s; selectedFilter := selectedFilter s;
     galleryItems := galleryItems s; galleryItemsRef := galleryItemsRef s;
     isLoading := isLoading s; isPaginating := isPaginating s;
     error := error s; selectedItem := selectedItem s;
     currentIndex := currentIndex s; isVideoPlaying := isVideoPlaying s;
     currentPage := currentPage s; pageSize := pageSize s; totalPages := n;
     totalElements := totalElements s; pageable := pageable s;
     pageableRef := pageableRef s; searchInput := searchInput s |}.

Definition setTotalElements (n : Z) (s : GalleryState) : GalleryState :=
  {| searchTerm := searchTerm s; selectedFilter := selectedFilter s;
     galleryItems := galleryItems s; galleryItemsRef := galleryItemsRef s;
     isLoading := isLoading s; isPaginating := isPaginating s;
     error := error s; selectedItem := selectedItem s;
     currentIndex := currentIndex s; isVideoPlaying := isVideoPlaying s;
     currentPage := currentPage s; pageSize := pageSize s;
     totalPages := totalPages s; totalElements := n; pageable := pageable s;
     pageableRef := pageableRef s; searchInput := searchInput s |}.

Definition setSearchInput (v : string) (s : GalleryState) : GalleryState :=
  {| searchTerm := searchTerm s; selectedFilter := selectedFilter s;
     galleryItems := galleryItems s; galleryItemsRef := galleryItemsRef s;
     isLoading := isLoading s; isPaginating := isPaginating s;
     error := error s; selectedItem := selectedItem s;
     currentIndex := currentIndex s; isVideoPlaying := isVideoPlaying s;
     currentPage := currentPage s; pageSize := pageSize s;
     totalPages := totalPages s; totalElements := totalElements s;
     pageable := pageable s; pageableRef := pageableRef s;
     searchInput := v |}.

(** The argument is always a freshly built array, so the dependency
    [galleryItems] of the cleanup effect changes at every call. *)
Definition setGalleryItems (items : list MediaItem) (s : GalleryState) : GalleryState :=
  {| searchTerm := searchTerm s; selectedFilter := selectedFilter s;
     galleryItems := items; galleryItemsRef := S (galleryItemsRef s);
     isLoading := isLoading s; isPaginating := isPaginating s;
     error := error s; selectedItem := selectedItem s;
     currentIndex := currentIndex s; isVideoPlaying := isVideoPlaying s;
     currentPage := currentPage s; pageSize := pageSize s;
     totalPages := totalPages s; totalElements := totalElements s;
     pageable := pageable s; pageableRef := pageableRef s;
     searchInput := searchInput s |}.

(** [setPageable(prev => f(prev))]: the updater always returns a new
    object. *)
Definition setPageable (f : Pageable -> Pageable) (s : GalleryState) : GalleryState :=
  {| searchTerm := searchTerm s; selectedFilter := selectedFilter s;
     galleryItems := galleryItems s; galleryItemsRef := galleryItemsRef s;
     isLoading := isLoading s; isPaginating := isPaginating s;
     error := error s; selectedItem := selectedItem s;
     currentIndex := currentIndex s; isVideoPlaying := isVideoPlaying s;
     currentPage := currentPage s; pageSize := pageSize s;
     totalPages := totalPages s; totalElements := totalElements s;
     pageable := f (pageable s); pageableRef := S (pageableRef s);
     searchInput := searchInput s |}.

(** [{ ...prev, page: p }] and [{ ...prev, size: n, page: 0 }] *)
Definition withPage (p : Z) (prev : Pageable) : Pageable :=
  {| page := p; size := size prev; sort := sort prev |}.

Definition withSizeAndPage (n p : Z) (prev : Pageable) : Pageable :=
  {| page := p; size := n; sort := sort prev |}.

(** The values of the [useState] calls. *)
Definition initialState : GalleryState :=
  {| searchTerm := ""; selectedFilter := "all"; galleryItems := [];
     galleryItemsRef := O; isLoading := true; isPaginating := false;
     error := None; selectedItem := None; currentIndex := Num 0;
     isVideoPlaying := false; currentPage := 0; pageSize := 12;
     totalPages := 0; totalElements := 0;
     pageable := {| page := 0; size := 12; sort := "date,desc" |};
     pageableRef := O; searchInput := "" |}.

(* ------------------------------------------------------------------ *)
(** ** Handlers that only touch component state *)

Definition handleSearchChange (value : string) (s : GalleryState) : GalleryState :=
  setSearchInput value s.

Definition handleFilterChange (filter : string) (s : GalleryState) : GalleryState :=
  setPageable (withPage 0) (setSelectedFilter filter s).

Definition handlePageChange (newPage : Z) (s : GalleryState) : GalleryState :=
  if ((0 <=? newPage) && (newPage <? totalPages s))%bool
  then setPageable (withPage newPage) s
  else s.

Definition handlePageSizeChange (newSize : Z) (s : GalleryState) : GalleryState :=
  setPageable (withSizeAndPage newSize 0) s.

(** The callback of the debounce timer; [captured] is the [searchInput] of
    the render that scheduled it. *)
Definition debounceCallback (captured : string) (s : GalleryState) : GalleryState :=
  setPageable (withPage 0) (setSearchTerm captured s).

(** [filteredItems] is [galleryItems]: filtering is done by the server. *)
Definition filteredItems (s : GalleryState) : list MediaItem := galleryItems s.

Definition openViewer (item : MediaItem) (s : GalleryState) : GalleryState :=
  let index := findIndex (fun i => id i =? id item) (filteredItems s) in
  setIsVideoPlaying false (setSelectedItem (Some item) (setCurrentIndex (Num index) s)).

Inductive Direction := next | prev.

Definition navigateIndex (direction : Direction) (s : GalleryState) : JsNum :=
  match direction with
  | next => jsRem (jsAdd (currentIndex s) (Num 1)) (jsLength (filteredItems s))
  | prev => jsRem (jsAdd (jsSub (currentIndex s) (Num 1)) (jsLength (filteredItems s)))
                  (jsLength (filteredItems s))
  end.

Definition navigateViewer (direction : Direction) (s : GalleryState) : GalleryState :=
  let newIndex := navigateIndex direction s in
  setIsVideoPlaying false
    (setSelectedItem (arrayGet (filteredItems s) newIndex) (setCurrentIndex newIndex s)).

(** [toggleVideoPlayback]: the [.viewer-video] element exists exactly when
    the viewer shows a video. *)
Definition viewerVideoPresent (s : GalleryState) : bool :=
  match selectedItem s with
  | Some item => String.eqb (type item) "video"
  | None => false
  end.

Definition toggleVideoPlayback (s : GalleryState) : GalleryState :=
  if viewerVideoPresent s
  then (if isVideoPlaying s then setIsVideoPlaying false s else setIsVideoPlaying true s)
  else s.

(* ------------------------------------------------------------------ *)
(** ** Pagination controls *)

(** The callback of [Array.from({ length: Math.min(5, totalPages) }, ...)]. *)
Definition pageNum (totalPages currentPage i : Z) : Z :=
  if totalPages <=? 5 then i
  else if currentPage <? 3 then i
  else if currentPage >? totalPages - 4 then totalPages - 5 + i
  else currentPage - 2 + i.

Definition indices (len : Z) : list Z := map Z.of_nat (seq 0 (Z.to_nat len)).

Definition pageNumbers (totalPages currentPage : Z) : list Z :=
  map (pageNum totalPages currentPage) (indices (Z.min 5 totalPages)).

Definition errorShown (s : GalleryState) : bool :=
  match error s with
  | Some message => JsString.truthy message
  | None => false
  end.

(** [!error && !isLoading && totalPages > 1 && (...)]: the page buttons
    that are on screen, if the controls are. *)
Definition paginationControls (s : GalleryState) : option (list Z) :=
  if (negb (errorShown s) && negb (isLoading s) && (totalPages s >? 1))%bool
  then Some (pageNumbers (totalPages s) (currentPage s))
  else None.

(* ------------------------------------------------------------------ *)
(** ** The gallery fetch ([fetchGalleryData]) *)

(** [URLSearchParams]: the appended pairs, in order. *)
Definition Params := list (string * string).

Definition filterParams (selectedFilter : string) : Params :=
  if negb (String.eqb selectedFilter "all") then
    if String.eqb selectedFilter "featured" then [("featured", "true")]
    else if String.eqb selectedFilter "images" then [("type", "image")]
    else if String.eqb selectedFilter "videos" then [("type", "video")]
    else []
  else [].

Definition buildParams (s : GalleryState) : Params :=
  ([ ("page", JsString.ofNumber (page (pageable s)));
     ("size", JsString.ofNumber (size (pageable s)));
     ("sort", sort (pageable s)) ]
   ++ (if JsString.truthy (searchTerm s) then [("search", searchTerm s)] else [])
   ++ filterParams (selectedFilter s))%list.

(** [params.get(key)] *)
Fixpoint paramsGet (key : string) (params : Params) : option string :=
  match params with
  | [] => None
  | (k, v) :: rest => if String.eqb k key then Some v else paramsGet key rest
  end.

(** The part of [fetchGalleryData] before the first [await]: the loading
    flag, the cleared error and the request that goes out. *)
Definition startFetch (s : GalleryState) : GalleryState * Params :=
  let s1 := if Nat.eqb (List.length (galleryItems s)) 0
            then setIsLoading true s
            else setIsPaginating true s in
  (setError None s1, buildParams s).

(** The shapes of [await response.json()] that the code tells apart. *)
Inductive GalleryData :=
| PageEnvelope (content : list MediaItem) (number totalPages totalElements size : Z)
| FlatArray (items : list MediaItem)
| ItemsObject (items : option (list MediaItem)).

Inductive JsonBody :=
| Malformed (message : string)
| Json (data : GalleryData).

(** How a request ends: [fetch] rejects, or a response with a status
    comes back. *)
Inductive FetchOutcome :=
| NetworkFailure (message : string)
| Response (status : Z) (body : JsonBody).

(** The items a decoded response carries. *)
Definition itemsOf (data : GalleryData) : list MediaItem :=
  match data with
  | PageEnvelope content _ _ _ _ => content
  | FlatArray items => items
  | ItemsObject (Some items) => items
  | ItemsObject None => []
  end.

(** [response.ok] *)
Definition ok (status : Z) : bool := ((200 <=? status) && (status <=? 299))%bool.

Definition applyData (env : HeicEnv) (data : GalleryData) (s : GalleryState)
  : GalleryState :=
  match data with
  | PageEnvelope content number totalPages totalElements size =>
      let processedItems := processGalleryItems env content in
      setPageSize size
        (setTotalElements totalElements
           (setTotalPages totalPages
              (setCurrentPage number (setGalleryItems processedItems s))))
  | FlatArray items =>
      let processedItems := processGalleryItems env items in
      setTotalPages 1
        (setTotalElements (Z.of_nat (List.length processedItems))
           (setGalleryItems processedItems s))
  | ItemsObject items =>
      let processedItems :=
        processGalleryItems env (match items with Some l => l | None => [] end) in
      setTotalPages 1
        (setTotalElements (Z.of_nat (List.length processedItems))
           (setGalleryItems processedItems s))
  end.

(** The message of the exception that reaches the [catch], if any. *)
Definition failureMessage (outcome : FetchOutcome) : option string :=
  match outcome with
  | NetworkFailure message => Some message
  | Response status body =>
      if negb (ok status)
      then Some ("HTTP error! status: " ++ JsString.ofNumber status)%string
      else match body with
           | Malformed message => Some message
           | Json _ => None
           end
  end.

(** The part of [fetchGalleryData] after the response: [try] body or
    [catch], then [finally]. *)
Definition completeFetch (env : HeicEnv) (outcome : FetchOutcome) (s : GalleryState)
  : GalleryState :=
  let s1 :=
    match failureMessage outcome with
    | Some message => setError (Some message) s
    | None =>
        match outcome with
        | Response _ (Json data) => applyData env data s
        | _ => s
        end
    end in
  setIsPaginating false (setIsLoading false s1).

(* ------------------------------------------------------------------ *)
(** ** The component in the browser *)

(** The [keydown] listener that is bound to the document.  Its effect has
    the dependencies [selectedItem, currentIndex, isVideoPlaying], so the
    handler it binds sees these three as they are now, but sees the
    [galleryItems] of the render in which it was last bound: [seenItems],
    the array whose identity is [seenRef]. *)
Record KeyListener := mkKeyListener {
  seenItems : list MediaItem;
  seenRef : nat
}.

(** [timer] is the pending [setTimeout] of the debounce effect with the
    [searchInput] its callback captured; [requests] lists the calls of
    [fetch] on the gallery endpoint and [inflight] the positions in it of
    those whose task has not reached its state updates yet; [normalizing]
    holds the answers of the tasks that are suspended at
    [await processGalleryItems]; [revoked] lists the arguments of the
    [URL.revokeObjectURL] calls; [listener] is the bound [keydown]
    listener and [selectedFrom] the identity of the array that the object
    in [selectedItem] was taken from. *)
Record World := mkWorld {
  ui : GalleryState;
  mounted : bool;
  now : Z;
  timer : option (Z * string);
  requests : list Params;
  inflight : list nat;
  normalizing : list (nat * FetchOutcome);
  revoked : list string;
  listener : KeyListener;
  selectedFrom : nat
}.

Definition withUi (s : GalleryState) (w : World) : World :=
  {| ui := s; mounted := mounted w; now := now w; timer := timer w;
     requests := requests w; inflight := inflight w; revoked := revoked w;
     normalizing := normalizing w;
     listener := listener w; selectedFrom := selectedFrom w |}.

Definition withNow (t : Z) (w : World) : World :=
  {| ui := ui w; mounted := mounted w; now := t; timer := timer w;
     requests := requests w; inflight := inflight w; revoked := revoked w;
     normalizing := normalizing w;
     listener := listener w; selectedFrom := selectedFrom w |}.

Definition withTimer (t : option (Z * string)) (w : World) : World :=
  {| ui := ui w; mounted := mounted w; now := now w; timer := t;
     requests := requests w; inflight := inflight w; revoked := revoked w;
     normalizing := normalizing w;
     listener := listener w; selectedFrom := selectedFrom w |}.

Definition sendRequest (params : Params) (w : World) : World :=
  {| ui := ui w; mounted := mounted w; now := now w; timer := timer w;
     requests := (requests w ++ [params])%list;
     inflight := (inflight w ++ [List.length (requests w)])%list;
     revoked := revoked w; normalizing := normalizing w;
     listener := listener w; selectedFrom := selectedFrom w |}.

Definition answered (k : nat) (w : World) : World :=
  {| ui := ui w; mounted := mounted w; now := now w; timer := timer w;
     requests := requests w;
     inflight := filter (fun j => negb (Nat.eqb j k)) (inflight w);
     revoked := revoked w;
     normalizing := filter (fun entry => negb (Nat.eqb (fst entry) k)) (normalizing w);
     listener := listener w; selectedFrom := selectedFrom w |}.

Definition revokeAll (urls : list string) (w : World) : World :=
  {| ui := ui w; mounted := mounted w; now := now w; timer := timer w;
     requests := requests w; inflight := inflight w;
     revoked := (revoked w ++ urls)%list; normalizing := normalizing w;
     listener := listener w; selectedFrom := selectedFrom w |}.

Definition unmounted (w : World) : World :=
  {| ui := ui w; mounted := false; now := now w; timer := None;
     requests := requests w; inflight := inflight w; revoked := revoked w;
     normalizing := normalizing w;
     listener := listener w; selectedFrom := selectedFrom w |}.

(** [item.src && item.src.startsWith('blob:')] *)
Definition isBlobBacked (item : MediaItem) : bool :=
  (JsString.truthy (src item) && JsString.startsWith "blob:" (src item))%bool.

(** The [forEach] of the cleanup effect: one call per blob-backed item. *)
Definition blobUrls (items : list MediaItem) : list string :=
  map src (filter isBlobBacked items).

(** Dependencies [pageable, searchTerm, selectedFilter] of the fetch effect. *)
Definition fetchDepsChanged (old new : GalleryState) : bool :=
  (negb (Nat.eqb (pageableRef old) (pageableRef new))
   || negb (String.eqb (searchTerm old) (searchTerm new))
   || negb (String.eqb (selectedFilter old) (selectedFilter new)))%bool.

(** The effects, in the order of the source, that run after a render whose
    previous state was [old] and that act on the world.  (The [keydown]
    effect, which only binds the listener again, is [rebindListener]
    below.) *)
Definition fetchEffect (old : GalleryState) (w : World) : World :=
  if fetchDepsChanged old (ui w)
  then let '(s, params) := startFetch (ui w) in sendRequest params (withUi s w)
  else w.

Definition debounceEffect (old : GalleryState) (w : World) : World :=
  if negb (String.eqb (searchInput old) (searchInput (ui w)))
  then withTimer (Some (now w + 500, searchInput (ui w))) w
  else w.

Definition cleanupEffect (old : GalleryState) (w : World) : World :=
  if negb (Nat.eqb (galleryItemsRef old) (galleryItemsRef (ui w)))
  then revokeAll (blobUrls (galleryItems old)) w
  else w.

Definition runEffects (old : GalleryState) (w : World) : World :=
  cleanupEffect old (debounceEffect old (fetchEffect old w)).

(** A handler that only sets state, followed by the render it causes. *)
Definition dispatch (handler : GalleryState -> GalleryState) (w : World) : World :=
  runEffects (ui w) (withUi (handler (ui w)) w).

(** [closeViewer] reads [selectedItem] of the current render. *)
Definition closeViewer (w : World) : World :=
  let released :=
    match selectedItem (ui w) with
    | Some item => if isBlobBacked item then [src item] else []
    | None => []
    end in
  revokeAll released (dispatch (fun s => setIsVideoPlaying false (setSelectedItem None s)) w).

(** [navigateViewer] as a bound listener runs it: the body is the same,
    with [filteredItems] of the render that bound the listener. *)
Definition navigateSeen (items : list MediaItem) (direction : Direction)
           (s : GalleryState) : GalleryState :=
  let newIndex :=
    match direction with
    | next => jsRem (jsAdd (currentIndex s) (Num 1)) (jsLength items)
    | prev => jsRem (jsAdd (jsSub (currentIndex s) (Num 1)) (jsLength items))
                    (jsLength items)
    end in
  setIsVideoPlaying false
    (setSelectedItem (arrayGet items newIndex) (setCurrentIndex newIndex s)).

(** [handleKeyDown] of the bound listener.  [selectedItem],
    [currentIndex] and [isVideoPlaying] are dependencies of its effect and
    so are the current ones; [closeViewer] and [toggleVideoPlayback] read
    nothing else, while [navigateViewer] also reads [filteredItems], which
    is the listener's. *)
Definition handleKeyDown (key : string) (w : World) : World :=
  match selectedItem (ui w) with
  | None => w
  | Some item =>
      if String.eqb key "Escape" then closeViewer w
      else if String.eqb key "ArrowLeft"
      then dispatch (navigateSeen (seenItems (listener w)) prev) w
      else if String.eqb key "ArrowRight"
      then dispatch (navigateSeen (seenItems (listener w)) next) w
      else if String.eqb key " " then
        (if String.eqb (type item) "video" then dispatch toggleVideoPlayback w else w)
      else w
  end.

(** The debounce timer fires once the clock reaches its due time. *)
Definition elapse (ms : Z) (w : World) : World :=
  let w1 := withNow (now w + ms) w in
  match timer w1 with
  | Some (due, captured) =>
      if due <=? now w1
      then dispatch (debounceCallback captured) (withTimer None w1)
      else w1
  | None => w1
  end.

(** The task of request [k] reaches its state updates with [outcome]:
    the answer has been received and decoded and, for a success, its items
    have been normalized.  This is what runs after the last [await] of
    [fetchGalleryData]. *)
Definition arrive (env : HeicEnv) (k : nat) (outcome : FetchOutcome) (w : World) : World :=
  if existsb (Nat.eqb k) (inflight w)
  then dispatch (completeFetch env outcome) (answered k w)
  else w.

(** [await processGalleryItems(...)] waits for the network exactly when
    some item is flagged and the converter is loaded: [convertHeicToJpeg]
    then awaits the download of the original.  Otherwise every promise of
    the [Promise.all] is already resolved and the task goes on in the same
    turn of the event loop. *)
Definition awaitsConversion (env : HeicEnv) (items : list MediaItem) : bool :=
  (heic2anyLoaded env && existsb flaggedHeic items)%bool.

Definition suspended (k : nat) (w : World) : bool :=
  existsb (fun entry => Nat.eqb (fst entry) k) (normalizing w).

Definition suspend (k : nat) (outcome : FetchOutcome) (w : World) : World :=
  {| ui := ui w; mounted := mounted w; now := now w; timer := timer w;
     requests := requests w; inflight := inflight w;
     normalizing := (normalizing w ++ [(k, outcome)])%list;
     revoked := revoked w; listener := listener w; selectedFrom := selectedFrom w |}.

(** The answer to request [k] is received and decoded.  A failure is
    raised and caught at once, and a success that needs no conversion is
    applied at once; a success with items to convert leaves the task
    suspended, and other events can be handled before it goes on. *)
Definition receive (env : HeicEnv) (k : nat) (outcome : FetchOutcome) (w : World) : World :=
  if (existsb (Nat.eqb k) (inflight w) && negb (suspended k w))%bool
  then match failureMessage outcome, outcome with
       | None, Response _ (Json data) =>
           if awaitsConversion env (itemsOf data)
           then suspend k outcome w
           else arrive env k outcome w
       | _, _ => arrive env k outcome w
       end
  else w.

(** The conversions of the suspended task of request [k] have ended. *)
Definition normalized (env : HeicEnv) (k : nat) (w : World) : World :=
  match find (fun entry => Nat.eqb (fst entry) k) (normalizing w) with
  | Some (_, outcome) => arrive env k outcome w
  | None => w
  end.

(** Unmounting runs the cleanup of every effect. *)
Definition unmount (w : World) : World :=
  unmounted (revokeAll (blobUrls (galleryItems (ui w))) w).

(** The first render and its effects. *)
Definition mount : World :=
  let w0 := {| ui := initialState; mounted := true; now := 0; timer := None;
               requests := []; inflight := []; normalizing := []; revoked := [];
               listener := {| seenItems := galleryItems initialState;
                              seenRef := galleryItemsRef initialState |};
               selectedFrom := galleryItemsRef initialState |} in
  let '(s, params) := startFetch initialState in
  withTimer (Some (500, searchInput initialState)) (sendRequest params (withUi s w0)).

(** What can happen to the mounted component.  [Arrive k outcome] is the
    task of request [k] running from the receipt of its answer to its
    state updates with no other event in between; [Receive k outcome] and
    [Normalized k] are the two ends of that stretch taken apart, for an
    answer whose items are converted while other events are handled.
    [NavigateViewer] is a click on an arrow of the viewer, [KeyDown] a key
    delivered to the bound listener. *)
Inductive Event :=
| Elapse (ms : Z)
| SearchChange (value : string)
| FilterChange (filter : string)
| PageChange (newPage : Z)
| PageSizeChange (newSize : Z)
| Arrive (k : nat) (outcome : FetchOutcome)
| Receive (k : nat) (outcome : FetchOutcome)
| Normalized (k : nat)
| OpenViewer (item : MediaItem)
| CloseViewer
| NavigateViewer (direction : Direction)
| ToggleVideo
| VideoPlay
| VideoPause
| KeyDown (key : string)
| Unmount.

(** The handler of an event and the render it causes. *)
Definition handle (env : HeicEnv) (w : World) (ev : Event) : World :=
  if negb (mounted w) then w
  else match ev with
       | Elapse ms => elapse ms w
       | SearchChange value => dispatch (handleSearchChange value) w
       | FilterChange filter => dispatch (handleFilterChange filter) w
       | PageChange newPage => dispatch (handlePageChange newPage) w
       | PageSizeChange newSize => dispatch (handlePageSizeChange newSize) w
       | Arrive k outcome => arrive env k outcome w
       | Receive k outcome => receive env k outcome w
       | Normalized k => normalized env k w
       | OpenViewer item => dispatch (openViewer item) w
       | CloseViewer => closeViewer w
       | NavigateViewer direction => dispatch (navigateViewer direction) w
       | ToggleVideo => dispatch toggleVideoPlayback w
       | VideoPlay => dispatch (setIsVideoPlaying true) w
       | VideoPause => dispatch (setIsVideoPlaying false) w
       | KeyDown key => handleKeyDown key w
       | Unmount => unmount w
       end.

(** [Object.is] on two numbers.  ([-0], which [%] yields only from an
    index of -1, is not told apart from [0].) *)
Definition jsSame (a b : JsNum) : bool :=
  match a, b with
  | Num x, Num y => x =? y
  | NaN, NaN => true
  | _, _ => false
  end.

(** The array an event takes the item it selects from: the page on screen
    for a click on a grid item or on an arrow of the viewer, the
    listener's page for an arrow key.  Other events select nothing new. *)
Definition sourceRef (w : World) (ev : Event) : nat :=
  match ev with
  | OpenViewer _ | NavigateViewer _ => galleryItemsRef (ui w)
  | KeyDown key =>
      if (String.eqb key "ArrowLeft" || String.eqb key "ArrowRight")%bool
      then seenRef (listener w)
      else selectedFrom w
  | _ => selectedFrom w
  end.

(** Did a dependency of the [keydown] effect change between [old] and
    [new]?  Two selected items are the same object when they were taken
    from the same array; an item of another array is another object even
    if its fields agree.  (Items of one array at different places differ
    too, but a handler that selects another place also changes
    [currentIndex]; a click on a grid item is possible only while the
    viewer, whose overlay covers the grid, is closed.) *)
Definition keyDepsChanged (old : World) (source : nat) (new : World) : bool :=
  (negb (jsSame (currentIndex (ui old)) (currentIndex (ui new)))
   || negb (Bool.eqb (isVideoPlaying (ui old)) (isVideoPlaying (ui new)))
   || match selectedItem (ui old), selectedItem (ui new) with
      | None, None => false
      | Some _, Some _ => negb (Nat.eqb (selectedFrom old) source)
      | _, _ => true
      end)%bool.

(** The [keydown] effect: when a dependency changed, the old listener is
    removed and the handler of the new render is bound, which sees the
    [galleryItems] of that render. *)
Definition rebindListener (old : World) (source : nat) (new : World) : World :=
  if keyDepsChanged old source new
  then {| ui := ui new; mounted := mounted new; now := now new; timer := timer new;
          requests := requests new; inflight := inflight new;
          normalizing := normalizing new; revoked := revoked new;
          listener := {| seenItems := galleryItems (ui new);
                         seenRef := galleryItemsRef (ui new) |};
          selectedFrom := match selectedItem (ui new) with
                          | Some _ => source
                          | None => selectedFrom new
                          end |}
  else new.

Definition step (env : HeicEnv) (w : World) (ev : Event) : World :=
  rebindListener w (sourceRef w ev) (handle env w ev).

Definition run (env : HeicEnv) (events : list Event) (w : World) : World :=
  fold_left (step env) events w.

(** The events whose handlers leave [selectedItem], [currentIndex] and
    [isVideoPlaying] alone. *)
Definition quietEvent (ev : Event) : bool :=
  match ev with
  | Elapse _ | SearchChange _ | FilterChange _ | PageChange _ | PageSizeChange _
  | Arrive _ _ | Receive _ _ | Normalized _ | Unmount => true
  | OpenViewer _ | CloseViewer | NavigateViewer _ | ToggleVideo | VideoPlay
  | VideoPause | KeyDown _ => false
  end.

(** [new] holds the viewer as [old] does. *)
Definition sameViewer (old new : GalleryState) : Prop :=
  selectedItem new = selectedItem old
  /\ currentIndex new = currentIndex old
  /\ isVideoPlaying new = isVideoPlaying old.

(** Keystrokes in the search box, each after a pause: [(gap, value)] is
    a pause of [gap] milliseconds followed by a change of the input to
    [value]. *)
Definition typing (keys : list (Z * string)) : list Event :=
  flat_map (fun key => [Elapse (fst key); SearchChange (snd key)]) keys.

(** Each value differs from the text it replaces, as the [onChange] of a
    controlled input does. *)
Fixpoint changes (shown : string) (values : list string) : Prop :=
  match values with
  | [] => True
  | v :: rest => v <> shown /\ changes v rest
  end.

(** The events that put another item in the viewer: a click on a grid
    item, the arrows of the viewer, and the arrow keys while it is open. *)
Definition changesItem (w : World) (ev : Event) : bool :=
  match ev with
  | OpenViewer _ | NavigateViewer _ => true
  | KeyDown key =>
      match selectedItem (ui w) with
      | Some _ => (String.eqb key "ArrowLeft" || String.eqb key "ArrowRight")%bool
      | None => false
      end
  | _ => false
  end.

(** A handler that leaves the dependencies of the three effects alone
    causes a render and nothing else. *)
Definition keepsDeps (old new : GalleryState) : Prop :=
  pageableRef new = pageableRef old
  /\ searchTerm new = searchTerm old
  /\ selectedFilter new = selectedFilter old
  /\ searchInput new = searchInput old
  /\ galleryItemsRef new = galleryItemsRef old.

(** A fetch that fails with a network failure or with a status outside
    200..299, and the message of the exception it raises. *)
Definition fetchFails (outcome : FetchOutcome) (message : string) : Prop :=
  outcome = NetworkFailure message
  \/ exists status body,
       outcome = Response status body
       /\ ~ 200 <= status <= 299
       /\ message = ("HTTP error! status: " ++ JsString.ofNumber status)%string.

(** A response with a success status and a body that decodes to [data]. *)
Definition succeedsWith (outcome : FetchOutcome) (data : GalleryData) : Prop :=
  exists status, 200 <= status <= 299 /\ outcome = Response status (Json data).

(** The pages [lo], [lo + 1], ..., [hi]. *)
Definition interval (lo hi : Z) : list Z :=
  map (fun k => lo + Z.of_nat k) (seq 0 (Z.to_nat (hi - lo + 1))).

(** [pageIndex < totalPages] whenever [totalElements > 0], on the
    pagination state of the component. *)
Definition pageInvariant (s : GalleryState) : Prop :=
  totalElements s > 0 -> currentPage s < totalPages s.

Definition pageInvariantb (s : GalleryState) : bool :=
  ((totalElements s <=? 0) || (currentPage s <? totalPages s))%bool.

(* ------------------------------------------------------------------ *)
(** ** What is on screen *)

(** [galleryItems.filter(item => item.featured)] *)
Definition featuredItems (s : GalleryState) : list MediaItem :=
  filter featured (galleryItems s).

(** The featured section: the first three featured items of the page,
    shown on page 0 with no filter and no search term. *)
Definition featuredSection (s : GalleryState) : option (list MediaItem) :=
  if (negb (Nat.eqb (List.length (featuredItems s)) 0)
      && (currentPage s =? 0)
      && String.eqb (selectedFilter s) "all"
      && negb (JsString.truthy (searchTerm s)))%bool
  then Some (firstn 3 (featuredItems s))
  else None.

(** The branches of the conditional that renders the gallery grid. *)
Inductive View :=
| ErrorPanel (message : string)
| LoadingPanel
| EmptyPanel
| Grid (items : list MediaItem) (overlay : bool).

Definition galleryView (s : GalleryState) : View :=
  match error s with
  | Some message =>
      if JsString.truthy message then ErrorPanel message
      else if isLoading s then LoadingPanel
      else if Nat.eqb (List.length (filteredItems s)) 0 then EmptyPanel
      else Grid (filteredItems s) (isPaginating s)
  | None =>
      if isLoading s then LoadingPanel
      else if Nat.eqb (List.length (filteredItems s)) 0 then EmptyPanel
      else Grid (filteredItems s) (isPaginating s)
  end.

(** The range summary: [currentPage * pageSize + 1] and
    [Math.min((currentPage + 1) * pageSize, totalElements)]. *)
Definition rangeFirst (s : GalleryState) : Z := currentPage s * pageSize s + 1.

Definition rangeLast (s : GalleryState) : Z :=
  Z.min ((currentPage s + 1) * pageSize s) (totalElements s).

(** The buttons of the pagination controls, their [disabled] attribute
    and the page their [onClick] passes to [handlePageChange]. *)
Inductive PageButton :=
| FirstPage
| PreviousPage
| NumberPage (pageNumber : Z)
| NextPage
| LastPage.

Definition buttonDisabled (s : GalleryState) (button : PageButton) : bool :=
  match button with
  | FirstPage | PreviousPage => currentPage s =? 0
  | NumberPage _ => false
  | NextPage | LastPage => currentPage s >=? totalPages s - 1
  end.

Definition buttonTarget (s : GalleryState) (button : PageButton) : Z :=
  match button with
  | FirstPage => 0
  | PreviousPage => currentPage s - 1
  | NumberPage pageNumber => pageNumber
  | NextPage => currentPage s + 1
  | LastPage => totalPages s - 1
  end.

(** The button is rendered: the number buttons are those of the window. *)
Definition buttonShown (s : GalleryState) (button : PageButton) : Prop :=
  match button with
  | NumberPage pageNumber => In pageNumber (pageNumbers (totalPages s) (currentPage s))
  | _ => True
  end.

(** [filteredItems.length > 1 && (...)]: the arrows and the position
    indicator of the viewer. *)
Definition viewerArrowsShown (s : GalleryState) : bool :=
  Nat.ltb 1 (List.length (filteredItems s)).

(** [k] presses of the same viewer arrow. *)
Definition presses (direction : Direction) (k : nat) : list Event :=
  repeat (NavigateViewer direction) k.

(** [s] contains [needle]: the meaning of [String.prototype.includes]. *)
Definition contains (needle s : string) : Prop :=
  exists before after, s = (before ++ needle ++ after)%string.

(* ------------------------------------------------------------------ *)
(** ** Sample data *)

Module Sample.

Definition photo (n : Z) (locator : string) : MediaItem :=
  {| id := n; type := "image"; src := locator; title := "Iftar";
     event := "Ramadan"; author := "msa"; date := "2025-03-01";
     featured := false; originalSrc := None |}.

Definition clip (n : Z) (locator : string) : MediaItem :=
  {| id := n; type := "video"; src := locator; title := "Recap";
     event := "Orientation"; author := "msa"; date := "2025-09-02";
     featured := true; originalSrc := None |}.

(** A browser in which every conversion goes through. *)
Definition converting : HeicEnv :=
  {| heic2anyLoaded := true;
     fetchBlob := fun _ => Some {| blobType := "image/heic"; blobData := 7 |};
     heic2any := fun b => Some {| blobType := "image/jpeg"; blobData := blobData b |};
     createObjectURL := fun b => "blob:http://localhost/" ++ JsString.ofNumber (blobData b) |}.

(** A browser in which the download of the original fails. *)
Definition offline : HeicEnv :=
  {| heic2anyLoaded := true;
     fetchBlob := fun _ => None;
     heic2any := fun _ => None;
     createObjectURL := fun _ => "" |}.

Definition envelope (content : list MediaItem) (number totalPages totalElements size : Z)
  : FetchOutcome :=
  Response 200 (Json (PageEnvelope content number totalPages totalElements size)).

Definition firstPhoto : MediaItem := photo 1 "/media/IMG_1.HEIC".
Definition secondClip : MediaItem := clip 2 "/media/recap.mp4".
Definition thirdPhoto : MediaItem := photo 3 "/media/c.jpg".

(** The gallery after the first page of three items has arrived: page 0
    of 3, seven items in all. *)
Definition firstPage : World :=
  run converting
    [Arrive 0%nat (envelope [firstPhoto; secondClip; thirdPhoto] 0 3 7 3)]
    mount.

End Sample.

(* ================================================================== *)
(** * Properties *)

(* ------------------------------------------------------------------ *)
(** ** Media format normalizer *)

Lemma convertHeicToJpeg_failed env imageUrl :
  (forall url, attemptConversion env imageUrl <> Converted url) ->
  convertHeicToJpeg env imageUrl = imageUrl.
Proof.
  intros Hfail. unfold convertHeicToJpeg.
  destruct (attemptConversion env imageUrl) as [| | | |url]; try reflexivity.
  exfalso. apply (Hfail url). reflexivity.
Qed.

Lemma video_not_flagged item : type item = "video" -> flaggedHeic item = false.
Proof. intros Hty. unfold flaggedHeic. rewrite Hty. reflexivity. Qed.

Lemma processGalleryItems_length env items :
  List.length (processGalleryItems env items) = List.length items.
Proof. unfold processGalleryItems. apply length_map. Qed.

(** C9.  The normalizer leaves the whole item alone when it is a video or
    when it is not flagged (not an image, or a locator that names neither
    HEIC nor HEIF); it leaves the locator alone when the conversion of a
    flagged item does not reach the converted URL, whatever the reason.
    Conversely a locator that comes back different belongs to a flagged
    image whose conversion succeeded, the new locator is the converted URL
    and the original one is kept in [originalSrc]. *)
Theorem normalizer_frame env item :
  (type item = "video" -> processItem env item = item)
  /\ (flaggedHeic item = false -> processItem env item = item)
  /\ ((forall url, attemptConversion env (src item) <> Converted url) ->
      src (processItem env item) = src item)
  /\ (src (processItem env item) <> src item ->
      type item = "image"
      /\ namesHeic (src item) = true
      /\ attemptConversion env (src item) = Converted (src (processItem env item))
      /\ originalSrc (processItem env item) = Some (src item)).
Proof.
  unfold processItem. split; [|split; [|split]].
  - intros Hty. rewrite (video_not_flagged item Hty). reflexivity.
  - intros Hflag. rewrite Hflag. reflexivity.
  - intros Hfail. destruct (flaggedHeic item); [|reflexivity].
    cbn [src withSrc]. apply convertHeicToJpeg_failed. exact Hfail.
  - destruct (flaggedHeic item) eqn:Hflag; [|congruence].
    cbn [src originalSrc withSrc]. intros Hne.
    unfold flaggedHeic in Hflag. apply andb_true_iff in Hflag.
    destruct Hflag as [Hty Hname]. apply String.eqb_eq in Hty.
    repeat split; try assumption.
    unfold convertHeicToJpeg in *.
    destruct (attemptConversion env (src item)); congruence.
Qed.

Lemma normalizer_frame_witness :
  processItem Sample.converting (Sample.clip 2 "/media/clip.heic.mp4")
  = Sample.clip 2 "/media/clip.heic.mp4"
  /\ processItem Sample.converting (Sample.photo 3 "/media/c.jpg")
     = Sample.photo 3 "/media/c.jpg"
  /\ src (processItem Sample.offline (Sample.photo 1 "/media/IMG_1.HEIC"))
     = "/media/IMG_1.HEIC"
  /\ originalSrc (processItem Sample.converting (Sample.photo 1 "/media/IMG_1.HEIC"))
     = Some "/media/IMG_1.HEIC".
Proof.
  split; [|split; [|split]].
  - apply (proj1 (normalizer_frame Sample.converting (Sample.clip 2 "/media/clip.heic.mp4"))).
    reflexivity.
  - apply (proj1 (proj2 (normalizer_frame Sample.converting (Sample.photo 3 "/media/c.jpg")))).
    reflexivity.
  - apply (proj1 (proj2 (proj2
      (normalizer_frame Sample.offline (Sample.photo 1 "/media/IMG_1.HEIC"))))).
    intros url. vm_compute. discriminate.
  - apply (proj2 (proj2 (proj2
      (normalizer_frame Sample.converting (Sample.photo 1 "/media/IMG_1.HEIC"))))).
    vm_compute. discriminate.
Defined.

(* ------------------------------------------------------------------ *)
(** ** Pagination window *)

Lemma interval_five lo : interval lo (lo + 4) = [lo; lo + 1; lo + 2; lo + 3; lo + 4].
Proof.
  unfold interval. replace (lo + 4 - lo + 1) with 5 by lia.
  change (Z.to_nat 5) with 5%nat. cbn [seq map].
  repeat f_equal; lia.
Qed.

Lemma In_interval lo hi p : In p (interval lo hi) <-> lo <= p <= hi.
Proof.
  unfold interval. rewrite in_map_iff. split.
  - intros [k [Hp Hk]]. apply in_seq in Hk. lia.
  - intros Hp. exists (Z.to_nat (p - lo)). split; [lia|].
    apply in_seq. lia.
Qed.

Lemma indices_interval len : indices len = interval 0 (len - 1).
Proof.
  unfold indices, interval. replace (len - 1 - 0 + 1) with len by lia.
  apply map_ext. intros k. reflexivity.
Qed.

Lemma pageNumbers_five totalPages currentPage :
  5 < totalPages ->
  pageNumbers totalPages currentPage
  = map (pageNum totalPages currentPage) [0; 1; 2; 3; 4].
Proof.
  intros Hmany. unfold pageNumbers, indices.
  rewrite Z.min_l by lia. reflexivity.
Qed.

(** The window computation for [totalPages >= 1] and a current page in
    range: every page when there are at most five; otherwise pages 0 to 4
    while the current page is below 3, the last five pages once it is
    past [totalPages - 4], and the five pages around it in between. *)
Lemma page_window (pages current : Z) :
  1 <= pages ->
  0 <= current < pages ->
  (pages <= 5 ->
   pageNumbers pages current = interval 0 (pages - 1))
  /\ (pages > 5 -> current < 3 ->
      pageNumbers pages current = interval 0 4)
  /\ (pages > 5 -> current > pages - 4 ->
      pageNumbers pages current = interval (pages - 5) (pages - 1))
  /\ (pages > 5 -> ~ current < 3 -> ~ current > pages - 4 ->
      pageNumbers pages current = interval (current - 2) (current + 2))
  /\ (forall s buttons,
        totalPages s = pages -> currentPage s = current ->
        paginationControls s = Some buttons ->
        buttons = pageNumbers pages current)
  /\ pageNumbers 20 10 = [8; 9; 10; 11; 12]
  /\ (forall page, pageNumbers 3 page = [0; 1; 2]).
Proof.
  intros Hpos Hcur.
  split; [|split; [|split; [|split; [|split; [|split]]]]].
  - intros Hfew. unfold pageNumbers. rewrite Z.min_r by lia.
    rewrite indices_interval.
    rewrite map_ext with (g := fun i => i); [apply map_id|].
    intros i. unfold pageNum.
    destruct (Z.leb_spec pages 5); [reflexivity|lia].
  - intros Hmany Hlow. rewrite pageNumbers_five by lia.
    unfold pageNum.
    destruct (Z.leb_spec pages 5); [lia|].
    destruct (Z.ltb_spec current 3); [reflexivity|lia].
  - intros Hmany Hhigh. rewrite pageNumbers_five by lia.
    replace (pages - 1) with (pages - 5 + 4) by lia.
    rewrite interval_five. unfold pageNum.
    destruct (Z.leb_spec pages 5); [lia|].
    destruct (Z.ltb_spec current 3); [lia|].
    destruct (Z.gtb_spec current (pages - 4)); [|lia].
    cbn [map]. rewrite Z.add_0_r. reflexivity.
  - intros Hmany Hlow Hhigh. rewrite pageNumbers_five by lia.
    replace (current + 2) with (current - 2 + 4) by lia.
    rewrite interval_five. unfold pageNum.
    destruct (Z.leb_spec pages 5); [lia|].
    destruct (Z.ltb_spec current 3); [lia|].
    destruct (Z.gtb_spec current (pages - 4)); [lia|].
    cbn [map]. rewrite Z.add_0_r. reflexivity.
  - intros s buttons Htotal Hpage. unfold paginationControls.
    destruct (negb (errorShown s) && negb (isLoading s) && (totalPages s >? 1))%bool;
      [|discriminate].
    rewrite Htotal, Hpage. congruence.
  - reflexivity.
  - intros page. reflexivity.
Qed.

Lemma paginationControls_spec s :
  (paginationControls s = None
   <-> errorShown s = true \/ isLoading s = true \/ totalPages s <= 1)
  /\ (errorShown s = false -> isLoading s = false -> 1 < totalPages s ->
      paginationControls s = Some (pageNumbers (totalPages s) (currentPage s))).
Proof.
  unfold paginationControls.
  destruct (errorShown s), (isLoading s), (Z.gtb_spec (totalPages s) 1);
    cbn [negb andb]; (split; [split|]); intros;
    try reflexivity; try discriminate; try lia; try tauto.
Qed.

(** C3, as the specification states it, fails.  The first answer says
    that the listing has one page.  The claim, whose range begins at
    [totalPages = 1], has page 0 rendered; the pagination controls are
    inside [totalPages > 1 && (...)] and render no page number at all. *)
Lemma single_page_renders_no_numbers :
  let onePage :=
    run Sample.converting
      [Arrive 0%nat (Sample.envelope [Sample.secondClip; Sample.thirdPhoto] 0 1 2 12)]
      mount in
  totalPages (ui onePage) = 1
  /\ currentPage (ui onePage) = 0
  /\ errorShown (ui onePage) = false
  /\ isLoading (ui onePage) = false
  /\ pageNumbers (totalPages (ui onePage)) (currentPage (ui onePage)) = [0]
  /\ paginationControls (ui onePage) = None
  /\ paginationControls (ui onePage) <> Some [0].
Proof.
  intros onePage. vm_compute. repeat split. intros Hsome. discriminate Hsome.
Qed.

(** C3, amended.  The pagination controls are rendered exactly when no
    error is shown, the initial load is over and there are two pages or
    more.  When they are, with the current page in range, the page numbers
    on screen are: every page when there are at most five; otherwise pages
    0 to 4 while the current page is below 3, the last five pages once it
    is past [totalPages - 4], and the five pages around it in between.
    With 20 pages and current page 10 they are 8 to 12; with 3 pages they
    are 0, 1, 2 whatever the current page. *)
Theorem rendered_page_numbers (s : GalleryState) :
  (paginationControls s = None
   <-> errorShown s = true \/ isLoading s = true \/ totalPages s <= 1)
  /\ (errorShown s = false -> isLoading s = false ->
      1 < totalPages s -> 0 <= currentPage s < totalPages s ->
      (totalPages s <= 5 ->
       paginationControls s = Some (interval 0 (totalPages s - 1)))
      /\ (totalPages s > 5 -> currentPage s < 3 ->
          paginationControls s = Some (interval 0 4))
      /\ (totalPages s > 5 -> currentPage s > totalPages s - 4 ->
          paginationControls s
          = Some (interval (totalPages s - 5) (totalPages s - 1)))
      /\ (totalPages s > 5 -> ~ currentPage s < 3 -> ~ currentPage s > totalPages s - 4 ->
          paginationControls s
          = Some (interval (currentPage s - 2) (currentPage s + 2)))
      /\ (totalPages s = 20 -> currentPage s = 10 ->
          paginationControls s = Some [8; 9; 10; 11; 12])
      /\ (totalPages s = 3 -> paginationControls s = Some [0; 1; 2])).
Proof.
  destruct (paginationControls_spec s) as [Hnone Hsome].
  split; [exact Hnone|].
  intros Herr Hload Hmany Hcur.
  rewrite (Hsome Herr Hload Hmany).
  assert (Hpos : 1 <= totalPages s) by lia.
  destruct (page_window (totalPages s) (currentPage s) Hpos Hcur)
    as (Hfew & Hlow & Hhigh & Hmid & _ & Htwenty & Hthree).
  split; [intros Hle; rewrite (Hfew Hle); reflexivity|].
  split; [intros Hgt Hlt; rewrite (Hlow Hgt Hlt); reflexivity|].
  split; [intros Hgt Hlt; rewrite (Hhigh Hgt Hlt); reflexivity|].
  split; [intros Hgt Hl Hh; rewrite (Hmid Hgt Hl Hh); reflexivity|].
  split.
  - intros Htotal Hpage. rewrite Htotal, Hpage, Htwenty. reflexivity.
  - intros Htotal. rewrite Htotal, Hthree. reflexivity.
Qed.

Lemma rendered_page_numbers_witness :
  let browsing :=
    run Sample.converting
      [Arrive 0%nat (Sample.envelope [Sample.thirdPhoto] 0 20 20 1);
       PageChange 10;
       Arrive 1%nat (Sample.envelope [Sample.secondClip] 10 20 20 1)]
      mount in
  errorShown (ui browsing) = false
  /\ isLoading (ui browsing) = false
  /\ 1 < totalPages (ui browsing)
  /\ 0 <= currentPage (ui browsing) < totalPages (ui browsing)
  /\ totalPages (ui browsing) = 20
  /\ currentPage (ui browsing) = 10
  /\ paginationControls (ui browsing) = Some [8; 9; 10; 11; 12].
Proof.
  intros browsing.
  assert (Herr : errorShown (ui browsing) = false) by (vm_compute; reflexivity).
  assert (Hload : isLoading (ui browsing) = false) by (vm_compute; reflexivity).
  assert (Hmany : 1 < totalPages (ui browsing)) by (vm_compute; reflexivity).
  assert (Hcur : 0 <= currentPage (ui browsing) < totalPages (ui browsing))
    by (vm_compute; split; [discriminate|reflexivity]).
  assert (Htotal : totalPages (ui browsing) = 20) by (vm_compute; reflexivity).
  assert (Hpage : currentPage (ui browsing) = 10) by (vm_compute; reflexivity).
  split; [exact Herr|]. split; [exact Hload|]. split; [exact Hmany|].
  split; [exact Hcur|]. split; [exact Htotal|]. split; [exact Hpage|].
  exact (proj1 (proj2 (proj2 (proj2 (proj2
           (proj2 (rendered_page_numbers (ui browsing)) Herr Hload Hmany Hcur)))))
           Htotal Hpage).
Defined.

(* ------------------------------------------------------------------ *)
(** ** Effects after a render *)

Lemma fetchDepsChanged_false old new :
  pageableRef new = pageableRef old ->
  searchTerm new = searchTerm old ->
  selectedFilter new = selectedFilter old ->
  fetchDepsChanged old new = false.
Proof.
  intros Href Hterm Hfilter. unfold fetchDepsChanged.
  rewrite Href, Hterm, Hfilter.
  rewrite Nat.eqb_refl, !String.eqb_refl. reflexivity.
Qed.

Lemma runEffects_quiet old w :
  keepsDeps old (ui w) -> runEffects old w = w.
Proof.
  intros (Href & Hterm & Hfilter & Hinput & Hitems).
  unfold runEffects, fetchEffect.
  rewrite (fetchDepsChanged_false _ _ Href Hterm Hfilter).
  unfold debounceEffect. rewrite Hinput, String.eqb_refl. cbn [negb].
  unfold cleanupEffect. rewrite Hitems, Nat.eqb_refl. reflexivity.
Qed.

Lemma dispatch_quiet handler w :
  keepsDeps (ui w) (handler (ui w)) ->
  dispatch handler w = withUi (handler (ui w)) w.
Proof. intros Hkeep. unfold dispatch. apply runEffects_quiet. exact Hkeep. Qed.

Lemma openViewer_keepsDeps item s : keepsDeps s (openViewer item s).
Proof. repeat split. Qed.

Lemma navigateViewer_keepsDeps direction s : keepsDeps s (navigateViewer direction s).
Proof. repeat split. Qed.

Lemma toggleVideoPlayback_keepsDeps s : keepsDeps s (toggleVideoPlayback s).
Proof.
  unfold toggleVideoPlayback.
  destruct (viewerVideoPresent s), (isVideoPlaying s); repeat split.
Qed.

(* ------------------------------------------------------------------ *)
(** ** Viewer navigation *)

Lemma arrayGet_in_range {A} (items : list A) j :
  0 <= j < Z.of_nat (List.length items) ->
  exists item, arrayGet items (Num j) = Some item
               /\ nth_error items (Z.to_nat j) = Some item.
Proof.
  intros Hj. unfold arrayGet.
  destruct (Z.ltb_spec j 0); [lia|].
  destruct (nth_error items (Z.to_nat j)) as [item|] eqn:Hnth.
  - exists item. split; reflexivity.
  - apply nth_error_None in Hnth. lia.
Qed.

Lemma navigateIndex_next s i :
  currentIndex s = Num i ->
  0 <= i < Z.of_nat (List.length (filteredItems s)) ->
  navigateIndex next s = Num ((i + 1) mod Z.of_nat (List.length (filteredItems s))).
Proof.
  intros Hidx Hi. unfold navigateIndex. rewrite Hidx.
  cbn [jsAdd jsRem jsLength].
  destruct (Z.eqb_spec (Z.of_nat (List.length (filteredItems s))) 0); [lia|].
  rewrite Z.rem_mod_nonneg by lia. reflexivity.
Qed.

Lemma navigateIndex_prev s i :
  currentIndex s = Num i ->
  0 <= i < Z.of_nat (List.length (filteredItems s)) ->
  navigateIndex prev s
  = Num ((i - 1 + Z.of_nat (List.length (filteredItems s)))
         mod Z.of_nat (List.length (filteredItems s))).
Proof.
  intros Hidx Hi. unfold navigateIndex. rewrite Hidx.
  cbn [jsAdd jsSub jsRem jsLength].
  destruct (Z.eqb_spec (Z.of_nat (List.length (filteredItems s))) 0); [lia|].
  rewrite Z.rem_mod_nonneg by lia. reflexivity.
Qed.

Lemma navigateViewer_currentIndex direction s :
  currentIndex (navigateViewer direction s) = navigateIndex direction s.
Proof. reflexivity. Qed.

Lemma navigateViewer_selectedItem direction s :
  selectedItem (navigateViewer direction s)
  = arrayGet (filteredItems s) (navigateIndex direction s).
Proof. reflexivity. Qed.



(* ------------------------------------------------------------------ *)
(** ** Events, renders and the key listener *)

(** Binding the listener again changes nothing but the listener. *)
Lemma rebindListener_frame old source new :
  ui (rebindListener old source new) = ui new
  /\ mounted (rebindListener old source new) = mounted new
  /\ now (rebindListener old source new) = now new
  /\ timer (rebindListener old source new) = timer new
  /\ requests (rebindListener old source new) = requests new
  /\ inflight (rebindListener old source new) = inflight new
  /\ normalizing (rebindListener old source new) = normalizing new
  /\ revoked (rebindListener old source new) = revoked new.
Proof.
  unfold rebindListener. destruct (keyDepsChanged old source new); repeat split.
Qed.

Lemma step_frame env w ev :
  ui (step env w ev) = ui (handle env w ev)
  /\ mounted (step env w ev) = mounted (handle env w ev)
  /\ now (step env w ev) = now (handle env w ev)
  /\ timer (step env w ev) = timer (handle env w ev)
  /\ requests (step env w ev) = requests (handle env w ev)
  /\ inflight (step env w ev) = inflight (handle env w ev)
  /\ normalizing (step env w ev) = normalizing (handle env w ev)
  /\ revoked (step env w ev) = revoked (handle env w ev).
Proof. unfold step. apply rebindListener_frame. Qed.

Lemma step_ui env w ev : ui (step env w ev) = ui (handle env w ev).
Proof. apply step_frame. Qed.

Lemma step_requests env w ev : requests (step env w ev) = requests (handle env w ev).
Proof. apply step_frame. Qed.

Lemma step_revoked env w ev : revoked (step env w ev) = revoked (handle env w ev).
Proof. apply step_frame. Qed.

Lemma step_keeps_mounted env w ev :
  mounted (step env w ev) = mounted (handle env w ev).
Proof. apply step_frame. Qed.

(** On a mounted component an event runs its handler. *)
Lemma handle_mounted env w ev :
  mounted w = true ->
  handle env w ev
  = match ev with
    | Elapse ms => elapse ms w
    | SearchChange value => dispatch (handleSearchChange value) w
    | FilterChange filter => dispatch (handleFilterChange filter) w
    | PageChange newPage => dispatch (handlePageChange newPage) w
    | PageSizeChange newSize => dispatch (handlePageSizeChange newSize) w
    | Arrive k outcome => arrive env k outcome w
    | Receive k outcome => receive env k outcome w
    | Normalized k => normalized env k w
    | OpenViewer item => dispatch (openViewer item) w
    | CloseViewer => closeViewer w
    | NavigateViewer direction => dispatch (navigateViewer direction) w
    | ToggleVideo => dispatch toggleVideoPlayback w
    | VideoPlay => dispatch (setIsVideoPlaying true) w
    | VideoPause => dispatch (setIsVideoPlaying false) w
    | KeyDown key => handleKeyDown key w
    | Unmount => unmount w
    end.
Proof. intros Hmounted. unfold handle. rewrite Hmounted. reflexivity. Qed.

Lemma sameViewer_refl s : sameViewer s s.
Proof. repeat split. Qed.

Lemma sameViewer_trans a b c : sameViewer a b -> sameViewer b c -> sameViewer a c.
Proof. unfold sameViewer. intros (? & ? & ?) (? & ? & ?). repeat split; congruence. Qed.

Lemma runEffects_sameViewer old w : sameViewer (ui w) (ui (runEffects old w)).
Proof.
  unfold runEffects, cleanupEffect, debounceEffect, fetchEffect, startFetch.
  destruct (fetchDepsChanged old (ui w));
    destruct (Nat.eqb (List.length (galleryItems (ui w))) 0);
    cbn [ui withUi sendRequest];
    repeat match goal with
           | |- context [if ?c then _ else _] => destruct c
           end; repeat split.
Qed.

Lemma dispatch_sameViewer handler w :
  sameViewer (ui w) (handler (ui w)) -> sameViewer (ui w) (ui (dispatch handler w)).
Proof.
  intros Hkeep. unfold dispatch.
  apply (sameViewer_trans _ (handler (ui w))); [exact Hkeep|].
  apply (runEffects_sameViewer (ui w) (withUi (handler (ui w)) w)).
Qed.

Lemma completeFetch_sameViewer env outcome s : sameViewer s (completeFetch env outcome s).
Proof.
  unfold completeFetch.
  destruct (failureMessage outcome) as [message|]; [repeat split|].
  destruct outcome as [message|status [message|[content ? ? ? ?|items|[items|]]]];
    repeat split.
Qed.

Lemma arrive_sameViewer env k outcome w : sameViewer (ui w) (ui (arrive env k outcome w)).
Proof.
  unfold arrive. destruct (existsb (Nat.eqb k) (inflight w)); [|apply sameViewer_refl].
  apply (dispatch_sameViewer (completeFetch env outcome) (answered k w)).
  apply completeFetch_sameViewer.
Qed.

Lemma handle_sameViewer env w ev :
  quietEvent ev = true -> sameViewer (ui w) (ui (handle env w ev)).
Proof.
  intros Hquiet. unfold handle.
  destruct (mounted w); cbn [negb]; [|apply sameViewer_refl].
  destruct ev; try discriminate Hquiet.
  - unfold elapse. cbn [timer withNow now].
    destruct (timer w) as [[due captured]|]; [|apply sameViewer_refl].
    destruct (due <=? now w + ms); [|apply sameViewer_refl].
    apply (dispatch_sameViewer (debounceCallback captured)
             (withTimer None (withNow (now w + ms) w))).
    repeat split.
  - apply dispatch_sameViewer. repeat split.
  - apply dispatch_sameViewer. repeat split.
  - apply dispatch_sameViewer. unfold handlePageChange.
    destruct ((0 <=? newPage) && (newPage <? totalPages (ui w)))%bool; repeat split.
  - apply dispatch_sameViewer. repeat split.
  - apply arrive_sameViewer.
  - unfold receive.
    destruct (existsb (Nat.eqb k) (inflight w) && negb (suspended k w))%bool;
      [|apply sameViewer_refl].
    destruct (failureMessage outcome); [apply arrive_sameViewer|].
    destruct outcome as [message|status [message|data]]; try apply arrive_sameViewer.
    destruct (awaitsConversion env (itemsOf data));
      [apply sameViewer_refl|apply arrive_sameViewer].
  - unfold normalized.
    destruct (find _ (normalizing w)) as [[j outcome]|]; [|apply sameViewer_refl].
    apply arrive_sameViewer.
  - repeat split.
Qed.

Lemma jsSame_refl n : jsSame n n = true.
Proof. destruct n as [z|]; [apply Z.eqb_refl|reflexivity]. Qed.

(** An event that leaves the viewer alone leaves the listener bound as it
    is. *)
Lemma rebindListener_same old source new :
  sameViewer (ui old) (ui new) ->
  source = selectedFrom old ->
  rebindListener old source new = new.
Proof.
  intros (Hsel & Hidx & Hplay) ->. unfold rebindListener, keyDepsChanged.
  rewrite Hsel, Hidx, Hplay, jsSame_refl, Bool.eqb_reflx.
  destruct (selectedItem (ui old)); [rewrite Nat.eqb_refl|]; reflexivity.
Qed.

Lemma step_quiet env w ev : quietEvent ev = true -> step env w ev = handle env w ev.
Proof.
  intros Hquiet. unfold step. apply rebindListener_same.
  - apply handle_sameViewer. exact Hquiet.
  - destruct ev; try discriminate Hquiet; reflexivity.
Qed.

Lemma step_mounted env w ev :
  mounted w = true ->
  quietEvent ev = true ->
  step env w ev
  = match ev with
    | Elapse ms => elapse ms w
    | SearchChange value => dispatch (handleSearchChange value) w
    | FilterChange filter => dispatch (handleFilterChange filter) w
    | PageChange newPage => dispatch (handlePageChange newPage) w
    | PageSizeChange newSize => dispatch (handlePageSizeChange newSize) w
    | Arrive k outcome => arrive env k outcome w
    | Receive k outcome => receive env k outcome w
    | Normalized k => normalized env k w
    | Unmount => unmount w
    | _ => w
    end.
Proof.
  intros Hmounted Hquiet. rewrite (step_quiet env w ev Hquiet).
  rewrite (handle_mounted env w ev Hmounted).
  destruct ev; try discriminate Hquiet; try reflexivity.
Qed.

(* ------------------------------------------------------------------ *)
(** ** Playback flag on item change *)

Lemma runEffects_isVideoPlaying old w :
  isVideoPlaying (ui (runEffects old w)) = isVideoPlaying (ui w).
Proof.
  unfold runEffects, cleanupEffect, debounceEffect, fetchEffect, startFetch.
  destruct (fetchDepsChanged old (ui w));
    destruct (Nat.eqb (List.length (galleryItems (ui w))) 0);
    cbn [ui withUi sendRequest];
    repeat match goal with
           | |- context [if ?c then _ else _] => destruct c
           end; reflexivity.
Qed.

Lemma dispatch_isVideoPlaying handler w :
  isVideoPlaying (ui (dispatch handler w)) = isVideoPlaying (handler (ui w)).
Proof. unfold dispatch. rewrite runEffects_isVideoPlaying. reflexivity. Qed.

(** C10.  On a mounted gallery every event that puts another item in the
    viewer (a click on a grid item, the arrows of the viewer, the arrow
    keys while the viewer is open) leaves the playing flag false, whatever
    it was before. *)
Theorem item_change_stops_playback env (w : World) (ev : Event) :
  mounted w = true ->
  changesItem w ev = true ->
  isVideoPlaying (ui (step env w ev)) = false.
Proof.
  intros Hmounted Hchange. rewrite step_ui, (handle_mounted env w ev Hmounted).
  destruct ev; try discriminate; cbn [changesItem] in Hchange.
  - rewrite dispatch_isVideoPlaying. reflexivity.
  - rewrite dispatch_isVideoPlaying. reflexivity.
  - unfold handleKeyDown.
    destruct (selectedItem (ui w)) as [item|]; [|discriminate].
    destruct (String.eqb_spec key "Escape") as [Hesc|_].
    { subst key. discriminate. }
    destruct (String.eqb key "ArrowLeft").
    { rewrite dispatch_isVideoPlaying. reflexivity. }
    destruct (String.eqb key "ArrowRight"); [|discriminate].
    rewrite dispatch_isVideoPlaying. reflexivity.
Qed.

Lemma item_change_stops_playback_witness :
  let playing :=
    run Sample.converting [OpenViewer Sample.secondClip; VideoPlay] Sample.firstPage in
  mounted playing = true
  /\ isVideoPlaying (ui playing) = true
  /\ changesItem playing (NavigateViewer next) = true
  /\ isVideoPlaying (ui (step Sample.converting playing (NavigateViewer next))) = false.
Proof.
  intros playing.
  assert (Hmounted : mounted playing = true) by reflexivity.
  assert (Hchange : changesItem playing (NavigateViewer next) = true) by reflexivity.
  split; [exact Hmounted|]. split; [reflexivity|]. split; [exact Hchange|].
  exact (item_change_stops_playback Sample.converting playing (NavigateViewer next)
           Hmounted Hchange).
Defined.

(* ------------------------------------------------------------------ *)
(** ** Renders that re-run the fetch effect *)

Lemma paramsGet_page s :
  paramsGet "page" (buildParams s) = Some (JsString.ofNumber (page (pageable s))).
Proof. reflexivity. Qed.

Lemma startFetch_request s : snd (startFetch s) = buildParams s.
Proof. reflexivity. Qed.

Lemma startFetch_pageable s : pageable (fst (startFetch s)) = pageable s.
Proof.
  unfold startFetch. destruct (Nat.eqb (List.length (galleryItems s)) 0); reflexivity.
Qed.

Lemma startFetch_query s :
  searchTerm (fst (startFetch s)) = searchTerm s
  /\ selectedFilter (fst (startFetch s)) = selectedFilter s
  /\ searchInput (fst (startFetch s)) = searchInput s
  /\ galleryItems (fst (startFetch s)) = galleryItems s.
Proof.
  unfold startFetch.
  destruct (Nat.eqb (List.length (galleryItems s)) 0); repeat split.
Qed.

(** A handler that replaces the [pageable] object, and touches neither the
    search box nor the item array, sends exactly one request: the one
    built from the state it leaves. *)
Lemma dispatch_refetch handler w :
  pageableRef (handler (ui w)) = S (pageableRef (ui w)) ->
  searchInput (handler (ui w)) = searchInput (ui w) ->
  galleryItemsRef (handler (ui w)) = galleryItemsRef (ui w) ->
  dispatch handler w
  = sendRequest (buildParams (handler (ui w)))
      (withUi (fst (startFetch (handler (ui w)))) w).
Proof.
  intros Href Hinput Hitems.
  unfold dispatch, runEffects, fetchEffect.
  assert (Hchanged : fetchDepsChanged (ui w) (ui (withUi (handler (ui w)) w)) = true).
  { unfold fetchDepsChanged. cbn [ui withUi]. rewrite Href.
    destruct (Nat.eqb_spec (pageableRef (ui w)) (S (pageableRef (ui w)))) as [Heq|_].
    - exfalso. apply (Nat.neq_succ_diag_r _ Heq).
    - reflexivity. }
  rewrite Hchanged. cbn [ui withUi].
  rewrite (surjective_pairing (startFetch (handler (ui w)))).
  rewrite startFetch_request.
  unfold debounceEffect. cbn [ui withUi sendRequest].
  destruct (startFetch_query (handler (ui w))) as (_ & _ & Hin & _).
  rewrite Hin, Hinput, String.eqb_refl. cbn [negb].
  unfold cleanupEffect. cbn [ui withUi sendRequest].
  assert (Hkeep : galleryItemsRef (fst (startFetch (handler (ui w))))
                  = galleryItemsRef (ui w)).
  { rewrite <- Hitems. unfold startFetch.
    destruct (Nat.eqb (List.length (galleryItems (handler (ui w)))) 0); reflexivity. }
  rewrite Hkeep, Nat.eqb_refl. reflexivity.
Qed.

Lemma elapse_due w ms due captured :
  timer w = Some (due, captured) ->
  due <= now w + ms ->
  elapse ms w
  = dispatch (debounceCallback captured) (withTimer None (withNow (now w + ms) w)).
Proof.
  intros Htimer Hdue. unfold elapse. cbn [timer withNow now]. rewrite Htimer.
  destruct (Z.leb_spec due (now w + ms)); [reflexivity|lia].
Qed.

(** C2.  On a mounted gallery a change of the filter selection, whether
    or not a debounce timer is pending, and the debounce timer coming due
    with the settled search text, each set [page] of the request
    descriptor to 0 and send exactly one gallery request, whose [page]
    parameter is 0. *)
Theorem query_change_resets_page env (w : World) :
  mounted w = true ->
  (forall filter,
     let afterFilter := step env w (FilterChange filter) in
     selectedFilter (ui afterFilter) = filter
     /\ page (pageable (ui afterFilter)) = 0
     /\ exists request,
         requests afterFilter = (requests w ++ [request])%list
         /\ paramsGet "page" request = Some "0")
  /\ (forall ms due captured,
        timer w = Some (due, captured) ->
        due <= now w + ms ->
        let afterSearch := step env w (Elapse ms) in
        searchTerm (ui afterSearch) = captured
        /\ page (pageable (ui afterSearch)) = 0
        /\ exists request,
            requests afterSearch = (requests w ++ [request])%list
            /\ paramsGet "page" request = Some "0").
Proof.
  intros Hmounted. split.
  - intros filter afterFilter. subst afterFilter.
    rewrite !step_mounted by first [exact Hmounted | reflexivity].
    rewrite dispatch_refetch by reflexivity.
    cbn [ui withUi sendRequest requests].
    destruct (startFetch_query (handleFilterChange filter (ui w))) as (_ & Hf & _).
    rewrite Hf, startFetch_pageable.
    split; [reflexivity|]. split; [reflexivity|].
    eexists. split; [reflexivity|]. rewrite paramsGet_page. reflexivity.
  - intros ms due captured Htimer Hdue afterSearch. subst afterSearch.
    rewrite !step_mounted by first [exact Hmounted | reflexivity].
    rewrite (elapse_due w ms due captured Htimer Hdue).
    rewrite dispatch_refetch by reflexivity.
    cbn [ui withUi withTimer withNow sendRequest requests].
    destruct (startFetch_query (debounceCallback captured (ui w))) as (Ht & _).
    rewrite Ht, startFetch_pageable.
    split; [reflexivity|]. split; [reflexivity|].
    eexists. split; [reflexivity|]. rewrite paramsGet_page. reflexivity.
Qed.

Lemma query_change_resets_page_witness :
  let settled :=
    run Sample.converting
      [Elapse 500; PageChange 1;
       Arrive 2%nat (Sample.envelope [Sample.photo 4 "/media/d.png"] 1 3 7 3)]
      Sample.firstPage in
  let typed := step Sample.converting settled (SearchChange "iftar") in
  (mounted settled = true
   /\ timer settled = None
   /\ page (pageable (ui settled)) = 1
   /\ page (pageable (ui (step Sample.converting settled (FilterChange "videos")))) = 0
   /\ List.length (requests (step Sample.converting settled (FilterChange "videos")))
      = S (List.length (requests settled)))
  /\ (mounted typed = true
      /\ timer typed = Some (1000, "iftar")
      /\ 1000 <= now typed + 500
      /\ page (pageable (ui typed)) = 1
      /\ page (pageable (ui (step Sample.converting typed (Elapse 500)))) = 0).
Proof.
  intros settled typed.
  assert (Hmounted : mounted settled = true) by (vm_compute; reflexivity).
  assert (Hmounted' : mounted typed = true) by (vm_compute; reflexivity).
  assert (Htimer : timer typed = Some (1000, "iftar")) by (vm_compute; reflexivity).
  assert (Hdue : 1000 <= now typed + 500) by (vm_compute; discriminate).
  destruct (proj1 (query_change_resets_page Sample.converting settled Hmounted) "videos")
    as (_ & Hpage & request & Hsent & _).
  destruct (proj2 (query_change_resets_page Sample.converting typed Hmounted')
              500 1000 "iftar" Htimer Hdue) as (_ & Hpage' & _).
  split.
  - split; [exact Hmounted|]. split; [vm_compute; reflexivity|].
    split; [vm_compute; reflexivity|]. split; [exact Hpage|].
    rewrite Hsent, length_app. cbn [List.length]. lia.
  - split; [exact Hmounted'|]. split; [exact Htimer|]. split; [exact Hdue|].
    split; [vm_compute; reflexivity|exact Hpage'].
Defined.

(* ------------------------------------------------------------------ *)
(** ** Arrival of a response *)

Lemma existsb_eqb_In k l : existsb (Nat.eqb k) l = true <-> In k l.
Proof.
  rewrite existsb_exists. split.
  - intros [j [Hin Heq]]. apply Nat.eqb_eq in Heq. subst j. exact Hin.
  - intros Hin. exists k. split; [exact Hin|apply Nat.eqb_refl].
Qed.

Lemma ok_iff status : ok status = true <-> 200 <= status <= 299.
Proof. unfold ok. rewrite andb_true_iff, !Z.leb_le. tauto. Qed.

Lemma failureMessage_fails outcome message :
  fetchFails outcome message -> failureMessage outcome = Some message.
Proof.
  intros [Hnet | (status & body & Hout & Hstatus & Hmsg)]; subst; cbn [failureMessage].
  - reflexivity.
  - destruct (ok status) eqn:Hok; [|reflexivity].
    apply ok_iff in Hok. contradiction.
Qed.

Lemma failureMessage_succeeds outcome data :
  succeedsWith outcome data -> failureMessage outcome = None.
Proof.
  intros (status & Hstatus & Hout). subst. cbn [failureMessage].
  apply ok_iff in Hstatus. rewrite Hstatus. reflexivity.
Qed.

Lemma completeFetch_failure env outcome message s :
  failureMessage outcome = Some message ->
  completeFetch env outcome s
  = setIsPaginating false (setIsLoading false (setError (Some message) s)).
Proof. intros Hmsg. unfold completeFetch. rewrite Hmsg. reflexivity. Qed.

Lemma completeFetch_success env outcome data s :
  succeedsWith outcome data ->
  completeFetch env outcome s
  = setIsPaginating false (setIsLoading false (applyData env data s)).
Proof.
  intros Hok. unfold completeFetch.
  rewrite (failureMessage_succeeds _ _ Hok).
  destruct Hok as (status & _ & Hout). subst. reflexivity.
Qed.

Lemma applyData_galleryItems env data s :
  galleryItems (applyData env data s) = processGalleryItems env (itemsOf data).
Proof. destruct data as [content ? ? ? ?|items|[items|]]; reflexivity. Qed.

Lemma applyData_query env data s :
  pageableRef (applyData env data s) = pageableRef s
  /\ pageable (applyData env data s) = pageable s
  /\ searchTerm (applyData env data s) = searchTerm s
  /\ selectedFilter (applyData env data s) = selectedFilter s
  /\ searchInput (applyData env data s) = searchInput s.
Proof. destruct data as [content ? ? ? ?|items|[items|]]; repeat split. Qed.

(** No outcome changes what the fetch and debounce effects depend on. *)
Lemma completeFetch_query env outcome s :
  pageableRef (completeFetch env outcome s) = pageableRef s
  /\ pageable (completeFetch env outcome s) = pageable s
  /\ searchTerm (completeFetch env outcome s) = searchTerm s
  /\ selectedFilter (completeFetch env outcome s) = selectedFilter s
  /\ searchInput (completeFetch env outcome s) = searchInput s.
Proof.
  unfold completeFetch.
  destruct (failureMessage outcome) as [message|]; [repeat split|].
  destruct outcome as [message|status [message|data]]; try (repeat split).
  all: cbn [pageableRef pageable searchTerm selectedFilter searchInput
            setIsPaginating setIsLoading];
    apply applyData_query.
Qed.

(** The render after a response runs at most the cleanup effect. *)
Lemma dispatch_completeFetch env outcome w :
  dispatch (completeFetch env outcome) w
  = cleanupEffect (ui w) (withUi (completeFetch env outcome (ui w)) w).
Proof.
  destruct (completeFetch_query env outcome (ui w)) as (Href & _ & Hterm & Hfilter & Hinput).
  unfold dispatch, runEffects, fetchEffect.
  cbn [ui withUi].
  rewrite (fetchDepsChanged_false _ _ Href Hterm Hfilter).
  unfold debounceEffect. cbn [ui withUi]. rewrite Hinput, String.eqb_refl.
  reflexivity.
Qed.

Lemma cleanupEffect_frame old w :
  ui (cleanupEffect old w) = ui w
  /\ mounted (cleanupEffect old w) = mounted w
  /\ timer (cleanupEffect old w) = timer w
  /\ requests (cleanupEffect old w) = requests w
  /\ inflight (cleanupEffect old w) = inflight w.
Proof.
  unfold cleanupEffect.
  destruct (negb (Nat.eqb (galleryItemsRef old) (galleryItemsRef (ui w)))); repeat split.
Qed.

Lemma arrive_pending env k outcome w :
  In k (inflight w) ->
  ui (arrive env k outcome w) = completeFetch env outcome (ui w)
  /\ mounted (arrive env k outcome w) = mounted w
  /\ timer (arrive env k outcome w) = timer w
  /\ requests (arrive env k outcome w) = requests w
  /\ inflight (arrive env k outcome w)
     = filter (fun j => negb (Nat.eqb j k)) (inflight w).
Proof.
  intros Hin. unfold arrive.
  apply existsb_eqb_In in Hin. rewrite Hin.
  rewrite dispatch_completeFetch.
  destruct (cleanupEffect_frame (ui (answered k w))
              (withUi (completeFetch env outcome (ui (answered k w))) (answered k w)))
    as (Hui & Hmounted & Htimer & Hreq & Hfl).
  rewrite Hui, Hmounted, Htimer, Hreq, Hfl. repeat split.
Qed.

Lemma answered_gone k l : ~ In k (filter (fun j => negb (Nat.eqb j k)) l).
Proof.
  intros Hin. apply filter_In in Hin. destruct Hin as [_ Hne].
  rewrite Nat.eqb_refl in Hne. discriminate.
Qed.

Lemma answered_other k j l :
  j <> k -> In j l -> In j (filter (fun i => negb (Nat.eqb i k)) l).
Proof.
  intros Hne Hin. apply filter_In. split; [exact Hin|].
  destruct (Nat.eqb_spec j k); [contradiction|reflexivity].
Qed.

(** C6.  When the answer to a pending gallery request is a network
    failure or a status outside 200..299, the error state holds the
    failure message, the displayed items and the pagination state are as
    before, both loading flags are off, and nothing is retried: no request
    is sent, no timer is set and the failed request is no longer
    pending. *)
Theorem fetch_failure_keeps_items env (w : World) (k : nat)
        (outcome : FetchOutcome) (message : string) :
  mounted w = true ->
  In k (inflight w) ->
  fetchFails outcome message ->
  let w' := step env w (Arrive k outcome) in
  error (ui w') = Some message
  /\ galleryItems (ui w') = galleryItems (ui w)
  /\ (currentPage (ui w') = currentPage (ui w)
      /\ totalPages (ui w') = totalPages (ui w)
      /\ totalElements (ui w') = totalElements (ui w))
  /\ (isLoading (ui w') = false /\ isPaginating (ui w') = false)
  /\ requests w' = requests w
  /\ timer w' = timer w
  /\ pageable (ui w') = pageable (ui w)
  /\ ~ In k (inflight w')
  /\ (forall j, In j (inflight w') -> In j (inflight w)).
Proof.
  intros Hmounted Hin Hfails w'. subst w'.
  rewrite step_mounted by first [exact Hmounted | reflexivity].
  destruct (arrive_pending env k outcome w Hin) as (Hui & _ & Htimer & Hreq & Hfl).
  rewrite Hui, Htimer, Hreq, Hfl.
  rewrite (completeFetch_failure env outcome message (ui w)
             (failureMessage_fails _ _ Hfails)).
  repeat split.
  - apply answered_gone.
  - intros j Hj. apply filter_In in Hj. tauto.
Qed.

Lemma fetch_failure_keeps_items_witness :
  let paging := step Sample.converting Sample.firstPage (PageChange 1) in
  let failed := step Sample.converting paging
                     (Arrive 1%nat (Response 503 (Malformed "Unexpected token <"))) in
  mounted paging = true
  /\ In 1%nat (inflight paging)
  /\ fetchFails (Response 503 (Malformed "Unexpected token <"))
                "HTTP error! status: 503"
  /\ error (ui failed) = Some "HTTP error! status: 503"
  /\ galleryItems (ui failed) = galleryItems (ui paging)
  /\ requests failed = requests paging.
Proof.
  intros paging failed.
  assert (Hmounted : mounted paging = true) by (vm_compute; reflexivity).
  assert (Hin : In 1%nat (inflight paging)) by (vm_compute; left; reflexivity).
  assert (Hfails : fetchFails (Response 503 (Malformed "Unexpected token <"))
                              "HTTP error! status: 503").
  { right. exists 503, (Malformed "Unexpected token <").
    split; [reflexivity|]. split; [lia|reflexivity]. }
  pose proof (fetch_failure_keeps_items Sample.converting paging 1%nat _ _
                Hmounted Hin Hfails) as (Herr & Hitems & _ & _ & Hreq & _).
  split; [exact Hmounted|]. split; [exact Hin|]. split; [exact Hfails|].
  split; [exact Herr|]. split; [exact Hitems|exact Hreq].
Defined.

(* ------------------------------------------------------------------ *)
(** ** Order of responses *)

Lemma arrive_success_items env k outcome data w :
  In k (inflight w) ->
  succeedsWith outcome data ->
  galleryItems (ui (arrive env k outcome w)) = processGalleryItems env (itemsOf data).
Proof.
  intros Hin Hok.
  destruct (arrive_pending env k outcome w Hin) as (Hui & _).
  rewrite Hui, (completeFetch_success env outcome data (ui w) Hok).
  apply applyData_galleryItems.
Qed.

Lemma step_Arrive env w k outcome :
  mounted w = true -> step env w (Arrive k outcome) = arrive env k outcome w.
Proof. intros Hmounted. apply step_mounted; [exact Hmounted|reflexivity]. Qed.

(** C1, as the specification states it, fails.  The gallery shows page 0
    of 3; the filter is set to images (request 1, page 0) and page 1 is
    asked for (request 2) before request 1 is answered.  The answer to
    request 2 arrives first, the answer to request 1 after it: the view
    ends on the items and page number of request 1, the earlier one, while
    the request descriptor says page 1. *)
Lemma stale_response_overwrites :
  let older := Sample.envelope [Sample.photo 10 "/media/p0.jpg"] 0 3 7 3 in
  let newer := Sample.envelope [Sample.photo 11 "/media/p1.jpg"] 1 3 7 3 in
  let waiting :=
    run Sample.converting [FilterChange "images"; PageChange 1] Sample.firstPage in
  let final :=
    run Sample.converting [Arrive 2%nat newer; Arrive 1%nat older] waiting in
  inflight waiting = [1%nat; 2%nat]
  /\ option_map (paramsGet "page") (nth_error (requests waiting) 1) = Some (Some "0")
  /\ option_map (paramsGet "page") (nth_error (requests waiting) 2) = Some (Some "1")
  /\ galleryItems (ui final) = [Sample.photo 10 "/media/p0.jpg"]
  /\ galleryItems (ui final) <> [Sample.photo 11 "/media/p1.jpg"]
  /\ currentPage (ui final) = 0
  /\ page (pageable (ui final)) = 1.
Proof.
  intros older newer waiting final. vm_compute.
  repeat split. intros Hsame. discriminate Hsame.
Qed.

Lemma arrive_normalizing env k outcome w :
  In k (inflight w) ->
  normalizing (arrive env k outcome w)
  = filter (fun entry => negb (Nat.eqb (fst entry) k)) (normalizing w).
Proof.
  intros Hin. unfold arrive.
  apply existsb_eqb_In in Hin. rewrite Hin.
  rewrite dispatch_completeFetch. unfold cleanupEffect.
  destruct (negb _); reflexivity.
Qed.

Lemma suspended_false_find k (l : list (nat * FetchOutcome)) :
  existsb (fun entry => Nat.eqb (fst entry) k) l = false ->
  find (fun entry => Nat.eqb (fst entry) k) l = None.
Proof.
  induction l as [|entry l IH]; [reflexivity|].
  cbn [existsb find]. destruct (Nat.eqb (fst entry) k); [discriminate|exact IH].
Qed.

(** A task suspended at the conversions is still found after another
    request has been answered. *)
Lemma find_suspended_after k other outcome (l : list (nat * FetchOutcome)) :
  k <> other ->
  existsb (fun entry => Nat.eqb (fst entry) k) l = false ->
  find (fun entry => Nat.eqb (fst entry) k)
       (filter (fun entry => negb (Nat.eqb (fst entry) other)) (l ++ [(k, outcome)]))
  = Some (k, outcome).
Proof.
  intros Hne. induction l as [|entry l IH]; cbn [app filter existsb find fst].
  - intros _. destruct (Nat.eqb_spec k other); [contradiction|].
    cbn [negb find fst]. rewrite Nat.eqb_refl. reflexivity.
  - destruct (Nat.eqb (fst entry) k) eqn:Hentry; [discriminate|].
    cbn [orb]. intros Hrest.
    destruct (negb (Nat.eqb (fst entry) other)); [cbn [find]; rewrite Hentry|];
      apply IH; exact Hrest.
Qed.

Lemma receive_suspends env k outcome data w :
  In k (inflight w) ->
  suspended k w = false ->
  succeedsWith outcome data ->
  awaitsConversion env (itemsOf data) = true ->
  receive env k outcome w = suspend k outcome w.
Proof.
  intros Hin Hfree Hok Hwait. unfold receive.
  rewrite (proj2 (existsb_eqb_In k (inflight w)) Hin), Hfree.
  rewrite (failureMessage_succeeds outcome data Hok).
  destruct Hok as (status & _ & ->). cbn [andb negb]. rewrite Hwait. reflexivity.
Qed.

Lemma receive_applies env k outcome data w :
  In k (inflight w) ->
  suspended k w = false ->
  succeedsWith outcome data ->
  awaitsConversion env (itemsOf data) = false ->
  receive env k outcome w = arrive env k outcome w.
Proof.
  intros Hin Hfree Hok Hwait. unfold receive.
  rewrite (proj2 (existsb_eqb_In k (inflight w)) Hin), Hfree.
  rewrite (failureMessage_succeeds outcome data Hok).
  destruct Hok as (status & _ & ->). cbn [andb negb]. rewrite Hwait. reflexivity.
Qed.

(** Two tasks that finish one after the other: the page of the second
    one is on screen. *)
Lemma second_to_finish_is_shown env w first second toFirst toSecond dataSecond :
  mounted w = true ->
  first <> second ->
  In first (inflight w) ->
  In second (inflight w) ->
  succeedsWith toSecond dataSecond ->
  let w' := run env [Arrive first toFirst; Arrive second toSecond] w in
  galleryItems (ui w') = processGalleryItems env (itemsOf dataSecond)
  /\ requests w' = requests w
  /\ ~ In first (inflight w')
  /\ ~ In second (inflight w').
Proof.
  intros Hmounted Hne Hfirst Hsecond Hok w'. subst w'.
  unfold run. cbn [fold_left].
  rewrite (step_Arrive env w first toFirst Hmounted).
  destruct (arrive_pending env first toFirst w Hfirst)
    as (_ & Hmounted1 & _ & Hreq1 & Hfl1).
  assert (Hstill : In second (inflight (arrive env first toFirst w))).
  { rewrite Hfl1. apply answered_other; [congruence|exact Hsecond]. }
  rewrite step_Arrive by (rewrite Hmounted1; exact Hmounted).
  destruct (arrive_pending env second toSecond _ Hstill)
    as (_ & _ & _ & Hreq2 & Hfl2).
  split; [|split; [|split]].
  - apply (arrive_success_items env second toSecond dataSecond _ Hstill Hok).
  - rewrite Hreq2, Hreq1. reflexivity.
  - rewrite Hfl2, Hfl1. intros Hin.
    apply filter_In in Hin. destruct Hin as [Hin _].
    revert Hin. apply answered_gone.
  - rewrite Hfl2. apply answered_gone.
Qed.

(** C1, amended.  Every fetch task applies its answer when it reaches the
    end of its awaits (answer received, items normalized), whatever has
    been requested since.  Of two pending requests that both succeed, the
    one whose task finishes second is the one on screen afterwards, in
    either order: the request issued first overwrites the later one when
    it finishes last.  The order of finishing is not the order of
    arrival: an answer that is received first but has HEIC items to
    convert is applied after an answer that is received later and needs no
    conversion.  No request is sent and none stays pending. *)
Theorem last_applied_wins env (w : World) (earlier later : nat)
        (toEarlier toLater : FetchOutcome) (dataEarlier dataLater : GalleryData) :
  mounted w = true ->
  (earlier < later)%nat ->
  In earlier (inflight w) ->
  In later (inflight w) ->
  succeedsWith toEarlier dataEarlier ->
  succeedsWith toLater dataLater ->
  (let w' := run env [Arrive later toLater; Arrive earlier toEarlier] w in
   galleryItems (ui w') = processGalleryItems env (itemsOf dataEarlier)
   /\ requests w' = requests w
   /\ ~ In earlier (inflight w') /\ ~ In later (inflight w'))
  /\ (let w' := run env [Arrive earlier toEarlier; Arrive later toLater] w in
      galleryItems (ui w') = processGalleryItems env (itemsOf dataLater)
      /\ requests w' = requests w
      /\ ~ In earlier (inflight w') /\ ~ In later (inflight w'))
  /\ (suspended earlier w = false ->
      suspended later w = false ->
      awaitsConversion env (itemsOf dataEarlier) = true ->
      awaitsConversion env (itemsOf dataLater) = false ->
      galleryItems (ui (run env [Receive earlier toEarlier; Receive later toLater] w))
      = processGalleryItems env (itemsOf dataLater)
      /\ galleryItems
           (ui (run env [Receive earlier toEarlier; Receive later toLater;
                         Normalized earlier] w))
         = processGalleryItems env (itemsOf dataEarlier)).
Proof.
  intros Hmounted Hlt Hearlier Hlater HokE HokL.
  assert (Hne : earlier <> later) by lia.
  split; [|split].
  - destruct (second_to_finish_is_shown env w later earlier toLater toEarlier dataEarlier
                Hmounted (not_eq_sym Hne) Hlater Hearlier HokE) as (Hitems & Hreq & Hl & He).
    repeat split; assumption.
  - destruct (second_to_finish_is_shown env w earlier later toEarlier toLater dataLater
                Hmounted Hne Hearlier Hlater HokL) as (Hitems & Hreq & He & Hl).
    repeat split; assumption.
  - intros HfreeE HfreeL HwaitE HwaitL.
    unfold run. cbn [fold_left].
    rewrite (step_mounted env w (Receive earlier toEarlier) Hmounted eq_refl).
    rewrite (receive_suspends env earlier toEarlier dataEarlier w
               Hearlier HfreeE HokE HwaitE).
    set (w1 := suspend earlier toEarlier w).
    assert (Hmounted1 : mounted w1 = true) by exact Hmounted.
    assert (Hlater1 : In later (inflight w1)) by exact Hlater.
    assert (HfreeL1 : suspended later w1 = false).
    { unfold suspended, w1. cbn [normalizing suspend].
      rewrite existsb_app. fold (suspended later w). rewrite HfreeL.
      cbn [existsb fst orb]. destruct (Nat.eqb_spec earlier later); [contradiction|].
      reflexivity. }
    rewrite (step_mounted env w1 (Receive later toLater) Hmounted1 eq_refl).
    rewrite (receive_applies env later toLater dataLater w1 Hlater1 HfreeL1 HokL HwaitL).
    set (w2 := arrive env later toLater w1).
    destruct (arrive_pending env later toLater w1 Hlater1)
      as (_ & Hmounted2 & _ & _ & Hfl2).
    fold w2 in Hmounted2, Hfl2.
    split; [apply (arrive_success_items env later toLater dataLater w1 Hlater1 HokL)|].
    rewrite (step_mounted env w2 (Normalized earlier)
               (eq_trans Hmounted2 Hmounted1) eq_refl).
    unfold normalized.
    assert (Hfound : find (fun entry => Nat.eqb (fst entry) earlier) (normalizing w2)
                     = Some (earlier, toEarlier)).
    { unfold w2. rewrite (arrive_normalizing env later toLater w1 Hlater1).
      unfold w1. cbn [normalizing suspend].
      apply find_suspended_after; [exact Hne|exact HfreeE]. }
    rewrite Hfound.
    apply (arrive_success_items env earlier toEarlier dataEarlier w2); [|exact HokE].
    rewrite Hfl2. apply answered_other; [exact Hne|exact Hearlier].
Qed.

Lemma last_applied_wins_witness :
  let slow := Sample.envelope [Sample.photo 10 "/media/p0.heic"] 0 3 7 3 in
  let quick := Sample.envelope [Sample.photo 11 "/media/p1.jpg"] 1 3 7 3 in
  let waiting :=
    run Sample.converting [FilterChange "images"; PageChange 1] Sample.firstPage in
  mounted waiting = true
  /\ (1 < 2)%nat
  /\ In 1%nat (inflight waiting)
  /\ In 2%nat (inflight waiting)
  /\ suspended 1%nat waiting = false
  /\ suspended 2%nat waiting = false
  /\ awaitsConversion Sample.converting [Sample.photo 10 "/media/p0.heic"] = true
  /\ awaitsConversion Sample.converting [Sample.photo 11 "/media/p1.jpg"] = false
  /\ galleryItems (ui (run Sample.converting [Arrive 2%nat quick; Arrive 1%nat slow] waiting))
     = [processItem Sample.converting (Sample.photo 10 "/media/p0.heic")]
  /\ galleryItems (ui (run Sample.converting [Arrive 1%nat slow; Arrive 2%nat quick] waiting))
     = [Sample.photo 11 "/media/p1.jpg"]
  /\ galleryItems
       (ui (run Sample.converting
              [Receive 1%nat slow; Receive 2%nat quick; Normalized 1%nat] waiting))
     = [processItem Sample.converting (Sample.photo 10 "/media/p0.heic")].
Proof.
  intros slow quick waiting.
  assert (Hmounted : mounted waiting = true) by (vm_compute; reflexivity).
  assert (Hlt : (1 < 2)%nat) by lia.
  assert (Hearlier : In 1%nat (inflight waiting)) by (vm_compute; left; reflexivity).
  assert (Hlater : In 2%nat (inflight waiting))
    by (vm_compute; right; left; reflexivity).
  assert (HfreeE : suspended 1%nat waiting = false) by (vm_compute; reflexivity).
  assert (HfreeL : suspended 2%nat waiting = false) by (vm_compute; reflexivity).
  assert (HwaitE : awaitsConversion Sample.converting [Sample.photo 10 "/media/p0.heic"]
                   = true) by (vm_compute; reflexivity).
  assert (HwaitL : awaitsConversion Sample.converting [Sample.photo 11 "/media/p1.jpg"]
                   = false) by (vm_compute; reflexivity).
  assert (HokE : succeedsWith slow
                   (PageEnvelope [Sample.photo 10 "/media/p0.heic"] 0 3 7 3)).
  { exists 200. split; [lia|reflexivity]. }
  assert (HokL : succeedsWith quick
                   (PageEnvelope [Sample.photo 11 "/media/p1.jpg"] 1 3 7 3)).
  { exists 200. split; [lia|reflexivity]. }
  destruct (last_applied_wins Sample.converting waiting 1%nat 2%nat slow quick _ _
              Hmounted Hlt Hearlier Hlater HokE HokL)
    as ((Hstale & _) & (Hfresh & _) & Hconverted).
  destruct (Hconverted HfreeE HfreeL HwaitE HwaitL) as (_ & Hlast).
  split; [exact Hmounted|]. split; [exact Hlt|].
  split; [exact Hearlier|]. split; [exact Hlater|].
  split; [exact HfreeE|]. split; [exact HfreeL|].
  split; [exact HwaitE|]. split; [exact HwaitL|].
  split; [rewrite Hstale; vm_compute; reflexivity|].
  split; [rewrite Hfresh; vm_compute; reflexivity|].
  rewrite Hlast. vm_compute. reflexivity.
Defined.

(* ------------------------------------------------------------------ *)
(** ** Pagination state after a response *)

Lemma pageInvariantb_spec s : pageInvariantb s = true <-> pageInvariant s.
Proof.
  unfold pageInvariantb, pageInvariant.
  rewrite orb_true_iff, Z.leb_le, Z.ltb_lt. lia.
Qed.

(** C5, as the specification states it, fails.  The gallery shows page 0
    of 3 (seven items, three to a page) and the last page is asked for.
    By the time the request is served one item is gone, and the server
    answers with the envelope of a page past the end: no content, number
    2, two pages, six items.  The pagination state takes these numbers as
    they are: page index 2 with two pages and six items. *)
Lemma page_index_past_last_page :
  let shrunk := Sample.envelope [] 2 2 6 3 in
  let final := run Sample.converting [PageChange 2; Arrive 1%nat shrunk] Sample.firstPage in
  pageInvariant (ui Sample.firstPage)
  /\ option_map (paramsGet "page") (nth_error (requests final) 1) = Some (Some "2")
  /\ totalElements (ui final) = 6
  /\ currentPage (ui final) = 2
  /\ totalPages (ui final) = 2
  /\ ~ pageInvariant (ui final).
Proof.
  intros shrunk final.
  split; [apply pageInvariantb_spec; vm_compute; reflexivity|].
  split; [vm_compute; reflexivity|].
  split; [vm_compute; reflexivity|].
  split; [vm_compute; reflexivity|].
  split; [vm_compute; reflexivity|].
  intros Hinv. apply pageInvariantb_spec in Hinv.
  vm_compute in Hinv. discriminate Hinv.
Qed.

(** The fallback branch sets the page count to 1 and leaves the page
    index where it was: after page 2 of 3, a flat list of one item gives
    page index 2 of one page. *)
Example flat_list_after_page_two :
  let final :=
    run Sample.converting
      [PageChange 2;
       Arrive 1%nat (Sample.envelope [Sample.thirdPhoto] 2 3 7 3);
       FilterChange "videos";
       Arrive 2%nat (Response 200 (Json (FlatArray [Sample.secondClip])))]
      Sample.firstPage in
  totalElements (ui final) = 1
  /\ totalPages (ui final) = 1
  /\ currentPage (ui final) = 2
  /\ pageInvariantb (ui final) = false.
Proof. intros final. vm_compute. repeat split. Qed.

(** C5, amended.  When a successful answer to a pending request is
    applied, a paged envelope is copied as it is: page index, page count
    and item count are the envelope's [number], [totalPages] and
    [totalElements], so the invariant holds afterwards exactly when the
    envelope satisfies it.  A flat list, or an object with an [items]
    list, gives one page and as many items as the list has, and the
    invariant holds afterwards when the page index was 0 before. *)
Theorem response_page_invariant env (w : World) (k : nat)
        (outcome : FetchOutcome) (data : GalleryData) :
  mounted w = true ->
  In k (inflight w) ->
  succeedsWith outcome data ->
  let s' := ui (step env w (Arrive k outcome)) in
  match data with
  | PageEnvelope _ number pages elements _ =>
      currentPage s' = number
      /\ totalPages s' = pages
      /\ totalElements s' = elements
      /\ (pageInvariant s' <-> (elements > 0 -> number < pages))
  | FlatArray _ | ItemsObject _ =>
      totalPages s' = 1
      /\ totalElements s' = Z.of_nat (List.length (itemsOf data))
      /\ (currentPage (ui w) = 0 -> pageInvariant s')
  end.
Proof.
  intros Hmounted Hin Hok s'. subst s'.
  rewrite (step_Arrive env w k outcome Hmounted).
  destruct (arrive_pending env k outcome w Hin) as (Hui & _).
  rewrite Hui, (completeFetch_success env outcome data (ui w) Hok).
  unfold pageInvariant.
  destruct data as [content number pages elements size|items|[items|]];
    cbn [applyData currentPage totalPages totalElements itemsOf
         setIsPaginating setIsLoading setPageSize setTotalElements setTotalPages
         setCurrentPage setGalleryItems];
    rewrite ?processGalleryItems_length.
  - repeat split; auto.
  - repeat split. lia.
  - repeat split. lia.
  - repeat split. lia.
Qed.

Lemma response_page_invariant_witness :
  let paging := step Sample.converting Sample.firstPage (PageChange 1) in
  let answer := Sample.envelope [Sample.photo 4 "/media/d.png"] 1 3 7 3 in
  mounted paging = true
  /\ In 1%nat (inflight paging)
  /\ succeedsWith answer (PageEnvelope [Sample.photo 4 "/media/d.png"] 1 3 7 3)
  /\ currentPage (ui (step Sample.converting paging (Arrive 1%nat answer))) = 1
  /\ pageInvariant (ui (step Sample.converting paging (Arrive 1%nat answer))).
Proof.
  intros paging answer.
  assert (Hmounted : mounted paging = true) by (vm_compute; reflexivity).
  assert (Hin : In 1%nat (inflight paging)) by (vm_compute; left; reflexivity).
  assert (Hok : succeedsWith answer (PageEnvelope [Sample.photo 4 "/media/d.png"] 1 3 7 3)).
  { exists 200. split; [lia|reflexivity]. }
  pose proof (response_page_invariant Sample.converting paging 1%nat answer _
                Hmounted Hin Hok) as (Hpage & _ & _ & Hinv).
  split; [exact Hmounted|]. split; [exact Hin|]. split; [exact Hok|].
  split; [exact Hpage|]. apply Hinv. lia.
Defined.

(* ------------------------------------------------------------------ *)
(** ** Release of converted images *)

Lemma dispatch_revoked_quiet handler w :
  keepsDeps (ui w) (handler (ui w)) -> revoked (dispatch handler w) = revoked w.
Proof. intros Hkeep. rewrite dispatch_quiet by exact Hkeep. reflexivity. Qed.

(** C4, as the specification states it, fails.  The first item of the
    page is a converted HEIC photo, backed by a blob URL.  It is opened in
    the viewer and the viewer is closed, which revokes the URL; the
    component is then unmounted and the cleanup revokes the same URL once
    more. *)
Lemma converted_image_revoked_twice :
  let converted := processItem Sample.converting Sample.firstPhoto in
  let closed := run Sample.converting [OpenViewer converted; CloseViewer] Sample.firstPage in
  let final := step Sample.converting closed Unmount in
  src converted = "blob:http://localhost/7"
  /\ In converted (galleryItems (ui Sample.firstPage))
  /\ revoked closed = ["blob:http://localhost/7"]
  /\ revoked final = ["blob:http://localhost/7"; "blob:http://localhost/7"]
  /\ count_occ string_dec (revoked final) (src converted) = 2%nat.
Proof.
  intros converted closed final. vm_compute.
  repeat split. left. reflexivity.
Qed.

(** C4, amended.  Closing the viewer empties it and calls
    [URL.revokeObjectURL] exactly once, on the locator of the item that
    was open, when that locator is a blob URL, and not at all otherwise;
    opening an item and moving to the next or previous one revoke
    nothing.  No record of the call is kept: the cleanup at unmount
    revokes the locator of every blob-backed item of the page, the one
    released on closing included. *)
Theorem close_revokes_open_item env (w : World) (item : MediaItem) :
  mounted w = true ->
  selectedItem (ui w) = Some item ->
  let closed := step env w CloseViewer in
  selectedItem (ui closed) = None
  /\ revoked closed
     = (revoked w ++ if isBlobBacked item then [src item] else [])%list
  /\ (forall other, revoked (step env w (OpenViewer other)) = revoked w)
  /\ (forall direction, revoked (step env w (NavigateViewer direction)) = revoked w)
  /\ revoked (step env closed Unmount)
     = (revoked closed ++ blobUrls (galleryItems (ui w)))%list.
Proof.
  intros Hmounted Hopen closed. subst closed.
  assert (Hkeep : keepsDeps (ui w)
            ((fun s => setIsVideoPlaying false (setSelectedItem None s)) (ui w)))
    by (repeat split).
  assert (Hclosed : handle env w CloseViewer
            = revokeAll (if isBlobBacked item then [src item] else [])
                (withUi (setIsVideoPlaying false (setSelectedItem None (ui w))) w)).
  { rewrite handle_mounted by exact Hmounted.
    unfold closeViewer. rewrite Hopen. rewrite dispatch_quiet by exact Hkeep.
    reflexivity. }
  rewrite step_ui, step_revoked, Hclosed.
  split; [reflexivity|]. split; [reflexivity|].
  split; [|split].
  - intros other. rewrite step_revoked, handle_mounted by exact Hmounted.
    apply dispatch_revoked_quiet, openViewer_keepsDeps.
  - intros direction. rewrite step_revoked, handle_mounted by exact Hmounted.
    apply dispatch_revoked_quiet, navigateViewer_keepsDeps.
  - rewrite step_revoked, handle_mounted
      by (rewrite step_keeps_mounted, Hclosed; exact Hmounted).
    unfold unmount. cbn [revoked unmounted revokeAll].
    rewrite step_revoked, step_ui, Hclosed. reflexivity.
Qed.

Lemma close_revokes_open_item_witness :
  let converted := processItem Sample.converting Sample.firstPhoto in
  let viewing := step Sample.converting Sample.firstPage (OpenViewer converted) in
  mounted viewing = true
  /\ selectedItem (ui viewing) = Some converted
  /\ revoked (step Sample.converting viewing CloseViewer) = ["blob:http://localhost/7"].
Proof.
  intros converted viewing.
  assert (Hmounted : mounted viewing = true) by (vm_compute; reflexivity).
  assert (Hopen : selectedItem (ui viewing) = Some converted)
    by (vm_compute; reflexivity).
  split; [exact Hmounted|]. split; [exact Hopen|].
  pose proof (proj1 (proj2 (close_revokes_open_item Sample.converting viewing
                              converted Hmounted Hopen))) as Hrevoked.
  rewrite Hrevoked. vm_compute. reflexivity.
Defined.

(* ------------------------------------------------------------------ *)
(** ** Debounced search *)

Lemma last_cons {A} (a d : A) l : last (a :: l) d = last l a.
Proof.
  revert a d. induction l as [|b l IH]; intros a d; [reflexivity|].
  change (last (a :: b :: l) d) with (last (b :: l) d).
  rewrite (IH b d), (IH b a). reflexivity.
Qed.

Lemma setSearchInput_current s : setSearchInput (searchInput s) s = s.
Proof. destruct s. reflexivity. Qed.

(** A keystroke that changes the text clears the pending timer and sets
    a new one, 500 ms ahead; nothing else happens. *)
Lemma step_SearchChange env w value :
  mounted w = true ->
  value <> searchInput (ui w) ->
  step env w (SearchChange value)
  = withTimer (Some (now w + 500, value)) (withUi (setSearchInput value (ui w)) w).
Proof.
  intros Hmounted Hnew. rewrite step_mounted by first [exact Hmounted | reflexivity].
  unfold dispatch, runEffects, fetchEffect, handleSearchChange.
  cbn [ui withUi].
  rewrite fetchDepsChanged_false by reflexivity.
  unfold debounceEffect. cbn [ui withUi searchInput setSearchInput].
  destruct (String.eqb_spec (searchInput (ui w)) value) as [Heq|_].
  { exfalso. apply Hnew. symmetry. exact Heq. }
  cbn [negb]. unfold cleanupEffect. cbn [ui withUi withTimer galleryItemsRef setSearchInput].
  rewrite Nat.eqb_refl. reflexivity.
Qed.

(** Before the timer is due the clock moves and nothing else. *)
Lemma step_Elapse_early env w gap due captured :
  mounted w = true ->
  timer w = Some (due, captured) ->
  now w + gap < due ->
  step env w (Elapse gap) = withNow (now w + gap) w.
Proof.
  intros Hmounted Htimer Hearly.
  rewrite step_mounted by first [exact Hmounted | reflexivity].
  unfold elapse. cbn [timer withNow now]. rewrite Htimer.
  destruct (Z.leb_spec due (now w + gap)); [lia|reflexivity].
Qed.

(** While keys keep coming less than 500 ms apart the component only
    follows the text: the buffer holds the last value, one timer is
    pending for it, and no request goes out. *)
Lemma typing_only_buffers env keys :
  forall w shown,
    mounted w = true ->
    timer w = Some (now w + 500, shown) ->
    searchInput (ui w) = shown ->
    changes shown (map snd keys) ->
    Forall (fun key => 0 <= fst key < 500) keys ->
    let w' := run env (typing keys) w in
    let settled := last (map snd keys) shown in
    mounted w' = true
    /\ timer w' = Some (now w' + 500, settled)
    /\ ui w' = setSearchInput settled (ui w)
    /\ requests w' = requests w.
Proof.
  induction keys as [|[gap value] keys IH]; intros w shown Hmounted Htimer Hshown Hch Hgaps.
  - cbn. rewrite <- Hshown, setSearchInput_current. rewrite Hshown. auto.
  - cbn [typing flat_map fst snd app run fold_left].
    cbn [map snd changes] in Hch. destruct Hch as [Hnew Hch].
    inversion Hgaps as [|? ? Hgap Hgaps']; subst. cbn [fst] in Hgap.
    rewrite (step_Elapse_early env w gap _ _ Hmounted Htimer) by lia.
    rewrite step_SearchChange; [|exact Hmounted|cbn [ui withNow]; congruence].
    set (w2 := withTimer _ _).
    specialize (IH w2 value Hmounted eq_refl eq_refl Hch Hgaps').
    cbv zeta in IH. destruct IH as (Hm & Ht & Hui & Hreq).
    change (fold_left (step env) (flat_map
              (fun key => [Elapse (fst key); SearchChange (snd key)]) keys) w2)
      with (run env (typing keys) w2).
    cbn [map snd]. rewrite last_cons.
    split; [exact Hm|]. split; [exact Ht|]. split; [|exact Hreq].
    rewrite Hui. reflexivity.
Qed.

(** C8.  A first change of the search text followed by any number of
    further changes, each less than 500 ms after the one before, updates
    the input buffer at once and sends nothing while the typing lasts;
    once 500 ms pass without a key, exactly one request is sent, built
    from the search term set to the last value typed and page 0, and no
    timer is left pending. *)
Theorem debounce_single_update env (w : World) (first : string)
        (keys : list (Z * string)) (pause : Z) :
  mounted w = true ->
  changes (searchInput (ui w)) (first :: map snd keys) ->
  Forall (fun key => 0 <= fst key < 500) keys ->
  500 <= pause ->
  let settled := last (map snd keys) first in
  let typed := run env (SearchChange first :: typing keys) w in
  let final := run env (SearchChange first :: typing keys ++ [Elapse pause]) w in
  (searchInput (ui typed) = settled
   /\ searchTerm (ui typed) = searchTerm (ui w)
   /\ requests typed = requests w)
  /\ requests final
     = (requests w ++ [buildParams (debounceCallback settled (ui w))])%list
  /\ searchTerm (ui final) = settled
  /\ searchInput (ui final) = settled
  /\ timer final = None.
Proof.
  intros Hmounted [Hnew Hch] Hgaps Hpause settled typed final.
  assert (Htyped : mounted typed = true
                   /\ timer typed = Some (now typed + 500, settled)
                   /\ ui typed = setSearchInput settled (ui w)
                   /\ requests typed = requests w).
  { subst typed settled.
    change (run env (SearchChange first :: typing keys) w)
      with (run env (typing keys) (step env w (SearchChange first))).
    rewrite step_SearchChange by assumption.
    set (w1 := withTimer _ _).
    pose proof (typing_only_buffers env keys w1 first Hmounted eq_refl eq_refl Hch Hgaps)
      as Hrun.
    cbv zeta in Hrun. destruct Hrun as (Hm & Ht & Hui & Hreq).
    split; [exact Hm|]. split; [exact Ht|]. split; [|exact Hreq].
    rewrite Hui. reflexivity. }
  destruct Htyped as (Hm & Ht & Hui & Hreq).
  assert (Hfinal : final = step env typed (Elapse pause)).
  { subst final typed. unfold run. cbn [fold_left].
    rewrite fold_left_app. reflexivity. }
  split.
  { rewrite Hui, Hreq. repeat split. }
  rewrite Hfinal. rewrite step_mounted by first [exact Hm | reflexivity].
  rewrite (elapse_due typed pause _ _ Ht) by lia.
  rewrite dispatch_refetch by reflexivity.
  cbn [ui withUi withTimer withNow sendRequest requests timer].
  destruct (startFetch_query (debounceCallback settled (ui typed)))
    as (Hterm & _ & Hinput & _).
  rewrite Hterm, Hinput, Hreq, Hui. repeat split.
Qed.

Lemma debounce_single_update_witness :
  let keys := [(120, "if"); (90, "ift"); (499, "ifta"); (200, "iftar")] in
  mounted Sample.firstPage = true
  /\ changes (searchInput (ui Sample.firstPage)) ("i" :: map snd keys)
  /\ Forall (fun key => 0 <= fst key < 500) keys
  /\ 500 <= 500
  /\ requests (run Sample.converting
                 (SearchChange "i" :: typing keys ++ [Elapse 500]) Sample.firstPage)
     = [ [("page", "0"); ("size", "12"); ("sort", "date,desc")];
         [("page", "0"); ("size", "12"); ("sort", "date,desc"); ("search", "iftar")] ].
Proof.
  intros keys.
  assert (Hmounted : mounted Sample.firstPage = true) by (vm_compute; reflexivity).
  assert (Hch : changes (searchInput (ui Sample.firstPage)) ("i" :: map snd keys)).
  { vm_compute. repeat split; intros Hsame; discriminate Hsame. }
  assert (Hgaps : Forall (fun key => 0 <= fst key < 500) keys).
  { repeat constructor; cbn; lia. }
  assert (Hpause : 500 <= 500) by lia.
  split; [exact Hmounted|]. split; [exact Hch|]. split; [exact Hgaps|].
  split; [exact Hpause|].
  pose proof (proj1 (proj2 (debounce_single_update Sample.converting Sample.firstPage
                              "i" keys 500 Hmounted Hch Hgaps Hpause))) as Hsent.
  rewrite Hsent. vm_compute. reflexivity.
Defined.

(* ================================================================== *)
(** * Further properties of the gallery page *)

(* ------------------------------------------------------------------ *)
(** ** The request that goes out *)

Lemma withUi_same w : withUi (ui w) w = w.
Proof. destruct w. reflexivity. Qed.

Lemma paramsGet_app key (front back : Params) :
  paramsGet key (front ++ back)%list
  = match paramsGet key front with
    | Some value => Some value
    | None => paramsGet key back
    end.
Proof.
  induction front as [|[k v] front IH]; [reflexivity|].
  cbn [app paramsGet]. destruct (String.eqb k key); [reflexivity|exact IH].
Qed.

Lemma filterParams_cases selectedFilter :
  (selectedFilter = "featured" /\ filterParams selectedFilter = [("featured", "true")])
  \/ (selectedFilter = "images" /\ filterParams selectedFilter = [("type", "image")])
  \/ (selectedFilter = "videos" /\ filterParams selectedFilter = [("type", "video")])
  \/ (selectedFilter <> "featured" /\ selectedFilter <> "images"
      /\ selectedFilter <> "videos" /\ filterParams selectedFilter = []).
Proof.
  unfold filterParams.
  destruct (String.eqb_spec selectedFilter "featured") as [->|Hf]; [left; split; reflexivity|].
  destruct (String.eqb_spec selectedFilter "images") as [->|Hi];
    [right; left; split; reflexivity|].
  destruct (String.eqb_spec selectedFilter "videos") as [->|Hv];
    [right; right; left; split; reflexivity|].
  right; right; right.
  destruct (negb (String.eqb selectedFilter "all")); repeat split; assumption.
Qed.

(** The value of each parameter of the request built from [s]. *)
Lemma request_parameters_of (s : GalleryState) :
  paramsGet "page" (buildParams s) = Some (JsString.ofNumber (page (pageable s)))
  /\ paramsGet "size" (buildParams s) = Some (JsString.ofNumber (size (pageable s)))
  /\ paramsGet "sort" (buildParams s) = Some (sort (pageable s))
  /\ paramsGet "search" (buildParams s)
     = (if String.eqb (searchTerm s) "" then None else Some (searchTerm s))
  /\ paramsGet "featured" (buildParams s)
     = (if String.eqb (selectedFilter s) "featured" then Some "true" else None)
  /\ paramsGet "type" (buildParams s)
     = (if String.eqb (selectedFilter s) "images" then Some "image"
        else if String.eqb (selectedFilter s) "videos" then Some "video"
        else None).
Proof.
  assert (Hfeatured : paramsGet "featured" (buildParams s)
            = (if String.eqb (selectedFilter s) "featured" then Some "true" else None)).
  { unfold buildParams. cbn [app paramsGet String.eqb Ascii.eqb Bool.eqb].
    rewrite paramsGet_app.
    destruct (JsString.truthy (searchTerm s)); cbn [paramsGet String.eqb Ascii.eqb Bool.eqb];
      destruct (filterParams_cases (selectedFilter s))
        as [[-> ->]|[[-> ->]|[[-> ->]|(Hf & _ & _ & ->)]]];
      try reflexivity;
      destruct (String.eqb_spec (selectedFilter s) "featured");
      try contradiction; reflexivity. }
  assert (Htype : paramsGet "type" (buildParams s)
            = (if String.eqb (selectedFilter s) "images" then Some "image"
               else if String.eqb (selectedFilter s) "videos" then Some "video"
               else None)).
  { unfold buildParams. cbn [app paramsGet String.eqb Ascii.eqb Bool.eqb].
    rewrite paramsGet_app.
    destruct (JsString.truthy (searchTerm s)); cbn [paramsGet String.eqb Ascii.eqb Bool.eqb];
      destruct (filterParams_cases (selectedFilter s))
        as [[-> ->]|[[-> ->]|[[-> ->]|(_ & Hi & Hv & ->)]]];
      try reflexivity;
      destruct (String.eqb_spec (selectedFilter s) "images");
      destruct (String.eqb_spec (selectedFilter s) "videos");
      try contradiction; reflexivity. }
  split; [reflexivity|]. split; [reflexivity|]. split; [reflexivity|].
  split.
  { unfold buildParams. cbn [app paramsGet String.eqb Ascii.eqb Bool.eqb].
    rewrite paramsGet_app. unfold JsString.truthy.
    destruct (String.eqb (searchTerm s) ""); cbn [negb paramsGet String.eqb Ascii.eqb Bool.eqb].
    - destruct (filterParams_cases (selectedFilter s))
        as [[_ ->]|[[_ ->]|[[_ ->]|(_ & _ & _ & ->)]]]; reflexivity.
    - reflexivity. }
  split; [exact Hfeatured|exact Htype].
Qed.
(** X1.  The query string of a gallery request always carries [page],
    [size] and [sort] of the request descriptor; [search] is present
    exactly when the search term is not empty; [featured=true] goes with
    the filter "featured", [type=image] with "images", [type=video] with
    "videos", and any other filter value adds nothing, so [featured] and
    [type] are never sent together. *)
Theorem request_parameters (s : GalleryState) :
  paramsGet "page" (buildParams s) = Some (JsString.ofNumber (page (pageable s)))
  /\ paramsGet "size" (buildParams s) = Some (JsString.ofNumber (size (pageable s)))
  /\ paramsGet "sort" (buildParams s) = Some (sort (pageable s))
  /\ paramsGet "search" (buildParams s)
     = (if String.eqb (searchTerm s) "" then None else Some (searchTerm s))
  /\ paramsGet "featured" (buildParams s)
     = (if String.eqb (selectedFilter s) "featured" then Some "true" else None)
  /\ paramsGet "type" (buildParams s)
     = (if String.eqb (selectedFilter s) "images" then Some "image"
        else if String.eqb (selectedFilter s) "videos" then Some "video"
        else None)
  /\ (paramsGet "featured" (buildParams s) = None
      \/ paramsGet "type" (buildParams s) = None).
Proof.
  destruct (request_parameters_of s) as (Hp & Hs & Ho & Hq & Hf & Ht).
  split; [exact Hp|]. split; [exact Hs|]. split; [exact Ho|].
  split; [exact Hq|]. split; [exact Hf|]. split; [exact Ht|].
  rewrite Hf, Ht.
  destruct (String.eqb_spec (selectedFilter s) "featured") as [->|_];
    [right; reflexivity|left; reflexivity].
Qed.

(* ------------------------------------------------------------------ *)
(** ** Page and page-size changes *)

Lemma dispatch_same w : dispatch (fun s => s) w = w.
Proof.
  rewrite dispatch_quiet by (repeat split). apply withUi_same.
Qed.

Lemma startFetch_frame s :
  galleryItems (fst (startFetch s)) = galleryItems s
  /\ currentPage (fst (startFetch s)) = currentPage s
  /\ totalPages (fst (startFetch s)) = totalPages s
  /\ totalElements (fst (startFetch s)) = totalElements s
  /\ selectedItem (fst (startFetch s)) = selectedItem s
  /\ error (fst (startFetch s)) = None.
Proof.
  unfold startFetch.
  destruct (Nat.eqb (List.length (galleryItems s)) 0); repeat split.
Qed.

(** X2.  A request for page [newPage] is honoured only inside
    [0, totalPages): then exactly one gallery request is sent, for that
    page with the size, sort, search term and filter as they were, and
    the items on screen stay.  Outside the range (so also for every page
    while no response has set [totalPages]) nothing at all happens. *)
Theorem page_change_guard env (w : World) (newPage : Z) :
  mounted w = true ->
  let w' := step env w (PageChange newPage) in
  (0 <= newPage < totalPages (ui w) ->
   requests w' = (requests w ++ [buildParams (setPageable (withPage newPage) (ui w))])%list
   /\ paramsGet "page" (buildParams (setPageable (withPage newPage) (ui w)))
      = Some (JsString.ofNumber newPage)
   /\ pageable (ui w')
      = {| page := newPage; size := size (pageable (ui w)); sort := sort (pageable (ui w)) |}
   /\ searchTerm (ui w') = searchTerm (ui w)
   /\ selectedFilter (ui w') = selectedFilter (ui w)
   /\ galleryItems (ui w') = galleryItems (ui w)
   /\ currentPage (ui w') = currentPage (ui w))
  /\ (~ 0 <= newPage < totalPages (ui w) -> w' = w).
Proof.
  intros Hmounted w'. subst w'. rewrite step_mounted by first [exact Hmounted | reflexivity].
  split.
  - intros Hrange.
    assert (Hhandler : handlePageChange newPage (ui w)
                       = setPageable (withPage newPage) (ui w)).
    { unfold handlePageChange.
      destruct (Z.leb_spec 0 newPage); [|lia].
      destruct (Z.ltb_spec newPage (totalPages (ui w))); [reflexivity|lia]. }
    rewrite dispatch_refetch; rewrite Hhandler; try reflexivity.
    cbn [ui withUi sendRequest requests].
    destruct (startFetch_query (setPageable (withPage newPage) (ui w)))
      as (Hterm & Hfilter & _ & _).
    destruct (startFetch_frame (setPageable (withPage newPage) (ui w)))
      as (Hitems & Hpage & _).
    rewrite startFetch_pageable, Hterm, Hfilter, Hitems, Hpage.
    repeat split.
  - intros Hout.
    assert (Hsame : handlePageChange newPage (ui w) = ui w).
    { unfold handlePageChange.
      destruct (Z.leb_spec 0 newPage); [|reflexivity].
      destruct (Z.ltb_spec newPage (totalPages (ui w))); [lia|reflexivity]. }
    unfold dispatch. rewrite Hsame.
    rewrite runEffects_quiet by (repeat split). apply withUi_same.
Qed.

Lemma page_change_guard_witness :
  mounted Sample.firstPage = true
  /\ 0 <= 2 < totalPages (ui Sample.firstPage)
  /\ ~ 0 <= 3 < totalPages (ui Sample.firstPage)
  /\ requests (step Sample.converting Sample.firstPage (PageChange 2))
     = [ [("page", "0"); ("size", "12"); ("sort", "date,desc")];
         [("page", "2"); ("size", "12"); ("sort", "date,desc")] ]
  /\ step Sample.converting Sample.firstPage (PageChange 3) = Sample.firstPage.
Proof.
  assert (Hmounted : mounted Sample.firstPage = true) by (vm_compute; reflexivity).
  assert (Hin : 0 <= 2 < totalPages (ui Sample.firstPage))
    by (vm_compute; split; [discriminate|reflexivity]).
  assert (Hout : ~ 0 <= 3 < totalPages (ui Sample.firstPage)).
  { vm_compute. intros [_ Hlt]. discriminate Hlt. }
  destruct (page_change_guard Sample.converting Sample.firstPage 2 Hmounted)
    as [Hsent _].
  destruct (page_change_guard Sample.converting Sample.firstPage 3 Hmounted)
    as [_ Hignored].
  split; [exact Hmounted|]. split; [exact Hin|]. split; [exact Hout|].
  split.
  - rewrite (proj1 (Hsent Hin)). vm_compute. reflexivity.
  - exact (Hignored Hout).
Defined.

(** X3.  A change of the page size sends exactly one gallery request,
    with the new size and page 0, and leaves sort order, search term,
    filter and the items on screen as they were. *)
Theorem page_size_change_refetches env (w : World) (newSize : Z) :
  mounted w = true ->
  let w' := step env w (PageSizeChange newSize) in
  exists request,
    requests w' = (requests w ++ [request])%list
    /\ paramsGet "size" request = Some (JsString.ofNumber newSize)
    /\ paramsGet "page" request = Some "0"
    /\ paramsGet "sort" request = Some (sort (pageable (ui w)))
    /\ paramsGet "search" request = paramsGet "search" (buildParams (ui w))
    /\ paramsGet "featured" request = paramsGet "featured" (buildParams (ui w))
    /\ paramsGet "type" request = paramsGet "type" (buildParams (ui w))
    /\ pageable (ui w')
       = {| page := 0; size := newSize; sort := sort (pageable (ui w)) |}
    /\ galleryItems (ui w') = galleryItems (ui w).
Proof.
  intros Hmounted w'. subst w'. rewrite step_mounted by first [exact Hmounted | reflexivity].
  rewrite dispatch_refetch by reflexivity.
  cbn [ui withUi sendRequest requests].
  set (s' := handlePageSizeChange newSize (ui w)).
  exists (buildParams s').
  destruct (startFetch_frame s') as (Hitems & _).
  rewrite startFetch_pageable, Hitems.
  destruct (request_parameters_of s') as (Hp & Hs & Ho & Hq & Hf & Ht).
  destruct (request_parameters_of (ui w)) as (_ & _ & _ & Hq0 & Hf0 & Ht0).
  rewrite Hp, Hs, Ho, Hq, Hf, Ht, Hq0, Hf0, Ht0.
  repeat split.
Qed.

Lemma page_size_change_refetches_witness :
  mounted Sample.firstPage = true
  /\ exists request,
      requests (step Sample.converting Sample.firstPage (PageSizeChange 24))
      = (requests Sample.firstPage ++ [request])%list
      /\ paramsGet "size" request = Some "24".
Proof.
  assert (Hmounted : mounted Sample.firstPage = true) by (vm_compute; reflexivity).
  split; [exact Hmounted|].
  destruct (page_size_change_refetches Sample.converting Sample.firstPage 24 Hmounted)
    as (request & Hsent & Hsize & _).
  exists request. split; [exact Hsent|exact Hsize].
Defined.

(* ------------------------------------------------------------------ *)
(** ** What the user sees while a request is out and after it *)

Lemma startFetch_flags s :
  (galleryItems s = [] ->
   isLoading (fst (startFetch s)) = true
   /\ isPaginating (fst (startFetch s)) = isPaginating s)
  /\ (galleryItems s <> [] ->
      isLoading (fst (startFetch s)) = isLoading s
      /\ isPaginating (fst (startFetch s)) = true).
Proof.
  unfold startFetch. destruct (galleryItems s) as [|item items].
  - split; [intros _; split; reflexivity|intros Hne; contradiction].
  - split; [discriminate|intros _; split; reflexivity].
Qed.

Lemma galleryView_of s :
  error s = None ->
  galleryView s
  = if isLoading s then LoadingPanel
    else if Nat.eqb (List.length (galleryItems s)) 0 then EmptyPanel
    else Grid (galleryItems s) (isPaginating s).
Proof. intros Herr. unfold galleryView. rewrite Herr. reflexivity. Qed.

Lemma length_zero_nil {A} (l : list A) : Nat.eqb (List.length l) 0 = true <-> l = [].
Proof. destruct l; split; intros H; try reflexivity; discriminate. Qed.

(** X4.  When the filter or the page size is changed, any error on
    screen is cleared.  If items are on screen (and the initial load is
    over) they stay there under the loading overlay; if there are none,
    the full loading panel is shown. *)
Theorem refetch_keeps_items_visible env (w : World) (ev : Event) :
  mounted w = true ->
  (exists filter, ev = FilterChange filter) \/ (exists newSize, ev = PageSizeChange newSize) ->
  let w' := step env w ev in
  error (ui w') = None
  /\ (galleryItems (ui w) <> [] -> isLoading (ui w) = false ->
      galleryView (ui w') = Grid (galleryItems (ui w)) true)
  /\ (galleryItems (ui w) = [] -> galleryView (ui w') = LoadingPanel).
Proof.
  intros Hmounted Hev w'. subst w'.
  assert (Hui : exists handler,
             ui (step env w ev) = fst (startFetch (handler (ui w)))
             /\ galleryItems (handler (ui w)) = galleryItems (ui w)
             /\ isLoading (handler (ui w)) = isLoading (ui w)).
  { destruct Hev as [[filter ->]|[newSize ->]]; rewrite step_mounted by first [exact Hmounted | reflexivity].
    - exists (handleFilterChange filter).
      rewrite dispatch_refetch by reflexivity. repeat split.
    - exists (handlePageSizeChange newSize).
      rewrite dispatch_refetch by reflexivity. repeat split. }
  destruct Hui as (handler & Hui & Hitems & Hloading).
  rewrite Hui.
  destruct (startFetch_frame (handler (ui w))) as (Hkept & _ & _ & _ & _ & Herr).
  destruct (startFetch_flags (handler (ui w))) as [Hnone Hsome].
  split; [exact Herr|]. split.
  - intros Hne Hloaded. rewrite galleryView_of by exact Herr.
    rewrite Hitems in Hsome. destruct (Hsome Hne) as [Hl Hp].
    rewrite Hl, Hp, Hloading, Hloaded, Hkept, Hitems.
    destruct (Nat.eqb (List.length (galleryItems (ui w))) 0) eqn:Hlen; [|reflexivity].
    apply length_zero_nil in Hlen. contradiction.
  - intros Hempty. rewrite galleryView_of by exact Herr.
    rewrite Hitems in Hnone. destruct (Hnone Hempty) as [Hl _].
    rewrite Hl. reflexivity.
Qed.

Lemma refetch_keeps_items_visible_witness :
  mounted Sample.firstPage = true
  /\ ((exists filter, FilterChange "videos" = FilterChange filter)
      \/ (exists newSize, FilterChange "videos" = PageSizeChange newSize))
  /\ galleryItems (ui Sample.firstPage) <> []
  /\ isLoading (ui Sample.firstPage) = false
  /\ galleryView (ui (step Sample.converting Sample.firstPage (FilterChange "videos")))
     = Grid (galleryItems (ui Sample.firstPage)) true.
Proof.
  assert (Hmounted : mounted Sample.firstPage = true) by (vm_compute; reflexivity).
  assert (Hev : (exists filter, FilterChange "videos" = FilterChange filter)
                \/ (exists newSize, FilterChange "videos" = PageSizeChange newSize)).
  { left. exists "videos". reflexivity. }
  assert (Hne : galleryItems (ui Sample.firstPage) <> []).
  { vm_compute. intros Hnil. discriminate Hnil. }
  assert (Hloaded : isLoading (ui Sample.firstPage) = false) by (vm_compute; reflexivity).
  split; [exact Hmounted|]. split; [exact Hev|]. split; [exact Hne|].
  split; [exact Hloaded|].
  exact (proj1 (proj2 (refetch_keeps_items_visible Sample.converting Sample.firstPage
                         (FilterChange "videos") Hmounted Hev)) Hne Hloaded).
Defined.

Lemma completeFetch_success_view env outcome data s :
  succeedsWith outcome data ->
  galleryItems (completeFetch env outcome s) = processGalleryItems env (itemsOf data)
  /\ isLoading (completeFetch env outcome s) = false
  /\ isPaginating (completeFetch env outcome s) = false
  /\ error (completeFetch env outcome s) = error s.
Proof.
  intros Hok. rewrite (completeFetch_success env outcome data s Hok).
  destruct data as [content ? ? ? ?|items|[items|]]; repeat split.
Qed.

(** X5.  When the answer to a pending request is a success and no error
    is held, both loading indications go away and the grid shows the
    normalized items of the answer, or the "no media" panel when the
    answer has none.  The answer sends no request and leaves the request
    descriptor, the search term and the filter as they are. *)
Theorem response_replaces_grid env (w : World) (k : nat)
        (outcome : FetchOutcome) (data : GalleryData) :
  mounted w = true ->
  In k (inflight w) ->
  succeedsWith outcome data ->
  error (ui w) = None ->
  let w' := step env w (Arrive k outcome) in
  galleryView (ui w')
  = match itemsOf data with
    | [] => EmptyPanel
    | _ :: _ => Grid (processGalleryItems env (itemsOf data)) false
    end
  /\ requests w' = requests w
  /\ pageable (ui w') = pageable (ui w)
  /\ searchTerm (ui w') = searchTerm (ui w)
  /\ selectedFilter (ui w') = selectedFilter (ui w).
Proof.
  intros Hmounted Hin Hok Herr w'. subst w'.
  rewrite (step_Arrive env w k outcome Hmounted).
  destruct (arrive_pending env k outcome w Hin) as (Hui & _ & _ & Hreq & _).
  rewrite Hui, Hreq.
  destruct (completeFetch_query env outcome (ui w)) as (_ & Hpageable & Hterm & Hfilter & _).
  destruct (completeFetch_success_view env outcome data (ui w) Hok)
    as (Hitems & Hloading & Hpaginating & Herror).
  split; [|repeat split; assumption].
  rewrite galleryView_of by (rewrite Herror; exact Herr).
  rewrite Hloading, Hpaginating, Hitems, processGalleryItems_length.
  destruct (itemsOf data); reflexivity.
Qed.

Lemma response_replaces_grid_witness :
  let paging := step Sample.converting Sample.firstPage (PageChange 1) in
  let answer := Sample.envelope [Sample.photo 4 "/media/d.png"] 1 3 7 3 in
  mounted paging = true
  /\ In 1%nat (inflight paging)
  /\ succeedsWith answer (PageEnvelope [Sample.photo 4 "/media/d.png"] 1 3 7 3)
  /\ error (ui paging) = None
  /\ galleryView (ui (step Sample.converting paging (Arrive 1%nat answer)))
     = Grid [Sample.photo 4 "/media/d.png"] false.
Proof.
  intros paging answer.
  assert (Hmounted : mounted paging = true) by (vm_compute; reflexivity).
  assert (Hin : In 1%nat (inflight paging)) by (vm_compute; left; reflexivity).
  assert (Hok : succeedsWith answer (PageEnvelope [Sample.photo 4 "/media/d.png"] 1 3 7 3)).
  { exists 200. split; [lia|reflexivity]. }
  assert (Herr : error (ui paging) = None) by (vm_compute; reflexivity).
  split; [exact Hmounted|]. split; [exact Hin|]. split; [exact Hok|].
  split; [exact Herr|].
  rewrite (proj1 (response_replaces_grid Sample.converting paging 1%nat answer _
                    Hmounted Hin Hok Herr)).
  vm_compute. reflexivity.
Defined.

Lemma paginationControls_error s message :
  error s = Some message -> message <> "" -> paginationControls s = None.
Proof.
  intros Herr Hmsg. unfold paginationControls, errorShown, JsString.truthy.
  rewrite Herr. destruct (String.eqb_spec message ""); [contradiction|reflexivity].
Qed.

(** X6.  A failed gallery fetch whose message is not empty (every HTTP
    failure is one) replaces the grid by the error panel with that message
    and hides the pagination controls, although the items are still held.
    A failure with an empty message shows no error panel: the view is the
    one of the items held, without overlay. *)
Theorem failure_shows_error_panel env (w : World) (k : nat)
        (outcome : FetchOutcome) (message : string) :
  mounted w = true ->
  In k (inflight w) ->
  fetchFails outcome message ->
  let w' := step env w (Arrive k outcome) in
  (message <> "" ->
   galleryView (ui w') = ErrorPanel message /\ paginationControls (ui w') = None)
  /\ ((exists status body, outcome = Response status body) -> message <> "")
  /\ (message = "" ->
      galleryView (ui w')
      = match galleryItems (ui w) with
        | [] => EmptyPanel
        | _ :: _ => Grid (galleryItems (ui w)) false
        end).
Proof.
  intros Hmounted Hin Hfails w'. subst w'.
  rewrite (step_Arrive env w k outcome Hmounted).
  destruct (arrive_pending env k outcome w Hin) as (Hui & _).
  rewrite Hui.
  rewrite (completeFetch_failure env outcome message (ui w)
             (failureMessage_fails _ _ Hfails)).
  split; [|split].
  - intros Hmsg. split.
    + unfold galleryView, JsString.truthy.
      cbn [error setIsPaginating setIsLoading setError].
      destruct (String.eqb_spec message ""); [contradiction|reflexivity].
    + apply (paginationControls_error _ message); [reflexivity|exact Hmsg].
  - intros (status & body & Hout).
    destruct Hfails as [Hnet|(status' & body' & _ & _ & ->)].
    + rewrite Hnet in Hout. discriminate Hout.
    + discriminate.
  - intros ->. unfold galleryView.
    cbn [error isLoading isPaginating galleryItems filteredItems
         setIsPaginating setIsLoading setError JsString.truthy String.eqb negb].
    destruct (galleryItems (ui w)); reflexivity.
Qed.

Lemma failure_shows_error_panel_witness :
  let paging := step Sample.converting Sample.firstPage (PageChange 1) in
  let failed := step Sample.converting paging (Arrive 1%nat (NetworkFailure "Failed to fetch")) in
  mounted paging = true
  /\ In 1%nat (inflight paging)
  /\ fetchFails (NetworkFailure "Failed to fetch") "Failed to fetch"
  /\ "Failed to fetch" <> ""
  /\ galleryView (ui failed) = ErrorPanel "Failed to fetch"
  /\ paginationControls (ui failed) = None.
Proof.
  intros paging failed.
  assert (Hmounted : mounted paging = true) by (vm_compute; reflexivity).
  assert (Hin : In 1%nat (inflight paging)) by (vm_compute; left; reflexivity).
  assert (Hfails : fetchFails (NetworkFailure "Failed to fetch") "Failed to fetch")
    by (left; reflexivity).
  assert (Hmsg : "Failed to fetch" <> "") by discriminate.
  split; [exact Hmounted|]. split; [exact Hin|]. split; [exact Hfails|].
  split; [exact Hmsg|].
  exact (proj1 (failure_shows_error_panel Sample.converting paging 1%nat _ _
                  Hmounted Hin Hfails) Hmsg).
Defined.

(* ------------------------------------------------------------------ *)
(** ** Blob URLs of a replaced page *)

Lemma applyData_galleryItemsRef env data s :
  galleryItemsRef (applyData env data s) = S (galleryItemsRef s).
Proof. destruct data as [content ? ? ? ?|items|[items|]]; reflexivity. Qed.

(** X7.  When a successful answer replaces the page, the cleanup of the
    old page runs: [URL.revokeObjectURL] is called once for every
    blob-backed item of the page that was on screen, in page order, and
    for nothing else.  A failed fetch revokes nothing. *)
Theorem replaced_page_is_released env (w : World) (k : nat) (outcome : FetchOutcome) :
  mounted w = true ->
  In k (inflight w) ->
  let w' := step env w (Arrive k outcome) in
  (forall data, succeedsWith outcome data ->
     revoked w' = (revoked w ++ blobUrls (galleryItems (ui w)))%list)
  /\ (forall message, fetchFails outcome message -> revoked w' = revoked w).
Proof.
  intros Hmounted Hin w'. subst w'.
  rewrite (step_Arrive env w k outcome Hmounted).
  unfold arrive. rewrite (proj2 (existsb_eqb_In k (inflight w)) Hin).
  rewrite dispatch_completeFetch. unfold cleanupEffect.
  cbn [ui withUi answered revoked].
  split.
  - intros data Hok.
    rewrite (completeFetch_success env outcome data (ui w) Hok).
    cbn [galleryItemsRef setIsPaginating setIsLoading].
    rewrite applyData_galleryItemsRef.
    destruct (Nat.eqb_spec (galleryItemsRef (ui w)) (S (galleryItemsRef (ui w)))) as [Heq|_].
    { exfalso. apply (Nat.neq_succ_diag_r _ Heq). }
    reflexivity.
  - intros message Hfails.
    rewrite (completeFetch_failure env outcome message (ui w)
               (failureMessage_fails _ _ Hfails)).
    cbn [galleryItemsRef setIsPaginating setIsLoading setError].
    rewrite Nat.eqb_refl. reflexivity.
Qed.

Lemma replaced_page_is_released_witness :
  let paging := step Sample.converting Sample.firstPage (PageChange 1) in
  let answer := Sample.envelope [Sample.photo 4 "/media/d.png"] 1 3 7 3 in
  mounted paging = true
  /\ In 1%nat (inflight paging)
  /\ revoked (step Sample.converting paging (Arrive 1%nat answer))
     = ["blob:http://localhost/7"].
Proof.
  intros paging answer.
  assert (Hmounted : mounted paging = true) by (vm_compute; reflexivity).
  assert (Hin : In 1%nat (inflight paging)) by (vm_compute; left; reflexivity).
  assert (Hok : succeedsWith answer (PageEnvelope [Sample.photo 4 "/media/d.png"] 1 3 7 3)).
  { exists 200. split; [lia|reflexivity]. }
  split; [exact Hmounted|]. split; [exact Hin|].
  rewrite (proj1 (replaced_page_is_released Sample.converting paging 1%nat answer
                    Hmounted Hin) _ Hok).
  vm_compute. reflexivity.
Defined.

(* ------------------------------------------------------------------ *)
(** ** Opening the viewer *)

Lemma findIndexFrom_found {A} (p : A -> bool) items :
  forall k x,
    In x items -> p x = true ->
    exists j found,
      findIndexFrom p items k = k + Z.of_nat j
      /\ nth_error items j = Some found
      /\ p found = true
      /\ (forall i y, (i < j)%nat -> nth_error items i = Some y -> p y = false).
Proof.
  induction items as [|a items IH]; intros k x Hin Hp; [contradiction|].
  cbn [findIndexFrom]. destruct (p a) eqn:Hpa.
  - exists 0%nat, a. split; [lia|]. split; [reflexivity|]. split; [exact Hpa|].
    intros i y Hi. lia.
  - destruct Hin as [->|Hin]; [congruence|].
    destruct (IH (k + 1) x Hin Hp) as (j & found & Hidx & Hnth & Hfound & Hfirst).
    exists (S j), found. split; [lia|]. split; [exact Hnth|]. split; [exact Hfound|].
    intros [|i] y Hi Hy.
    + cbn in Hy. congruence.
    + apply (Hfirst i y); [lia|exact Hy].
Qed.

Lemma findIndexFrom_missing {A} (p : A -> bool) items :
  forall k, (forall x, In x items -> p x = false) -> findIndexFrom p items k = -1.
Proof.
  induction items as [|a items IH]; intros k Hnone; [reflexivity|].
  cbn [findIndexFrom]. rewrite (Hnone a (or_introl eq_refl)).
  apply IH. intros x Hx. apply Hnone. right. exact Hx.
Qed.

Lemma nth_error_same_id items :
  NoDup (map id items) ->
  forall i j x y,
    nth_error items i = Some x -> nth_error items j = Some y -> id x = id y -> i = j.
Proof.
  intros Hnodup i j x y Hx Hy Hid.
  apply (proj1 (NoDup_nth_error (map id items)) Hnodup).
  - rewrite length_map. apply nth_error_Some. congruence.
  - rewrite !nth_error_map, Hx, Hy. cbn. congruence.
Qed.

(** X8.  A click on an item of the page opens the viewer on that item,
    with the index of the first item of the page that has the same id;
    when the ids of the page are distinct this is the position of the
    clicked item itself.  For an item whose id is not on the page the
    index is -1. *)
Theorem open_viewer_index (s : GalleryState) (item : MediaItem) :
  selectedItem (openViewer item s) = Some item
  /\ (In item (filteredItems s) ->
      exists j found,
        currentIndex (openViewer item s) = Num (Z.of_nat j)
        /\ nth_error (filteredItems s) j = Some found
        /\ id found = id item
        /\ (forall i y, (i < j)%nat -> nth_error (filteredItems s) i = Some y ->
                        id y <> id item)
        /\ (NoDup (map id (filteredItems s)) -> found = item))
  /\ ((forall other, In other (filteredItems s) -> id other <> id item) ->
      currentIndex (openViewer item s) = Num (-1)).
Proof.
  split; [reflexivity|]. split.
  - intros Hin.
    destruct (findIndexFrom_found (fun i => id i =? id item) (filteredItems s) 0 item Hin
                (Z.eqb_refl _)) as (j & found & Hidx & Hnth & Hfound & Hfirst).
    exists j, found.
    split; [cbn [currentIndex openViewer setIsVideoPlaying setSelectedItem setCurrentIndex];
            unfold findIndex; rewrite Hidx; reflexivity|].
    split; [exact Hnth|]. split; [apply Z.eqb_eq; exact Hfound|].
    split.
    + intros i y Hi Hy Hsame. specialize (Hfirst i y Hi Hy).
      apply Z.eqb_neq in Hfirst. contradiction.
    + intros Hnodup. apply In_nth_error in Hin. destruct Hin as [i Hi].
      apply Z.eqb_eq in Hfound.
      assert (Hij : j = i) by (apply (nth_error_same_id _ Hnodup j i found item); assumption).
      subst i. congruence.
  - intros Hnone.
    cbn [currentIndex openViewer setIsVideoPlaying setSelectedItem setCurrentIndex].
    unfold findIndex. rewrite findIndexFrom_missing; [reflexivity|].
    intros other Hother. apply Z.eqb_neq. apply Hnone. exact Hother.
Qed.

Lemma open_viewer_index_witness :
  In Sample.thirdPhoto (filteredItems (ui Sample.firstPage))
  /\ exists j found,
      currentIndex (openViewer Sample.thirdPhoto (ui Sample.firstPage)) = Num (Z.of_nat j)
      /\ nth_error (filteredItems (ui Sample.firstPage)) j = Some found
      /\ id found = id Sample.thirdPhoto.
Proof.
  assert (Hin : In Sample.thirdPhoto (filteredItems (ui Sample.firstPage))).
  { vm_compute. right. right. left. reflexivity. }
  split; [exact Hin|].
  destruct (proj1 (proj2 (open_viewer_index (ui Sample.firstPage) Sample.thirdPhoto)) Hin)
    as (j & found & Hidx & Hnth & Hid & _).
  exists j, found. split; [exact Hidx|]. split; [exact Hnth|exact Hid].
Defined.

(* ------------------------------------------------------------------ *)
(** ** Walking through the page in the viewer *)

(** A press of an arrow of the viewer: the handler of the current render
    runs; besides the viewer only the key listener can change. *)
Lemma step_Navigate env w direction :
  mounted w = true ->
  ui (step env w (NavigateViewer direction)) = navigateViewer direction (ui w)
  /\ mounted (step env w (NavigateViewer direction)) = true
  /\ requests (step env w (NavigateViewer direction)) = requests w
  /\ revoked (step env w (NavigateViewer direction)) = revoked w.
Proof.
  intros Hmounted.
  rewrite step_ui, step_keeps_mounted, step_requests, step_revoked.
  rewrite handle_mounted by exact Hmounted.
  rewrite dispatch_quiet by apply navigateViewer_keepsDeps.
  repeat split. exact Hmounted.
Qed.

(** One press from an index of the page: the index moves by one, modulo
    the number of items, and the item shown is the page's item there. *)
Lemma navigateViewer_in_range direction s i :
  currentIndex s = Num i ->
  0 <= i < Z.of_nat (List.length (filteredItems s)) ->
  let n := Z.of_nat (List.length (filteredItems s)) in
  let j := (i + match direction with next => 1 | prev => -1 end) mod n in
  currentIndex (navigateViewer direction s) = Num j
  /\ 0 <= j < n
  /\ selectedItem (navigateViewer direction s) = nth_error (filteredItems s) (Z.to_nat j).
Proof.
  intros Hidx Hi n j.
  assert (Hj : 0 <= j < n) by (apply Z.mod_pos_bound; lia).
  assert (Hnav : navigateIndex direction s = Num j).
  { destruct direction.
    - rewrite (navigateIndex_next s i Hidx Hi). reflexivity.
    - rewrite (navigateIndex_prev s i Hidx Hi). fold n. subst j.
      f_equal. replace (i - 1 + n) with (i + -1 + 1 * n) by lia.
      apply Z_mod_plus_full. }
  rewrite navigateViewer_currentIndex, navigateViewer_selectedItem, Hnav.
  split; [reflexivity|]. split; [exact Hj|].
  destruct (arrayGet_in_range (filteredItems s) j Hj) as (item & Hget & Hnth).
  rewrite Hget, Hnth. reflexivity.
Qed.

(** X9.  Next followed by prev, and prev followed by next, bring the
    viewer back to the index it started from and show the page's item at
    that index. *)
Theorem navigation_round_trip env (w : World) (i : Z) :
  mounted w = true ->
  currentIndex (ui w) = Num i ->
  0 <= i < Z.of_nat (List.length (filteredItems (ui w))) ->
  forall direction,
    let back := match direction with next => prev | prev => next end in
    let w' := run env [NavigateViewer direction; NavigateViewer back] w in
    currentIndex (ui w') = Num i
    /\ selectedItem (ui w') = nth_error (filteredItems (ui w)) (Z.to_nat i)
    /\ requests w' = requests w
    /\ revoked w' = revoked w.
Proof.
  intros Hmounted Hidx Hi direction back w'. subst w'.
  unfold run. cbn [fold_left].
  destruct (step_Navigate env w direction Hmounted) as (Hui1 & Hm1 & Hreq1 & Hrev1).
  destruct (step_Navigate env (step env w (NavigateViewer direction)) back Hm1)
    as (Hui2 & _ & Hreq2 & Hrev2).
  rewrite Hui2, Hreq2, Hrev2, Hui1, Hreq1, Hrev1.
  set (n := Z.of_nat (List.length (filteredItems (ui w)))) in *.
  destruct (navigateViewer_in_range direction (ui w) i Hidx Hi) as (Hidx1 & Hj & _).
  fold n in Hidx1, Hj.
  assert (Hitems : filteredItems (navigateViewer direction (ui w)) = filteredItems (ui w))
    by reflexivity.
  assert (Hj' : 0 <= (i + match direction with next => 1 | prev => -1 end) mod n
                < Z.of_nat (List.length (filteredItems (navigateViewer direction (ui w)))))
    by (rewrite Hitems; exact Hj).
  destruct (navigateViewer_in_range back (navigateViewer direction (ui w)) _ Hidx1 Hj')
    as (Hidx2 & _ & Hsel2).
  rewrite Hitems in Hidx2, Hsel2. fold n in Hidx2, Hsel2.
  assert (Hback : ((i + match direction with next => 1 | prev => -1 end) mod n
                   + match back with next => 1 | prev => -1 end) mod n = i).
  { rewrite Zplus_mod_idemp_l. subst back.
    destruct direction.
    - replace (i + 1 + -1) with i by lia. apply Z.mod_small. lia.
    - replace (i + -1 + 1) with i by lia. apply Z.mod_small. lia. }
  rewrite Hback in Hidx2, Hsel2.
  repeat split; assumption.
Qed.

Lemma navigation_round_trip_witness :
  let viewing := step Sample.converting Sample.firstPage (OpenViewer Sample.thirdPhoto) in
  mounted viewing = true
  /\ currentIndex (ui viewing) = Num 2
  /\ 0 <= 2 < Z.of_nat (List.length (filteredItems (ui viewing)))
  /\ currentIndex
       (ui (run Sample.converting [NavigateViewer next; NavigateViewer prev] viewing))
     = Num 2.
Proof.
  intros viewing.
  assert (Hmounted : mounted viewing = true) by (vm_compute; reflexivity).
  assert (Hidx : currentIndex (ui viewing) = Num 2) by (vm_compute; reflexivity).
  assert (Hi : 0 <= 2 < Z.of_nat (List.length (filteredItems (ui viewing))))
    by (vm_compute; split; [discriminate|reflexivity]).
  split; [exact Hmounted|]. split; [exact Hidx|]. split; [exact Hi|].
  exact (proj1 (navigation_round_trip Sample.converting viewing 2 Hmounted Hidx Hi next)).
Defined.

Lemma presses_move env direction k :
  forall w i,
    mounted w = true ->
    currentIndex (ui w) = Num i ->
    0 <= i < Z.of_nat (List.length (filteredItems (ui w))) ->
    let n := Z.of_nat (List.length (filteredItems (ui w))) in
    let w' := run env (presses direction k) w in
    currentIndex (ui w')
    = Num ((i + match direction with next => 1 | prev => -1 end * Z.of_nat k) mod n)
    /\ filteredItems (ui w') = filteredItems (ui w)
    /\ requests w' = requests w.
Proof.
  induction k as [|k IH]; intros w i Hmounted Hidx Hi n w'; subst w'.
  - cbn [presses repeat run fold_left]. rewrite Hidx.
    replace (i + _ * Z.of_nat 0) with i by lia.
    rewrite Z.mod_small by exact Hi. repeat split.
  - cbn [presses repeat]. unfold run. cbn [fold_left].
    destruct (step_Navigate env w direction Hmounted) as (Hui1 & Hm1 & Hreq1 & _).
    destruct (navigateViewer_in_range direction (ui w) i Hidx Hi) as (Hidx1 & Hj & _).
    fold n in Hidx1, Hj.
    set (w1 := step env w (NavigateViewer direction)) in *.
    assert (Hpage : filteredItems (ui w1) = filteredItems (ui w))
      by (rewrite Hui1; reflexivity).
    rewrite <- Hui1 in Hidx1.
    assert (Hj1 : 0 <= (i + match direction with next => 1 | prev => -1 end) mod n
                  < Z.of_nat (List.length (filteredItems (ui w1))))
      by (rewrite Hpage; exact Hj).
    specialize (IH w1 _ Hm1 Hidx1 Hj1).
    cbv zeta in IH. destruct IH as (Hend & Hitems & Hreq).
    change (fold_left (step env) (repeat (NavigateViewer direction) k) w1)
      with (run env (presses direction k) w1).
    rewrite Hend, Hitems, Hreq, Hpage, Hreq1.
    split; [|split; reflexivity].
    fold n. rewrite Zplus_mod_idemp_l. f_equal. f_equal. lia.
Qed.

(** X10.  From an index [i] of a page of [n] items, [k] presses of next
    lead to index [(i + k) mod n] and [k] presses of prev to
    [(i - k) mod n]; the page and the request log stay as they are.  In
    particular [n] presses in either direction come back to [i]. *)
Theorem navigation_presses env (w : World) (i : Z) (direction : Direction) (k : nat) :
  mounted w = true ->
  currentIndex (ui w) = Num i ->
  0 <= i < Z.of_nat (List.length (filteredItems (ui w))) ->
  let n := Z.of_nat (List.length (filteredItems (ui w))) in
  currentIndex (ui (run env (presses direction k) w))
  = Num (match direction with
         | next => (i + Z.of_nat k) mod n
         | prev => (i - Z.of_nat k) mod n
         end)
  /\ currentIndex
       (ui (run env (presses direction (List.length (filteredItems (ui w)))) w))
     = Num i
  /\ filteredItems (ui (run env (presses direction k) w)) = filteredItems (ui w)
  /\ requests (run env (presses direction k) w) = requests w.
Proof.
  intros Hmounted Hidx Hi n.
  destruct (presses_move env direction k w i Hmounted Hidx Hi) as (Hend & Hitems & Hreq).
  destruct (presses_move env direction (List.length (filteredItems (ui w))) w i
              Hmounted Hidx Hi) as (Hfull & _).
  fold n in Hend, Hfull.
  split; [|split; [|split; assumption]].
  - rewrite Hend. destruct direction; f_equal; f_equal; lia.
  - rewrite Hfull. f_equal.
    rewrite Z_mod_plus_full. apply Z.mod_small. exact Hi.
Qed.

Lemma navigation_presses_witness :
  let viewing := step Sample.converting Sample.firstPage (OpenViewer Sample.secondClip) in
  mounted viewing = true
  /\ currentIndex (ui viewing) = Num 1
  /\ 0 <= 1 < Z.of_nat (List.length (filteredItems (ui viewing)))
  /\ currentIndex (ui (run Sample.converting (presses next 5) viewing)) = Num 0.
Proof.
  intros viewing.
  assert (Hmounted : mounted viewing = true) by (vm_compute; reflexivity).
  assert (Hidx : currentIndex (ui viewing) = Num 1) by (vm_compute; reflexivity).
  assert (Hi : 0 <= 1 < Z.of_nat (List.length (filteredItems (ui viewing))))
    by (vm_compute; split; [discriminate|reflexivity]).
  split; [exact Hmounted|]. split; [exact Hidx|]. split; [exact Hi|].
  rewrite (proj1 (navigation_presses Sample.converting viewing 1 next 5 Hmounted Hidx Hi)).
  vm_compute. reflexivity.
Defined.

(* ------------------------------------------------------------------ *)
(** ** Keyboard and playback *)

Lemma navigateViewer_navigateSeen direction s :
  navigateViewer direction s = navigateSeen (filteredItems s) direction s.
Proof. destruct direction; reflexivity. Qed.

Lemma navigateSeen_keepsDeps items direction s :
  keepsDeps s (navigateSeen items direction s).
Proof. repeat split. Qed.

(** One arrow key from an index of the listener's page. *)
Lemma navigateSeen_in_range items direction s i :
  currentIndex s = Num i ->
  0 <= i < Z.of_nat (List.length items) ->
  let n := Z.of_nat (List.length items) in
  let j := (i + match direction with next => 1 | prev => -1 end) mod n in
  currentIndex (navigateSeen items direction s) = Num j
  /\ 0 <= j < n
  /\ selectedItem (navigateSeen items direction s) = nth_error items (Z.to_nat j)
  /\ isVideoPlaying (navigateSeen items direction s) = false
  /\ galleryItems (navigateSeen items direction s) = galleryItems s
  /\ galleryItemsRef (navigateSeen items direction s) = galleryItemsRef s.
Proof.
  intros Hidx Hi n j.
  assert (Hj : 0 <= j < n) by (apply Z.mod_pos_bound; lia).
  assert (Hnew : match direction with
                 | next => jsRem (jsAdd (currentIndex s) (Num 1)) (jsLength items)
                 | prev => jsRem (jsAdd (jsSub (currentIndex s) (Num 1)) (jsLength items))
                                 (jsLength items)
                 end = Num j).
  { rewrite Hidx. unfold jsLength. cbn [jsAdd jsSub jsRem]. fold n.
    destruct (Z.eqb_spec n 0); [lia|]. subst j.
    destruct direction; rewrite Z.rem_mod_nonneg by lia; f_equal.
    replace (i - 1 + n) with (i + -1 + 1 * n) by lia. apply Z_mod_plus_full. }
  unfold navigateSeen.
  cbn [currentIndex selectedItem isVideoPlaying galleryItems galleryItemsRef
       setIsVideoPlaying setSelectedItem setCurrentIndex].
  rewrite Hnew.
  split; [reflexivity|]. split; [exact Hj|].
  destruct (arrayGet_in_range items j Hj) as (item & Hget & Hnth).
  rewrite Hget, Hnth. repeat split.
Qed.

Lemma handleKeyDown_arrow key direction w item :
  selectedItem (ui w) = Some item ->
  (key = "ArrowRight" /\ direction = next) \/ (key = "ArrowLeft" /\ direction = prev) ->
  handleKeyDown key w
  = withUi (navigateSeen (seenItems (listener w)) direction (ui w)) w.
Proof.
  intros Hopen Hkey. unfold handleKeyDown. rewrite Hopen.
  destruct Hkey as [[-> ->]|[-> ->]]; cbn [String.eqb Ascii.eqb Bool.eqb];
    apply dispatch_quiet, navigateSeen_keepsDeps.
Qed.

(** X11.  An arrow key walks the page that the key listener saw when it
    was bound, which after a replacement of the page is the page before:
    from index [i] of that page it moves to [(i + 1) mod n] or
    [(i - 1) mod n] of its [n] items and shows that page's item there,
    whatever is on screen.  If that page has two items or more the
    listener is bound again by this, to the page on screen; so when the
    page on screen is empty, the next arrow key closes the viewer (index
    [NaN], no item selected). *)
Theorem stale_arrow_keys env (w : World) (item : MediaItem) (i : Z)
        (key : string) (direction : Direction) :
  mounted w = true ->
  selectedItem (ui w) = Some item ->
  currentIndex (ui w) = Num i ->
  0 <= i < Z.of_nat (List.length (seenItems (listener w))) ->
  (key = "ArrowRight" /\ direction = next) \/ (key = "ArrowLeft" /\ direction = prev) ->
  let n := Z.of_nat (List.length (seenItems (listener w))) in
  let j := (i + match direction with next => 1 | prev => -1 end) mod n in
  let w' := step env w (KeyDown key) in
  currentIndex (ui w') = Num j
  /\ selectedItem (ui w') = nth_error (seenItems (listener w)) (Z.to_nat j)
  /\ galleryItems (ui w') = galleryItems (ui w)
  /\ requests w' = requests w
  /\ (2 <= n ->
      seenItems (listener w') = galleryItems (ui w)
      /\ seenRef (listener w') = galleryItemsRef (ui w)
      /\ (galleryItems (ui w) = [] ->
          forall again,
            again = "ArrowRight" \/ again = "ArrowLeft" ->
            currentIndex (ui (step env w' (KeyDown again))) = NaN
            /\ selectedItem (ui (step env w' (KeyDown again))) = None)).
Proof.
  intros Hmounted Hopen Hidx Hi Hkey n j w'.
  destruct (navigateSeen_in_range (seenItems (listener w)) direction (ui w) i Hidx Hi)
    as (Hidx1 & Hj & Hsel1 & Hplay1 & Hitems1 & Href1).
  fold n in Hidx1, Hj, Hsel1. fold j in Hidx1, Hj, Hsel1.
  assert (Hhandle : handle env w (KeyDown key)
                    = withUi (navigateSeen (seenItems (listener w)) direction (ui w)) w).
  { rewrite handle_mounted by exact Hmounted.
    apply (handleKeyDown_arrow key direction w item Hopen Hkey). }
  assert (Hui : ui w' = navigateSeen (seenItems (listener w)) direction (ui w)).
  { subst w'. rewrite step_ui, Hhandle. reflexivity. }
  rewrite Hui.
  split; [exact Hidx1|]. split; [exact Hsel1|]. split; [exact Hitems1|].
  split; [subst w'; rewrite step_requests, Hhandle; reflexivity|].
  intros Hmany.
  assert (Hmoved : j <> i).
  { subst j. destruct direction; intros Hsame.
    - destruct (Z.eq_dec (i + 1) n) as [Hlast|Hinner].
      + rewrite Hlast, Z_mod_same_full in Hsame. lia.
      + rewrite Z.mod_small in Hsame by lia. lia.
    - destruct (Z.eq_dec i 0) as [Hzero|Hpos].
      + subst i. replace (0 + -1) with (n - 1 + -1 * n) in Hsame by lia.
        rewrite Z_mod_plus_full, Z.mod_small in Hsame by lia. lia.
      + rewrite Z.mod_small in Hsame by lia. lia. }
  assert (Hbound : w' = {| ui := navigateSeen (seenItems (listener w)) direction (ui w);
                           mounted := mounted w; now := now w; timer := timer w;
                           requests := requests w; inflight := inflight w;
                           normalizing := normalizing w; revoked := revoked w;
                           listener := {| seenItems := galleryItems (ui w);
                                          seenRef := galleryItemsRef (ui w) |};
                           selectedFrom :=
                             match nth_error (seenItems (listener w)) (Z.to_nat j) with
                             | Some _ => sourceRef w (KeyDown key)
                             | None => selectedFrom w
                             end |}).
  { subst w'. unfold step. rewrite Hhandle. unfold rebindListener, keyDepsChanged.
    cbn [ui withUi]. rewrite Hidx, Hidx1. cbn [jsSame].
    destruct (Z.eqb_spec i j) as [Hsame|_]; [congruence|].
    cbn [negb orb mounted now timer requests inflight normalizing revoked withUi
         selectedFrom].
    rewrite Hsel1, Hitems1, Href1. reflexivity. }
  split; [rewrite Hbound; reflexivity|]. split; [rewrite Hbound; reflexivity|].
  intros Hempty again Hagain.
  assert (Hstill : selectedItem (ui w') = nth_error (seenItems (listener w)) (Z.to_nat j))
    by (rewrite Hui; exact Hsel1).
  destruct (arrayGet_in_range (seenItems (listener w)) j Hj) as (shown & _ & Hshown).
  rewrite Hshown in Hstill.
  assert (Hmounted' : mounted w' = true) by (rewrite Hbound; exact Hmounted).
  assert (Hseen : seenItems (listener w') = []) by (rewrite Hbound; exact Hempty).
  rewrite !step_ui, (handle_mounted env w' (KeyDown again) Hmounted').
  assert (Hdir : exists back, (again = "ArrowRight" /\ back = next)
                              \/ (again = "ArrowLeft" /\ back = prev)).
  { destruct Hagain as [->| ->]; [exists next; left|exists prev; right]; split; reflexivity. }
  destruct Hdir as [back Hback].
  rewrite (handleKeyDown_arrow again back w' shown Hstill Hback), Hseen.
  cbn [ui withUi]. unfold navigateSeen.
  cbn [currentIndex selectedItem setIsVideoPlaying setSelectedItem setCurrentIndex].
  destruct back, (currentIndex (ui w')); split; reflexivity.
Qed.

Lemma stale_arrow_keys_witness :
  let emptied :=
    run Sample.converting
      [PageChange 1; OpenViewer Sample.thirdPhoto;
       Arrive 1%nat (Sample.envelope [] 1 3 7 3)]
      Sample.firstPage in
  let pressed := step Sample.converting emptied (KeyDown "ArrowRight") in
  mounted emptied = true
  /\ selectedItem (ui emptied) = Some Sample.thirdPhoto
  /\ currentIndex (ui emptied) = Num 2
  /\ 0 <= 2 < Z.of_nat (List.length (seenItems (listener emptied)))
  /\ galleryItems (ui emptied) = []
  /\ currentIndex (ui pressed) = Num 0
  /\ selectedItem (ui pressed) = Some (processItem Sample.converting Sample.firstPhoto)
  /\ selectedItem (ui (step Sample.converting pressed (KeyDown "ArrowRight"))) = None.
Proof.
  intros emptied pressed.
  assert (Hmounted : mounted emptied = true) by (vm_compute; reflexivity).
  assert (Hopen : selectedItem (ui emptied) = Some Sample.thirdPhoto)
    by (vm_compute; reflexivity).
  assert (Hidx : currentIndex (ui emptied) = Num 2) by (vm_compute; reflexivity).
  assert (Hi : 0 <= 2 < Z.of_nat (List.length (seenItems (listener emptied))))
    by (vm_compute; split; [discriminate|reflexivity]).
  assert (Hempty : galleryItems (ui emptied) = []) by (vm_compute; reflexivity).
  assert (Hkey : ("ArrowRight" = "ArrowRight" /\ next = next)
                 \/ ("ArrowRight" = "ArrowLeft" /\ next = prev))
    by (left; split; reflexivity).
  assert (Hmany : 2 <= Z.of_nat (List.length (seenItems (listener emptied))))
    by (vm_compute; discriminate).
  destruct (stale_arrow_keys Sample.converting emptied _ 2 "ArrowRight" next
              Hmounted Hopen Hidx Hi Hkey) as (Hnew & Hshown & _ & _ & Hrebound).
  destruct (Hrebound Hmany) as (_ & _ & Hcloses).
  split; [exact Hmounted|]. split; [exact Hopen|]. split; [exact Hidx|].
  split; [exact Hi|]. split; [exact Hempty|].
  split; [fold pressed in Hnew; rewrite Hnew; vm_compute; reflexivity|].
  split; [fold pressed in Hshown; rewrite Hshown; vm_compute; reflexivity|].
  exact (proj2 (Hcloses Hempty "ArrowRight" (or_introl eq_refl))).
Defined.

(** A handler that changed nothing leaves the listener bound as it is. *)
Lemma rebindListener_idle w source :
  selectedItem (ui w) = None \/ source = selectedFrom w ->
  rebindListener w source w = w.
Proof.
  intros Hidle. unfold rebindListener, keyDepsChanged.
  rewrite jsSame_refl, Bool.eqb_reflx. cbn [negb orb].
  destruct Hidle as [Hclosed| ->].
  - rewrite Hclosed. reflexivity.
  - destruct (selectedItem (ui w)); [rewrite Nat.eqb_refl|]; reflexivity.
Qed.

(** X12.  The keyboard acts only while the viewer is open: with the
    viewer closed no key changes anything.  With it open, Escape is the
    close button; the space bar toggles playback of a video and does
    nothing on any other item; every key other than these and the two
    arrows does nothing; and while the listener is bound to the page on
    screen, the left and right arrow keys are the prev and next arrows of
    the viewer. *)
Theorem keyboard_shortcuts env (w : World) (key : string) :
  mounted w = true ->
  (selectedItem (ui w) = None -> step env w (KeyDown key) = w)
  /\ (forall item,
        selectedItem (ui w) = Some item ->
        step env w (KeyDown "Escape") = step env w CloseViewer
        /\ (seenItems (listener w) = galleryItems (ui w) ->
            seenRef (listener w) = galleryItemsRef (ui w) ->
            step env w (KeyDown "ArrowLeft") = step env w (NavigateViewer prev)
            /\ step env w (KeyDown "ArrowRight") = step env w (NavigateViewer next))
        /\ (type item = "video" -> step env w (KeyDown " ") = step env w ToggleVideo)
        /\ (type item <> "video" -> step env w (KeyDown " ") = w)
        /\ (key <> "Escape" -> key <> "ArrowLeft" -> key <> "ArrowRight" -> key <> " " ->
            step env w (KeyDown key) = w)).
Proof.
  intros Hmounted. unfold step. rewrite !handle_mounted by exact Hmounted.
  unfold handleKeyDown. split.
  - intros Hclosed. rewrite Hclosed. apply rebindListener_idle. left. exact Hclosed.
  - intros item Hopen. rewrite Hopen.
    cbn [String.eqb Ascii.eqb Bool.eqb andb sourceRef orb].
    split; [reflexivity|]. split; [|split; [|split]].
    + intros Hitems Href. rewrite Hitems, Href. unfold dispatch.
      rewrite !navigateViewer_navigateSeen. split; reflexivity.
    + intros Hvideo. rewrite Hvideo. reflexivity.
    + intros Hother.
      destruct (String.eqb_spec (type item) "video"); [contradiction|].
      apply rebindListener_idle. right. reflexivity.
    + intros Hesc Hleft Hright Hspace.
      destruct (String.eqb_spec key "Escape"); [contradiction|].
      destruct (String.eqb_spec key "ArrowLeft"); [contradiction|].
      destruct (String.eqb_spec key "ArrowRight"); [contradiction|].
      destruct (String.eqb_spec key " "); [contradiction|].
      apply rebindListener_idle. right. reflexivity.
Qed.

Lemma keyboard_shortcuts_witness :
  let viewing := step Sample.converting Sample.firstPage (OpenViewer Sample.secondClip) in
  mounted Sample.firstPage = true
  /\ selectedItem (ui Sample.firstPage) = None
  /\ step Sample.converting Sample.firstPage (KeyDown "ArrowRight") = Sample.firstPage
  /\ mounted viewing = true
  /\ selectedItem (ui viewing) = Some Sample.secondClip
  /\ seenItems (listener viewing) = galleryItems (ui viewing)
  /\ seenRef (listener viewing) = galleryItemsRef (ui viewing)
  /\ step Sample.converting viewing (KeyDown "ArrowRight")
     = step Sample.converting viewing (NavigateViewer next)
  /\ currentIndex (ui (step Sample.converting viewing (KeyDown "ArrowRight"))) = Num 2.
Proof.
  intros viewing.
  assert (Hmounted : mounted Sample.firstPage = true) by (vm_compute; reflexivity).
  assert (Hclosed : selectedItem (ui Sample.firstPage) = None) by (vm_compute; reflexivity).
  assert (Hmounted' : mounted viewing = true) by (vm_compute; reflexivity).
  assert (Hopen : selectedItem (ui viewing) = Some Sample.secondClip)
    by (vm_compute; reflexivity).
  assert (Hitems : seenItems (listener viewing) = galleryItems (ui viewing))
    by (vm_compute; reflexivity).
  assert (Href : seenRef (listener viewing) = galleryItemsRef (ui viewing))
    by (vm_compute; reflexivity).
  pose proof (proj2 (proj1 (proj2 (proj2
                (keyboard_shortcuts Sample.converting viewing "ArrowRight" Hmounted')
                Sample.secondClip Hopen)) Hitems Href)) as Hright.
  split; [exact Hmounted|]. split; [exact Hclosed|].
  split; [exact (proj1 (keyboard_shortcuts Sample.converting Sample.firstPage
                          "ArrowRight" Hmounted) Hclosed)|].
  split; [exact Hmounted'|]. split; [exact Hopen|]. split; [exact Hitems|].
  split; [exact Href|]. split; [exact Hright|].
  rewrite Hright. vm_compute. reflexivity.
Defined.

Lemma toggle_absent s :
  viewerVideoPresent s = false -> toggleVideoPlayback s = s.
Proof. intros Habsent. unfold toggleVideoPlayback. rewrite Habsent. reflexivity. Qed.

Lemma toggle_present s :
  viewerVideoPresent s = true ->
  toggleVideoPlayback s = setIsVideoPlaying (negb (isVideoPlaying s)) s.
Proof.
  intros Hpresent. unfold toggleVideoPlayback. rewrite Hpresent.
  destruct (isVideoPlaying s); reflexivity.
Qed.

(** X13.  The play/pause control does nothing unless the viewer shows a
    video; on a video it flips the playing flag and touches nothing else,
    so two presses in a row restore the state. *)
Theorem toggle_playback_twice (s : GalleryState) :
  toggleVideoPlayback (toggleVideoPlayback s) = s
  /\ (viewerVideoPresent s = false -> toggleVideoPlayback s = s)
  /\ (viewerVideoPresent s = true ->
      toggleVideoPlayback s = setIsVideoPlaying (negb (isVideoPlaying s)) s).
Proof.
  split; [|split; [apply toggle_absent|apply toggle_present]].
  destruct (viewerVideoPresent s) eqn:Hshown.
  - rewrite (toggle_present s Hshown).
    rewrite toggle_present by exact Hshown.
    destruct s as [? ? ? ? ? ? ? ? ? playing ? ? ? ? ? ? ?].
    destruct playing; reflexivity.
  - rewrite !(toggle_absent s Hshown). reflexivity.
Qed.

Lemma toggle_playback_twice_witness :
  let viewing := ui (step Sample.converting Sample.firstPage (OpenViewer Sample.secondClip)) in
  viewerVideoPresent viewing = true
  /\ isVideoPlaying (toggleVideoPlayback viewing) = true.
Proof.
  intros viewing.
  assert (Hpresent : viewerVideoPresent viewing = true) by (vm_compute; reflexivity).
  split; [exact Hpresent|].
  rewrite (proj2 (proj2 (toggle_playback_twice viewing)) Hpresent).
  vm_compute. reflexivity.
Defined.

(* ------------------------------------------------------------------ *)
(** ** The normalizer on a whole page *)

Lemma processItem_fields env item :
  id (processItem env item) = id item
  /\ type (processItem env item) = type item
  /\ title (processItem env item) = title item
  /\ event (processItem env item) = event item
  /\ author (processItem env item) = author item
  /\ date (processItem env item) = date item
  /\ featured (processItem env item) = featured item.
Proof. unfold processItem. destruct (flaggedHeic item); repeat split. Qed.

Lemma map_processGalleryItems {B} (field : MediaItem -> B) env items :
  (forall item, field (processItem env item) = field item) ->
  map field (processGalleryItems env items) = map field items.
Proof.
  intros Hkeep. unfold processGalleryItems. rewrite map_map.
  apply map_ext. exact Hkeep.
Qed.

(** X14.  Normalizing a page keeps its shape: as many items, in the same
    order, each with the id, type, title, event, author, date and featured
    flag it came with, and the featured items of the page are the
    normalized featured items. *)
Theorem normalizer_keeps_listing env (items : list MediaItem) :
  List.length (processGalleryItems env items) = List.length items
  /\ (forall i, nth_error (processGalleryItems env items) i
                = option_map (processItem env) (nth_error items i))
  /\ map id (processGalleryItems env items) = map id items
  /\ map type (processGalleryItems env items) = map type items
  /\ map title (processGalleryItems env items) = map title items
  /\ map event (processGalleryItems env items) = map event items
  /\ map author (processGalleryItems env items) = map author items
  /\ map date (processGalleryItems env items) = map date items
  /\ map featured (processGalleryItems env items) = map featured items
  /\ filter featured (processGalleryItems env items)
     = processGalleryItems env (filter featured items).
Proof.
  split; [apply processGalleryItems_length|].
  split; [intros i; apply nth_error_map|].
  repeat split; try (apply map_processGalleryItems; intros item; apply processItem_fields).
  unfold processGalleryItems.
  induction items as [|item items IH]; [reflexivity|].
  cbn [map filter].
  rewrite (proj2 (proj2 (proj2 (proj2 (proj2 (proj2 (processItem_fields env item))))))).
  destruct (featured item); cbn [map]; rewrite IH; reflexivity.
Qed.

(* ------------------------------------------------------------------ *)
(** ** Which locators are taken for HEIC *)

Lemma prefix_spec p s :
  String.prefix p s = true <-> exists rest, s = (p ++ rest)%string.
Proof.
  revert p. induction s as [|b s IH]; intros [|a p]; cbn [String.prefix].
  - split; [intros _; exists ""; reflexivity|reflexivity].
  - split; [discriminate|intros [rest Hrest]; discriminate Hrest].
  - split; [intros _; exists (String b s); reflexivity|reflexivity].
  - destruct (ascii_dec a b) as [->|Hab].
    + rewrite IH. split; intros [rest Hrest]; exists rest.
      * cbn. rewrite <- Hrest. reflexivity.
      * cbn in Hrest. congruence.
    + split; [discriminate|]. intros [rest Hrest]. cbn in Hrest. congruence.
Qed.

Lemma includes_spec needle s :
  JsString.includes needle s = true <-> contains needle s.
Proof.
  unfold contains. induction s as [|c s IH]; cbn [JsString.includes].
  - rewrite orb_false_r, prefix_spec. split.
    + intros [rest Hrest]. exists "", rest. exact Hrest.
    + intros [[|b before] [after Hs]]; [exists after; exact Hs|discriminate Hs].
  - rewrite orb_true_iff, prefix_spec, IH. split.
    + intros [[rest Hrest]|(before & after & Hs)].
      * exists "", rest. exact Hrest.
      * exists (String c before), after. cbn. rewrite <- Hs. reflexivity.
    + intros [[|b before] [after Hs]].
      * left. exists after. exact Hs.
      * right. exists before, after. cbn in Hs. congruence.
Qed.

Lemma toLowerCase_length s :
  String.length (JsString.toLowerCase s) = String.length s.
Proof. induction s as [|c s IH]; [reflexivity|]. cbn. rewrite IH. reflexivity. Qed.

Lemma lowerChar_twice c : JsString.lowerChar (JsString.lowerChar c) = JsString.lowerChar c.
Proof. destruct c as [[] [] [] [] [] [] [] []]; reflexivity. Qed.

Lemma toLowerCase_twice s :
  JsString.toLowerCase (JsString.toLowerCase s) = JsString.toLowerCase s.
Proof.
  induction s as [|c s IH]; [reflexivity|].
  cbn [JsString.toLowerCase]. rewrite lowerChar_twice, IH. reflexivity.
Qed.

(** X15.  An item is handed to the converter exactly when its type is
    "image" and its locator, put in lower case, contains ".heic" or
    ".heif" somewhere (not only at the end); lower-casing the locator
    first makes no difference, so the test does not depend on the case of
    ASCII letters. *)
Theorem heic_flag_meaning (item : MediaItem) :
  (flaggedHeic item = true
   <-> type item = "image"
       /\ (contains ".heic" (JsString.toLowerCase (src item))
           \/ contains ".heif" (JsString.toLowerCase (src item))))
  /\ namesHeic (JsString.toLowerCase (src item)) = namesHeic (src item).
Proof.
  split.
  - unfold flaggedHeic, namesHeic.
    rewrite andb_true_iff, orb_true_iff, String.eqb_eq, !includes_spec. tauto.
  - unfold namesHeic. rewrite toLowerCase_twice. reflexivity.
Qed.

Lemma heic_flag_meaning_witness :
  type (Sample.photo 1 "/media/IMG_1.HEIC?size=large") = "image"
  /\ contains ".heic" (JsString.toLowerCase "/media/IMG_1.HEIC?size=large")
  /\ flaggedHeic (Sample.photo 1 "/media/IMG_1.HEIC?size=large") = true.
Proof.
  assert (Htype : type (Sample.photo 1 "/media/IMG_1.HEIC?size=large") = "image")
    by reflexivity.
  assert (Hname : contains ".heic" (JsString.toLowerCase "/media/IMG_1.HEIC?size=large")).
  { exists "/media/img_1", "?size=large". reflexivity. }
  split; [exact Htype|]. split; [exact Hname|].
  apply (proj1 (heic_flag_meaning (Sample.photo 1 "/media/IMG_1.HEIC?size=large"))).
  split; [exact Htype|left; exact Hname].
Defined.

(* ------------------------------------------------------------------ *)
(** ** The pagination controls as a whole *)

(** The window is a run of consecutive pages inside the page range that
    contains the current page. *)
Lemma pageNumbers_run (pages current : Z) :
  1 <= pages ->
  0 <= current < pages ->
  exists lo,
    pageNumbers pages current = interval lo (lo + Z.min 5 pages - 1)
    /\ 0 <= lo
    /\ lo + Z.min 5 pages <= pages
    /\ lo <= current < lo + Z.min 5 pages.
Proof.
  intros Hpos Hcur. destruct (Z.le_gt_cases pages 5) as [Hfew|Hmany].
  - exists 0. rewrite Z.min_r by lia. split; [|lia].
    unfold pageNumbers. rewrite Z.min_r by lia. rewrite indices_interval.
    rewrite map_ext with (g := fun i => i); [rewrite map_id; f_equal; lia|].
    intros i. unfold pageNum. destruct (Z.leb_spec pages 5); [reflexivity|lia].
  - rewrite Z.min_l by lia. rewrite pageNumbers_five by lia. unfold pageNum.
    destruct (Z.leb_spec pages 5); [lia|].
    destruct (Z.ltb_spec current 3).
    + exists 0. split; [|lia]. change (0 + 5 - 1) with (0 + 4).
      rewrite interval_five. reflexivity.
    + destruct (Z.gtb_spec current (pages - 4)).
      * exists (pages - 5). split; [|lia].
        replace (pages - 5 + 5 - 1) with (pages - 5 + 4) by lia.
        rewrite interval_five. cbn [map]. rewrite Z.add_0_r. reflexivity.
      * exists (current - 2). split; [|lia].
        replace (current - 2 + 5 - 1) with (current - 2 + 4) by lia.
        rewrite interval_five. cbn [map]. rewrite Z.add_0_r. reflexivity.
Qed.

Lemma NoDup_interval lo hi : NoDup (interval lo hi).
Proof.
  unfold interval. generalize (Z.to_nat (hi - lo + 1)) as len.
  generalize 0%nat as start.
  intros start len. revert start.
  induction len as [|len IH]; intros start; cbn [seq map]; constructor.
  - rewrite in_map_iff. intros (k & Hk & Hin). apply in_seq in Hin. lia.
  - apply IH.
Qed.

Lemma interval_length lo hi : List.length (interval lo hi) = Z.to_nat (hi - lo + 1).
Proof. unfold interval. rewrite length_map, length_seq. reflexivity. Qed.

Lemma pageNumbers_bounded (pages current : Z) :
  0 <= current < pages ->
  forall p, In p (pageNumbers pages current) -> 0 <= p < pages.
Proof.
  intros Hcur p Hp.
  assert (Hpos : 1 <= pages) by lia.
  destruct (pageNumbers_run pages current Hpos Hcur) as (lo & Hrun & Hlo & Hhi & _).
  rewrite Hrun in Hp. apply In_interval in Hp. lia.
Qed.

(** X16.  With at least one page and the current page in range, the
    number buttons are [min(5, totalPages)] different pages, all inside
    [0, totalPages), and the current page is one of them (so one button is
    always highlighted). *)
Theorem page_buttons_in_range (pages current : Z) :
  1 <= pages ->
  0 <= current < pages ->
  In current (pageNumbers pages current)
  /\ (forall p, In p (pageNumbers pages current) -> 0 <= p < pages)
  /\ List.length (pageNumbers pages current) = Z.to_nat (Z.min 5 pages)
  /\ NoDup (pageNumbers pages current).
Proof.
  intros Hpos Hcur.
  destruct (pageNumbers_run pages current Hpos Hcur) as (lo & Hrun & Hlo & Hhi & Hin).
  rewrite Hrun. split; [|split; [|split]].
  - apply In_interval. lia.
  - intros p Hp. apply In_interval in Hp. lia.
  - rewrite interval_length. f_equal. lia.
  - apply NoDup_interval.
Qed.

Lemma page_buttons_in_range_witness :
  1 <= 20 /\ 0 <= 19 < 20 /\ In 19 (pageNumbers 20 19).
Proof.
  assert (Hpos : 1 <= 20) by lia.
  assert (Hcur : 0 <= 19 < 20) by lia.
  split; [exact Hpos|]. split; [exact Hcur|].
  exact (proj1 (page_buttons_in_range 20 19 Hpos Hcur)).
Defined.

Lemma step_PageChange_in_range env w target :
  mounted w = true ->
  0 <= target < totalPages (ui w) ->
  requests (step env w (PageChange target))
  = (requests w ++ [buildParams (setPageable (withPage target) (ui w))])%list.
Proof.
  intros Hmounted Hrange. rewrite step_mounted by first [exact Hmounted | reflexivity].
  assert (Hhandler : handlePageChange target (ui w)
                     = setPageable (withPage target) (ui w)).
  { unfold handlePageChange.
    destruct (Z.leb_spec 0 target); [|lia].
    destruct (Z.ltb_spec target (totalPages (ui w))); [reflexivity|lia]. }
  rewrite dispatch_refetch; rewrite Hhandler; reflexivity.
Qed.

(** X17.  With the current page in range, every button of the pagination
    controls that is shown and not disabled asks for a page inside
    [0, totalPages): a click on it passes the guard of the page-change
    handler and sends one request for exactly that page.  First and
    previous are disabled on page 0, next and last on the last page. *)
Theorem enabled_buttons_request_pages env (w : World) (button : PageButton) :
  mounted w = true ->
  0 <= currentPage (ui w) < totalPages (ui w) ->
  buttonShown (ui w) button ->
  buttonDisabled (ui w) button = false ->
  let target := buttonTarget (ui w) button in
  0 <= target < totalPages (ui w)
  /\ requests (step env w (PageChange target))
     = (requests w ++ [buildParams (setPageable (withPage target) (ui w))])%list
  /\ paramsGet "page" (buildParams (setPageable (withPage target) (ui w)))
     = Some (JsString.ofNumber target)
  /\ (buttonDisabled (ui w) FirstPage = true <-> currentPage (ui w) = 0)
  /\ (buttonDisabled (ui w) PreviousPage = true <-> currentPage (ui w) = 0)
  /\ (buttonDisabled (ui w) NextPage = true <-> currentPage (ui w) = totalPages (ui w) - 1)
  /\ (buttonDisabled (ui w) LastPage = true <-> currentPage (ui w) = totalPages (ui w) - 1).
Proof.
  intros Hmounted Hcur Hshown Henabled target.
  assert (Htarget : 0 <= target < totalPages (ui w)).
  { subst target. destruct button as [| |p| |];
      cbn [buttonTarget buttonDisabled buttonShown] in *.
    - lia.
    - apply Z.eqb_neq in Henabled. lia.
    - apply (pageNumbers_bounded _ _ Hcur). exact Hshown.
    - destruct (Z.geb_spec (currentPage (ui w)) (totalPages (ui w) - 1)); [discriminate|lia].
    - lia. }
  split; [exact Htarget|].
  split; [apply step_PageChange_in_range; assumption|].
  split; [reflexivity|].
  cbn [buttonDisabled]. rewrite Z.eqb_eq.
  destruct (Z.geb_spec (currentPage (ui w)) (totalPages (ui w) - 1));
    repeat split; intros; try lia; try reflexivity; try discriminate.
Qed.

Lemma enabled_buttons_request_pages_witness :
  mounted Sample.firstPage = true
  /\ 0 <= currentPage (ui Sample.firstPage) < totalPages (ui Sample.firstPage)
  /\ buttonShown (ui Sample.firstPage) LastPage
  /\ buttonDisabled (ui Sample.firstPage) LastPage = false
  /\ requests (step Sample.converting Sample.firstPage
                    (PageChange (buttonTarget (ui Sample.firstPage) LastPage)))
     = [ [("page", "0"); ("size", "12"); ("sort", "date,desc")];
         [("page", "2"); ("size", "12"); ("sort", "date,desc")] ].
Proof.
  assert (Hmounted : mounted Sample.firstPage = true) by (vm_compute; reflexivity).
  assert (Hcur : 0 <= currentPage (ui Sample.firstPage) < totalPages (ui Sample.firstPage))
    by (vm_compute; split; [discriminate|reflexivity]).
  assert (Hshown : buttonShown (ui Sample.firstPage) LastPage) by exact I.
  assert (Henabled : buttonDisabled (ui Sample.firstPage) LastPage = false)
    by (vm_compute; reflexivity).
  split; [exact Hmounted|]. split; [exact Hcur|]. split; [exact Hshown|].
  split; [exact Henabled|].
  rewrite (proj1 (proj2 (enabled_buttons_request_pages Sample.converting Sample.firstPage
                           LastPage Hmounted Hcur Hshown Henabled))).
  vm_compute. reflexivity.
Defined.

(** X18.  The range summary "first-last of total": with a positive page
    size and a page index that is not negative, first is at most last
    exactly when the page starts before the end of the listing; in that
    case 1 <= first, last <= total, the range holds at most [pageSize]
    items, and exactly [pageSize] on every page that is full.  On a page
    past the end the summary runs backwards. *)
Theorem range_summary (s : GalleryState) :
  0 <= currentPage s ->
  0 < pageSize s ->
  (rangeFirst s <= rangeLast s <-> currentPage s * pageSize s < totalElements s)
  /\ (currentPage s * pageSize s < totalElements s ->
      1 <= rangeFirst s
      /\ rangeLast s <= totalElements s
      /\ rangeLast s - rangeFirst s + 1 <= pageSize s
      /\ ((currentPage s + 1) * pageSize s <= totalElements s ->
          rangeLast s - rangeFirst s + 1 = pageSize s))
  /\ (totalElements s <= currentPage s * pageSize s -> rangeLast s < rangeFirst s).
Proof.
  intros Hpage Hsize. unfold rangeFirst, rangeLast.
  rewrite Z.mul_add_distr_r, Z.mul_1_l.
  assert (Hprod : 0 <= currentPage s * pageSize s) by (apply Z.mul_nonneg_nonneg; lia).
  generalize dependent (currentPage s * pageSize s). intros product Hprod.
  repeat split; intros; lia.
Qed.

Lemma range_summary_witness :
  0 <= currentPage (ui Sample.firstPage)
  /\ 0 < pageSize (ui Sample.firstPage)
  /\ currentPage (ui Sample.firstPage) * pageSize (ui Sample.firstPage)
     < totalElements (ui Sample.firstPage)
  /\ rangeLast (ui Sample.firstPage) <= totalElements (ui Sample.firstPage).
Proof.
  assert (Hpage : 0 <= currentPage (ui Sample.firstPage)) by (vm_compute; discriminate).
  assert (Hsize : 0 < pageSize (ui Sample.firstPage)) by (vm_compute; reflexivity).
  assert (Hstart : currentPage (ui Sample.firstPage) * pageSize (ui Sample.firstPage)
                   < totalElements (ui Sample.firstPage)) by (vm_compute; reflexivity).
  split; [exact Hpage|]. split; [exact Hsize|]. split; [exact Hstart|].
  exact (proj1 (proj2 (proj1 (proj2 (range_summary (ui Sample.firstPage) Hpage Hsize))
                         Hstart))).
Defined.

(* ------------------------------------------------------------------ *)
(** ** The featured section *)

Lemma firstn_In {A} (n : nat) (l : list A) x : In x (firstn n l) -> In x l.
Proof.
  revert l. induction n as [|n IH]; intros [|a l] Hin; try contradiction.
  cbn [firstn] in Hin. destruct Hin as [->|Hin]; [left; reflexivity|].
  right. apply IH. exact Hin.
Qed.

(** X19.  The featured section appears only on page 0 with the filter
    "all" and an empty search term, and only when the page has a featured
    item.  It then shows between one and three items, each a featured
    item of the page on screen: the first three in page order. *)
Theorem featured_section_content (s : GalleryState) (shown : list MediaItem) :
  featuredSection s = Some shown ->
  currentPage s = 0
  /\ selectedFilter s = "all"
  /\ searchTerm s = ""
  /\ (1 <= List.length shown <= 3)%nat
  /\ shown = firstn 3 (filter featured (galleryItems s))
  /\ (forall item, In item shown -> featured item = true /\ In item (galleryItems s)).
Proof.
  unfold featuredSection, featuredItems.
  destruct (Nat.eqb_spec (List.length (filter featured (galleryItems s))) 0) as [|Hsome];
    [discriminate|].
  destruct (Z.eqb_spec (currentPage s) 0) as [Hpage|]; [|discriminate].
  destruct (String.eqb_spec (selectedFilter s) "all") as [Hfilter|]; [|discriminate].
  unfold JsString.truthy.
  destruct (String.eqb_spec (searchTerm s) "") as [Hterm|]; [|discriminate].
  cbn [negb andb]. intros Hshown.
  assert (Heq : shown = firstn 3 (filter featured (galleryItems s))) by congruence.
  clear Hshown. subst shown.
  split; [exact Hpage|]. split; [exact Hfilter|]. split; [exact Hterm|].
  split; [|split; [reflexivity|]].
  - rewrite length_firstn. lia.
  - intros item Hin. apply firstn_In in Hin. apply filter_In in Hin. tauto.
Qed.

Lemma featured_section_content_witness :
  featuredSection (ui Sample.firstPage) = Some [Sample.secondClip]
  /\ (1 <= List.length [Sample.secondClip] <= 3)%nat.
Proof.
  assert (Hshown : featuredSection (ui Sample.firstPage) = Some [Sample.secondClip])
    by (vm_compute; reflexivity).
  split; [exact Hshown|].
  exact (proj1 (proj2 (proj2 (proj2
           (featured_section_content (ui Sample.firstPage) _ Hshown))))).
Defined.

(* ------------------------------------------------------------------ *)
(** ** Slow typing *)

Lemma step_Elapse_due env w ms due captured :
  mounted w = true ->
  timer w = Some (due, captured) ->
  due <= now w + ms ->
  step env w (Elapse ms)
  = sendRequest (buildParams (debounceCallback captured (ui w)))
      (withUi (fst (startFetch (debounceCallback captured (ui w))))
         (withTimer None (withNow (now w + ms) w))).
Proof.
  intros Hmounted Htimer Hdue. rewrite step_mounted by first [exact Hmounted | reflexivity].
  rewrite (elapse_due w ms due captured Htimer Hdue).
  rewrite dispatch_refetch by reflexivity. reflexivity.
Qed.

(** X20.  Two changes of the search text with a pause of 500 ms or more
    between them are not merged: the first value is sent when its timer
    comes due, the second 500 ms after it was typed.  Two requests go out,
    in that order, each with page 0 and its own search term. *)
Theorem slow_typing_sends_each_value env (w : World) (first second : string)
        (gap pause : Z) :
  mounted w = true ->
  first <> searchInput (ui w) ->
  second <> first ->
  500 <= gap ->
  500 <= pause ->
  let w' := run env [SearchChange first; Elapse gap; SearchChange second; Elapse pause] w in
  exists earlier later,
    requests w' = (requests w ++ [earlier; later])%list
    /\ paramsGet "search" earlier = (if String.eqb first "" then None else Some first)
    /\ paramsGet "search" later = (if String.eqb second "" then None else Some second)
    /\ paramsGet "page" earlier = Some "0"
    /\ paramsGet "page" later = Some "0"
    /\ searchTerm (ui w') = second
    /\ timer w' = None.
Proof.
  intros Hmounted Hfirst Hsecond Hgap Hpause w'. subst w'.
  unfold run. cbn [fold_left].
  rewrite (step_SearchChange env w first Hmounted Hfirst).
  set (w1 := withTimer _ _).
  rewrite (step_Elapse_due env w1 gap (now w + 500) first Hmounted eq_refl)
    by (cbn [now w1 withTimer withUi]; lia).
  set (s2 := debounceCallback first (ui w1)).
  set (w2 := sendRequest _ _).
  assert (Hinput2 : searchInput (ui w2) = first).
  { subst w2. cbn [ui sendRequest withUi].
    destruct (startFetch_query s2) as (_ & _ & Hin & _). rewrite Hin. reflexivity. }
  assert (Hmounted2 : mounted w2 = true) by exact Hmounted.
  rewrite (step_SearchChange env w2 second Hmounted2)
    by (rewrite Hinput2; exact Hsecond).
  set (w3 := withTimer _ _).
  rewrite (step_Elapse_due env w3 pause (now w2 + 500) second Hmounted2 eq_refl)
    by (cbn [now w3 withTimer withUi]; lia).
  set (s4 := debounceCallback second (ui w3)).
  exists (buildParams s2), (buildParams s4).
  subst w3 w2. cbn [requests sendRequest withUi withTimer withNow ui timer].
  destruct (request_parameters_of s2) as (Hp2 & _ & _ & Hq2 & _).
  destruct (request_parameters_of s4) as (Hp4 & _ & _ & Hq4 & _).
  destruct (startFetch_query s4) as (Hterm4 & _).
  rewrite Hp2, Hq2, Hp4, Hq4, Hterm4.
  split; [rewrite <- app_assoc; reflexivity|].
  repeat split.
Qed.

Lemma slow_typing_sends_each_value_witness :
  mounted Sample.firstPage = true
  /\ "if" <> searchInput (ui Sample.firstPage)
  /\ "iftar" <> "if"
  /\ 500 <= 800
  /\ 500 <= 500
  /\ exists earlier later,
      requests (run Sample.converting
                  [SearchChange "if"; Elapse 800; SearchChange "iftar"; Elapse 500]
                  Sample.firstPage)
      = (requests Sample.firstPage ++ [earlier; later])%list
      /\ paramsGet "search" earlier = Some "if"
      /\ paramsGet "search" later = Some "iftar".
Proof.
  assert (Hmounted : mounted Sample.firstPage = true) by (vm_compute; reflexivity).
  assert (Hfirst : "if" <> searchInput (ui Sample.firstPage)).
  { vm_compute. intros Hsame. discriminate Hsame. }
  assert (Hsecond : "iftar" <> "if") by discriminate.
  assert (Hgap : 500 <= 800) by lia.
  assert (Hpause : 500 <= 500) by lia.
  split; [exact Hmounted|]. split; [exact Hfirst|]. split; [exact Hsecond|].
  split; [exact Hgap|]. split; [exact Hpause|].
  destruct (slow_typing_sends_each_value Sample.converting Sample.firstPage
              "if" "iftar" 800 500 Hmounted Hfirst Hsecond Hgap Hpause)
    as (earlier & later & Hsent & Hearlier & Hlater & _).
  exists earlier, later.
  split; [exact Hsent|]. split; [exact Hearlier|exact Hlater].
Defined.
